(** * The turn orchestrator of the experiment chat client

    A shallow embedding of the orchestration logic of [AI_clean.py]
    (class [ChatWindow]) and of the module state of [feature_flags.py]:
    feature flags, the settings table, the slow-down timing policy, the
    reveal gate, scripted turns, paired (A/B) completions and blueprint
    blocks.

    Conventions of the embedding.
    - Python [int] is [Z]; a [float] timestamp (seconds) is an exact
      rational [Q], so rounding of the binary representation is not
      modelled.
    - A [dict] is a [gmap]; [d.get(k, dflt)] is [default dflt (d !! k)].
    - The module globals and the attributes of the window live in one
      record [World]; a method is a computation [M A] that threads the
      world and may raise.  The world reached when an exception escapes is
      kept, as the Qt event loop goes on after a failing slot.
    - Calls into Qt, worker threads and dialogs are recorded, in order, in
      the [effects] of the world.
    - What the environment answers is given: the script file by its
      content, the clock by the readings handed to the methods, the
      participant by the way each A/B dialog to come will end. *)

From Stdlib Require Import ZArith QArith Qround String List Lia Lqa.
From stdpp Require Import gmap strings list pretty.

(** ** Python values *)

(** A value stored in the settings table: the settings dialog writes the
    state of check boxes, spin boxes and line edits. *)
Inductive value : Type :=
| VBool (b : bool)
| VInt (z : Z)
| VStr (s : string).

Inductive exn : Type :=
| TypeError
| ValueError
| IndexError
| KeyError
| ZeroDivisionError.

Inductive result (A : Type) : Type :=
| Ok (a : A)
| Raise (e : exn).
Arguments Ok {A} a.
Arguments Raise {A} e.

#[global] Instance result_ret : MRet result := fun A a => Ok a.
#[global] Instance result_bind : MBind result := fun A B k r =>
  match r with
  | Ok a => k a
  | Raise e => Raise e
  end.

#[global] Instance value_eq_dec : EqDecision value.
Proof. solve_decision. Defined.

(** Truth value of [if v:] and [not v]. *)
Definition py_truth (v : value) : bool :=
  match v with
  | VBool b => b
  | VInt z => negb (z =? 0)%Z
  | VStr s => negb (String.eqb s "")
  end.

(** [int(v)].  Text is taken to raise: no numeric setting is ever written
    as text by the settings dialog, and the parsing of numerals is not
    modelled. *)
Definition py_int (v : value) : result Z :=
  match v with
  | VBool b => Ok (Z.b2z b)
  | VInt z => Ok z
  | VStr _ => Raise ValueError
  end.

(** [float(v)], with the same convention for text. *)
Definition py_float (v : value) : result Q :=
  match v with
  | VBool b => Ok (inject_Z (Z.b2z b))
  | VInt z => Ok (inject_Z z)
  | VStr _ => Raise ValueError
  end.

(** [f"{v}"]. *)
Definition py_str (v : value) : string :=
  match v with
  | VBool true => "True"
  | VBool false => "False"
  | VInt z => pretty z
  | VStr s => s
  end.

(** [x >= v] for a float [x]; ordering a number against text raises. *)
Definition float_ge (x : Q) (v : value) : result bool :=
  match v with
  | VBool b => Ok (Qle_bool (inject_Z (Z.b2z b)) x)
  | VInt z => Ok (Qle_bool (inject_Z z) x)
  | VStr _ => Raise TypeError
  end.

(** [n >= v] for an int [n]. *)
Definition int_ge (n : Z) (v : value) : result bool :=
  match v with
  | VBool b => Ok (Z.b2z b <=? n)%Z
  | VInt z => Ok (z <=? n)%Z
  | VStr _ => Raise TypeError
  end.

(** [n == v] for an int [n]: never raises, a number differs from text. *)
Definition int_eq (n : Z) (v : value) : bool :=
  match v with
  | VBool b => (n =? Z.b2z b)%Z
  | VInt z => (n =? z)%Z
  | VStr _ => false
  end.

(** [n % m] on ints: the sign follows the divisor, as [Z.modulo]. *)
Definition py_mod (n m : Z) : result Z :=
  if (m =? 0)%Z then Raise ZeroDivisionError else Ok (n mod m)%Z.

(** [n % v] for an int [n]. *)
Definition int_mod (n : Z) (v : value) : result Z :=
  match v with
  | VBool b => py_mod n (Z.b2z b)
  | VInt z => py_mod n z
  | VStr _ => Raise TypeError
  end.

(** [v * 1000] handed to [QTimer.start], which takes an int. *)
Definition to_msec (v : value) : result Z :=
  match v with
  | VBool b => Ok (Z.b2z b * 1000)%Z
  | VInt z => Ok (z * 1000)%Z
  | VStr _ => Raise TypeError
  end.

(** [x % m] for a float [x] and a positive int [m]: the remainder of the
    floored division, in the interval from 0 to [m]. *)
Definition float_mod (x : Q) (m : Z) : Q :=
  x - inject_Z (m * Qfloor (x / inject_Z m)).

(** [int(x)] for a float: truncation towards zero. *)
Definition float_to_int (x : Q) : Z :=
  if Qle_bool 0 x then Qfloor x else Qceiling x.

(** [l[i]] with Python's negative indices. *)
Definition py_index {A} (l : list A) (i : Z) : result A :=
  let n := Z.of_nat (length l) in
  let j := if (i <? 0)%Z then (i + n)%Z else i in
  if (j <? 0)%Z then Raise IndexError
  else match l !! Z.to_nat j with
       | Some x => Ok x
       | None => Raise IndexError
       end.

(** A [str] is held as the bytes of its UTF-8 encoding, which is how a
    string literal of this file reads.  [len(s)] counts code points: the
    bytes other than the continuation bytes [10xxxxxx] of a multi-byte
    character. *)
Definition is_continuation_byte (c : Ascii.ascii) : bool :=
  match c with
  | Ascii.Ascii _ _ _ _ _ _ b6 b7 => b7 && negb b6
  end.

Fixpoint py_len (s : string) : nat :=
  match s with
  | EmptyString => 0
  | String c rest => (if is_continuation_byte c then 0 else 1) + py_len rest
  end.

(** [needle in s] for strings. *)
Fixpoint str_contains (needle s : string) : bool :=
  String.prefix needle s ||
  match s with
  | EmptyString => false
  | String _ s' => str_contains needle s'
  end.

(** ** Feature flags ([feature_flags.py]) *)

Inductive FeatureFlag : Type :=
| SLOWDOWN
| ERASE_HISTORY
| BLOCK_MSGS
| LIE
| RUDE_TONE
| KIND_TONE
| ADVICE_ONLY
| NO_MEMORY
| PERSONA
| AB_TESTING
| AB_UI_TEST
| AB_UI_ALT
| SCRIPTED_RESPONSES
| MIRROR
| ANTI_MIRROR
| GRAMMAR_ERRORS
| TYPEWRITER
| THINKING
| POSITIVE_FEEDBACK
| NEUTRAL_FEEDBACK
| CRITICAL_FEEDBACK
| WEB_SEARCH
| HEDGING_LANGUAGE
| DELAY_BEFORE_SEND
| AUTO_END_AFTER_N_MSGS
| AUTO_END_AFTER_T_MIN
| TEXT_SIZE_CHANGER
| STREAMING
| CUSTOM_CHAT_TITLE
| INTER_TRIAL_SURVEY
| DYNAMIC_FEATURE_CHANGING.

(** The members in definition order, as [for flag in FeatureFlag] visits
    them. *)
Definition all_flags : list FeatureFlag :=
  [ SLOWDOWN; ERASE_HISTORY; BLOCK_MSGS; LIE; RUDE_TONE; KIND_TONE;
    ADVICE_ONLY; NO_MEMORY; PERSONA; AB_TESTING; AB_UI_TEST; AB_UI_ALT;
    SCRIPTED_RESPONSES; MIRROR; ANTI_MIRROR; GRAMMAR_ERRORS; TYPEWRITER;
    THINKING; POSITIVE_FEEDBACK; NEUTRAL_FEEDBACK; CRITICAL_FEEDBACK;
    WEB_SEARCH; HEDGING_LANGUAGE; DELAY_BEFORE_SEND; AUTO_END_AFTER_N_MSGS;
    AUTO_END_AFTER_T_MIN; TEXT_SIZE_CHANGER; STREAMING; CUSTOM_CHAT_TITLE;
    INTER_TRIAL_SURVEY; DYNAMIC_FEATURE_CHANGING ].

(** The value [auto()] gives a member: its position, from 1. *)
Definition FeatureFlag_value (f : FeatureFlag) : nat :=
  match f with
  | SLOWDOWN => 1 | ERASE_HISTORY => 2 | BLOCK_MSGS => 3 | LIE => 4
  | RUDE_TONE => 5 | KIND_TONE => 6 | ADVICE_ONLY => 7 | NO_MEMORY => 8
  | PERSONA => 9 | AB_TESTING => 10 | AB_UI_TEST => 11 | AB_UI_ALT => 12
  | SCRIPTED_RESPONSES => 13 | MIRROR => 14 | ANTI_MIRROR => 15
  | GRAMMAR_ERRORS => 16 | TYPEWRITER => 17 | THINKING => 18
  | POSITIVE_FEEDBACK => 19 | NEUTRAL_FEEDBACK => 20
  | CRITICAL_FEEDBACK => 21 | WEB_SEARCH => 22 | HEDGING_LANGUAGE => 23
  | DELAY_BEFORE_SEND => 24 | AUTO_END_AFTER_N_MSGS => 25
  | AUTO_END_AFTER_T_MIN => 26 | TEXT_SIZE_CHANGER => 27 | STREAMING => 28
  | CUSTOM_CHAT_TITLE => 29 | INTER_TRIAL_SURVEY => 30
  | DYNAMIC_FEATURE_CHANGING => 31
  end.

Definition FeatureFlag_of_value (n : nat) : option FeatureFlag :=
  match n with
  | O => None
  | S i => all_flags !! i
  end.

Definition FeatureFlag_name (f : FeatureFlag) : string :=
  match f with
  | SLOWDOWN => "SLOWDOWN" | ERASE_HISTORY => "ERASE_HISTORY"
  | BLOCK_MSGS => "BLOCK_MSGS" | LIE => "LIE" | RUDE_TONE => "RUDE_TONE"
  | KIND_TONE => "KIND_TONE" | ADVICE_ONLY => "ADVICE_ONLY"
  | NO_MEMORY => "NO_MEMORY" | PERSONA => "PERSONA"
  | AB_TESTING => "AB_TESTING" | AB_UI_TEST => "AB_UI_TEST"
  | AB_UI_ALT => "AB_UI_ALT" | SCRIPTED_RESPONSES => "SCRIPTED_RESPONSES"
  | MIRROR => "MIRROR" | ANTI_MIRROR => "ANTI_MIRROR"
  | GRAMMAR_ERRORS => "GRAMMAR_ERRORS" | TYPEWRITER => "TYPEWRITER"
  | THINKING => "THINKING" | POSITIVE_FEEDBACK => "POSITIVE_FEEDBACK"
  | NEUTRAL_FEEDBACK => "NEUTRAL_FEEDBACK"
  | CRITICAL_FEEDBACK => "CRITICAL_FEEDBACK" | WEB_SEARCH => "WEB_SEARCH"
  | HEDGING_LANGUAGE => "HEDGING_LANGUAGE"
  | DELAY_BEFORE_SEND => "DELAY_BEFORE_SEND"
  | AUTO_END_AFTER_N_MSGS => "AUTO_END_AFTER_N_MSGS"
  | AUTO_END_AFTER_T_MIN => "AUTO_END_AFTER_T_MIN"
  | TEXT_SIZE_CHANGER => "TEXT_SIZE_CHANGER" | STREAMING => "STREAMING"
  | CUSTOM_CHAT_TITLE => "CUSTOM_CHAT_TITLE"
  | INTER_TRIAL_SURVEY => "INTER_TRIAL_SURVEY"
  | DYNAMIC_FEATURE_CHANGING => "DYNAMIC_FEATURE_CHANGING"
  end.

(** [FeatureFlag[name]]: the member of that name, [None] for the
    [KeyError] of an unknown name. *)
Definition FeatureFlag_by_name (name : string) : option FeatureFlag :=
  List.find (fun f => String.eqb (FeatureFlag_name f) name) all_flags.

Definition FeatureFlag_value_cancel (f : FeatureFlag) :
  FeatureFlag_of_value (FeatureFlag_value f) = Some f :=
  match f with
  | SLOWDOWN | ERASE_HISTORY | BLOCK_MSGS | LIE | RUDE_TONE | KIND_TONE
  | ADVICE_ONLY | NO_MEMORY | PERSONA | AB_TESTING | AB_UI_TEST | AB_UI_ALT
  | SCRIPTED_RESPONSES | MIRROR | ANTI_MIRROR | GRAMMAR_ERRORS | TYPEWRITER
  | THINKING | POSITIVE_FEEDBACK | NEUTRAL_FEEDBACK | CRITICAL_FEEDBACK
  | WEB_SEARCH | HEDGING_LANGUAGE | DELAY_BEFORE_SEND
  | AUTO_END_AFTER_N_MSGS | AUTO_END_AFTER_T_MIN | TEXT_SIZE_CHANGER
  | STREAMING | CUSTOM_CHAT_TITLE | INTER_TRIAL_SURVEY
  | DYNAMIC_FEATURE_CHANGING => eq_refl
  end.

#[global] Instance FeatureFlag_eq_dec : EqDecision FeatureFlag :=
  fun x y =>
    match decide (FeatureFlag_value x = FeatureFlag_value y) with
    | left e =>
        left (Some_inj _ _
                (eq_trans (eq_sym (FeatureFlag_value_cancel x))
                   (eq_trans (f_equal FeatureFlag_of_value e)
                      (FeatureFlag_value_cancel y))))
    | right n => right (fun e => n (f_equal FeatureFlag_value e))
    end.

#[global] Instance FeatureFlag_countable : Countable FeatureFlag :=
  inj_countable FeatureFlag_value FeatureFlag_of_value
    FeatureFlag_value_cancel.

(** [enabled_features = {flag: False for flag in FeatureFlag}]. *)
Definition enabled_features_initial : gmap FeatureFlag bool :=
  foldl (fun d flag => <[flag := false]> d) ∅ all_flags.

(** ** The settings table ([feature_flags.py], [feature_settings]) *)

Definition feature_settings_initial : gmap string value :=
  list_to_map
    [ ("text_size", VInt 20);
      ("delay_seconds", VInt 2);
      ("auto_end_messages", VInt 10);
      ("auto_end_minutes", VInt 5);
      ("slowdown_period_s", VInt 100);
      ("slowdown_window_s", VInt 20);
      ("slowdown_min_delay_s", VInt 4);
      ("slowdown_permanent_after_enabled", VBool false);
      ("slowdown_permanent_after_s", VInt 600);
      ("erase_history_delay_s", VInt 60);
      ("erase_history_repeat", VBool false);
      ("erase_history_interval_s", VInt 120);
      ("block_message_count", VInt 5);
      ("block_duration_s", VInt 15);
      ("block_repeat", VBool true);
      ("typewriter_speed_ms", VInt 20);
      ("ab_test_message_threshold", VInt 5);
      ("scripted_convo_file", VStr "script.json");
      ("text_size_b", VInt 24);
      ("delay_seconds_b", VInt 3);
      ("auto_end_messages_b", VInt 15);
      ("auto_end_minutes_b", VInt 8);
      ("slowdown_period_s_b", VInt 150);
      ("slowdown_window_s_b", VInt 30);
      ("slowdown_min_delay_s_b", VInt 6);
      ("slowdown_permanent_after_enabled_b", VBool true);
      ("slowdown_permanent_after_s_b", VInt 900);
      ("erase_history_delay_s_b", VInt 90);
      ("erase_history_repeat_b", VBool true);
      ("erase_history_interval_s_b", VInt 180);
      ("block_message_count_b", VInt 8);
      ("block_duration_s_b", VInt 25);
      ("block_repeat_b", VBool false);
      ("typewriter_speed_ms_b", VInt 50) ].

(** [get_setting_value(setting_key, is_option_b)] ([AI_clean.py], 153-160),
    over the table it reads.  [None] is Python's [None], which
    [feature_settings.get(setting_key, None)] gives for an absent key. *)
Definition get_setting_value (feature_settings : gmap string value)
    (setting_key : string) (is_option_b : bool) : option value :=
  if is_option_b && bool_decide (is_Some (feature_settings !! (setting_key +:+ "_b")))
  then feature_settings !! (setting_key +:+ "_b")
  else feature_settings !! setting_key.

(** The idiom of every caller:
    [v = get_setting_value(key, False)], then [if v is None: v = fallback]. *)
Definition setting_or (feature_settings : gmap string value)
    (setting_key : string) (fallback : value) : value :=
  default fallback (get_setting_value feature_settings setting_key false).

(** ** Scripts, blueprints and recorded effects *)

(** A step of the script file: a JSON object, read with
    [current_step.get(key, dflt)]. *)
Definition step : Type := gmap string string.

(** A block of the blueprint file; a field is [None] when the JSON object
    lacks the key.  [b_features] keeps the order of [items()]. *)
Record block : Type := mkBlock {
  b_name : option string;
  b_duration_messages : option Z;
  b_features : option (list (string * bool));
  b_settings : option (gmap string value)
}.

(** The worker threads the dispatcher starts, by the slot their result is
    connected to. *)
Inductive thread : Type :=
| ChatThread_single (txt : string)   (* result_ready -> _on_response *)
| ChatThread_ui (txt : string)       (* result_ready -> _on_ui_ab_response *)
| ChatThread_alt (txt : string)      (* _start_ab_ui_alt_workflow *)
| ChatThread_A (txt : string)        (* result_ready -> _on_ab_response(_, 'A') *)
| ChatThread_B (txt : string).       (* result_ready -> _on_ab_response(_, 'B') *)

(** The local [proceed] closures handed to the reveal gate. *)
Inductive proceed_fn : Type :=
| proceed_response (reply : string)               (* of _on_response *)
| proceed_ab                                      (* of _on_ab_response *)
| proceed_scripted_ab (reply_a reply_b : string). (* of _handle_scripted_ab_turn *)

(** What [QTimer.singleShot] is given to call later. *)
Inductive callback : Type :=
| cb_proceed (fn : proceed_fn)
| cb_on_response (reply : string)   (* lambda: self._on_response(reply) *)
| cb_end_chat                       (* self._end_chat *)
| cb_show_survey.                   (* self._show_survey *)

Inductive effect : Type :=
| SingleShot (ms : Z) (cb : callback)   (* QTimer.singleShot(ms, cb) *)
| SystemMessage (message : string)      (* add_system_message *)
| AssistantMessage (reply : string)     (* add_message(reply, is_user=False) *)
| ThinkingShown                         (* a ThinkingBubble is inserted *)
| ThinkingRemoved                       (* the ThinkingBubble is removed *)
| ThreadStarted (t : thread)            (* _start_and_track *)
| AbDialog (content_a content_b : string)  (* ABTestingDialog(...).exec() *)
| InputEnabled                          (* input field and buttons enabled *)
| InputDisabled
| TypewriterStarted (speed : value)     (* self._typetimer.start(speed) *)
| EraseTimerStarted (ms : Z)            (* self.erase_timer.start(ms) *)
| BlockTimerStarted                     (* self.block_timer.start(1000) *)
| WindowTitle (title : string)          (* setWindowTitle *)
| EndChat.                              (* _end_chat: export, debrief, close *)

#[global] Instance proceed_fn_eq_dec : EqDecision proceed_fn.
Proof. solve_decision. Defined.
#[global] Instance callback_eq_dec : EqDecision callback.
Proof. solve_decision. Defined.
#[global] Instance thread_eq_dec : EqDecision thread.
Proof. solve_decision. Defined.
#[global] Instance effect_eq_dec : EqDecision effect.
Proof. solve_decision. Defined.

(** ** The world: module globals, window attributes and the participant *)

(** How the modal dialog of an A/B turn ends: with one of the two buttons
    ([_select_a], [_select_b], 2189-2196), or closed without a choice. *)
Inductive ab_outcome : Type :=
| Chose_A
| Chose_B
| Cancelled.

#[global] Instance ab_outcome_eq_dec : EqDecision ab_outcome.
Proof. solve_decision. Defined.

Record World : Type := mkWorld {
  enabled_features : gmap FeatureFlag bool;  (* feature_flags.enabled_features *)
  feature_settings : gmap string value;  (* feature_flags.feature_settings *)
  _SCRIPTED_CONVO_CACHE : option (list step);  (* feature_flags._SCRIPTED_CONVO_CACHE *)
  script_file : list step;  (* what reading the script file yields; [] when missing or invalid *)
  experiment_plan : option (list block);  (* attributes of the ChatWindow from here on *)
  current_block_index : Z;
  messages_in_current_block : Z;
  history : list (string * string);
  count : Z;
  assistant_message_count : Z;
  blocking : bool;
  remaining : option value;
  _must_slow_turn : bool;
  _earliest_display_ts : option Q;
  session_start_time : Q;
  _typebuf : string;
  _typeidx : nat;
  _current_thinking_bubble : bool;
  _current_streaming_bubble : bool;
  ab_test_threshold : Z;
  ab_responses : option (gmap string (option string));
  ab_responses_ready : Z;
  _last_ab_choice : option string;
  script_index : nat;
  custom_font_size : option value;
  participant : nat -> ab_outcome;  (* how the A/B dialogs to come will end, the next one at 0 *)
  effects : list effect  (* calls into Qt, threads and dialogs, oldest first *)
}.

(** Assignment to one attribute: [set_x f w] is [w] with [x] replaced by
    [f] of its old content. *)
Definition set_enabled_features (f : gmap FeatureFlag bool -> gmap FeatureFlag bool) (w : World) : World :=
  mkWorld (f (enabled_features w)) (feature_settings w)
    (_SCRIPTED_CONVO_CACHE w) (script_file w) (experiment_plan w)
    (current_block_index w) (messages_in_current_block w) (history w)
    (count w) (assistant_message_count w) (blocking w) (remaining w)
    (_must_slow_turn w) (_earliest_display_ts w) (session_start_time w)
    (_typebuf w) (_typeidx w) (_current_thinking_bubble w)
    (_current_streaming_bubble w) (ab_test_threshold w) (ab_responses w)
    (ab_responses_ready w) (_last_ab_choice w) (script_index w)
    (custom_font_size w) (participant w) (effects w).

Definition set_feature_settings (f : gmap string value -> gmap string value) (w : World) : World :=
  mkWorld (enabled_features w) (f (feature_settings w))
    (_SCRIPTED_CONVO_CACHE w) (script_file w) (experiment_plan w)
    (current_block_index w) (messages_in_current_block w) (history w)
    (count w) (assistant_message_count w) (blocking w) (remaining w)
    (_must_slow_turn w) (_earliest_display_ts w) (session_start_time w)
    (_typebuf w) (_typeidx w) (_current_thinking_bubble w)
    (_current_streaming_bubble w) (ab_test_threshold w) (ab_responses w)
    (ab_responses_ready w) (_last_ab_choice w) (script_index w)
    (custom_font_size w) (participant w) (effects w).

Definition set_SCRIPTED_CONVO_CACHE (f : option (list step) -> option (list step)) (w : World) : World :=
  mkWorld (enabled_features w) (feature_settings w)
    (f (_SCRIPTED_CONVO_CACHE w)) (script_file w) (experiment_plan w)
    (current_block_index w) (messages_in_current_block w) (history w)
    (count w) (assistant_message_count w) (blocking w) (remaining w)
    (_must_slow_turn w) (_earliest_display_ts w) (session_start_time w)
    (_typebuf w) (_typeidx w) (_current_thinking_bubble w)
    (_current_streaming_bubble w) (ab_test_threshold w) (ab_responses w)
    (ab_responses_ready w) (_last_ab_choice w) (script_index w)
    (custom_font_size w) (participant w) (effects w).

Definition set_experiment_plan (f : option (list block) -> option (list block)) (w : World) : World :=
  mkWorld (enabled_features w) (feature_settings w) (_SCRIPTED_CONVO_CACHE w)
    (script_file w) (f (experiment_plan w)) (current_block_index w)
    (messages_in_current_block w) (history w) (count w)
    (assistant_message_count w) (blocking w) (remaining w)
    (_must_slow_turn w) (_earliest_display_ts w) (session_start_time w)
    (_typebuf w) (_typeidx w) (_current_thinking_bubble w)
    (_current_streaming_bubble w) (ab_test_threshold w) (ab_responses w)
    (ab_responses_ready w) (_last_ab_choice w) (script_index w)
    (custom_font_size w) (participant w) (effects w).

Definition set_current_block_index (f : Z -> Z) (w : World) : World :=
  mkWorld (enabled_features w) (feature_settings w) (_SCRIPTED_CONVO_CACHE w)
    (script_file w) (experiment_plan w) (f (current_block_index w))
    (messages_in_current_block w) (history w) (count w)
    (assistant_message_count w) (blocking w) (remaining w)
    (_must_slow_turn w) (_earliest_display_ts w) (session_start_time w)
    (_typebuf w) (_typeidx w) (_current_thinking_bubble w)
    (_current_streaming_bubble w) (ab_test_threshold w) (ab_responses w)
    (ab_responses_ready w) (_last_ab_choice w) (script_index w)
    (custom_font_size w) (participant w) (effects w).

Definition set_messages_in_current_block (f : Z -> Z) (w : World) : World :=
  mkWorld (enabled_features w) (feature_settings w) (_SCRIPTED_CONVO_CACHE w)
    (script_file w) (experiment_plan w) (current_block_index w)
    (f (messages_in_current_block w)) (history w) (count w)
    (assistant_message_count w) (blocking w) (remaining w)
    (_must_slow_turn w) (_earliest_display_ts w) (session_start_time w)
    (_typebuf w) (_typeidx w) (_current_thinking_bubble w)
    (_current_streaming_bubble w) (ab_test_threshold w) (ab_responses w)
    (ab_responses_ready w) (_last_ab_choice w) (script_index w)
    (custom_font_size w) (participant w) (effects w).

Definition set_history (f : list (string * string) -> list (string * string)) (w : World) : World :=
  mkWorld (enabled_features w) (feature_settings w) (_SCRIPTED_CONVO_CACHE w)
    (script_file w) (experiment_plan w) (current_block_index w)
    (messages_in_current_block w) (f (history w)) (count w)
    (assistant_message_count w) (blocking w) (remaining w)
    (_must_slow_turn w) (_earliest_display_ts w) (session_start_time w)
    (_typebuf w) (_typeidx w) (_current_thinking_bubble w)
    (_current_streaming_bubble w) (ab_test_threshold w) (ab_responses w)
    (ab_responses_ready w) (_last_ab_choice w) (script_index w)
    (custom_font_size w) (participant w) (effects w).

Definition set_count (f : Z -> Z) (w : World) : World :=
  mkWorld (enabled_features w) (feature_settings w) (_SCRIPTED_CONVO_CACHE w)
    (script_file w) (experiment_plan w) (current_block_index w)
    (messages_in_current_block w) (history w) (f (count w))
    (assistant_message_count w) (blocking w) (remaining w)
    (_must_slow_turn w) (_earliest_display_ts w) (session_start_time w)
    (_typebuf w) (_typeidx w) (_current_thinking_bubble w)
    (_current_streaming_bubble w) (ab_test_threshold w) (ab_responses w)
    (ab_responses_ready w) (_last_ab_choice w) (script_index w)
    (custom_font_size w) (participant w) (effects w).

Definition set_assistant_message_count (f : Z -> Z) (w : World) : World :=
  mkWorld (enabled_features w) (feature_settings w) (_SCRIPTED_CONVO_CACHE w)
    (script_file w) (experiment_plan w) (current_block_index w)
    (messages_in_current_block w) (history w) (count w)
    (f (assistant_message_count w)) (blocking w) (remaining w)
    (_must_slow_turn w) (_earliest_display_ts w) (session_start_time w)
    (_typebuf w) (_typeidx w) (_current_thinking_bubble w)
    (_current_streaming_bubble w) (ab_test_threshold w) (ab_responses w)
    (ab_responses_ready w) (_last_ab_choice w) (script_index w)
    (custom_font_size w) (participant w) (effects w).

Definition set_blocking (f : bool -> bool) (w : World) : World :=
  mkWorld (enabled_features w) (feature_settings w) (_SCRIPTED_CONVO_CACHE w)
    (script_file w) (experiment_plan w) (current_block_index w)
    (messages_in_current_block w) (history w) (count w)
    (assistant_message_count w) (f (blocking w)) (remaining w)
    (_must_slow_turn w) (_earliest_display_ts w) (session_start_time w)
    (_typebuf w) (_typeidx w) (_current_thinking_bubble w)
    (_current_streaming_bubble w) (ab_test_threshold w) (ab_responses w)
    (ab_responses_ready w) (_last_ab_choice w) (script_index w)
    (custom_font_size w) (participant w) (effects w).

Definition set_remaining (f : option value -> option value) (w : World) : World :=
  mkWorld (enabled_features w) (feature_settings w) (_SCRIPTED_CONVO_CACHE w)
    (script_file w) (experiment_plan w) (current_block_index w)
    (messages_in_current_block w) (history w) (count w)
    (assistant_message_count w) (blocking w) (f (remaining w))
    (_must_slow_turn w) (_earliest_display_ts w) (session_start_time w)
    (_typebuf w) (_typeidx w) (_current_thinking_bubble w)
    (_current_streaming_bubble w) (ab_test_threshold w) (ab_responses w)
    (ab_responses_ready w) (_last_ab_choice w) (script_index w)
    (custom_font_size w) (participant w) (effects w).

Definition set_must_slow_turn (f : bool -> bool) (w : World) : World :=
  mkWorld (enabled_features w) (feature_settings w) (_SCRIPTED_CONVO_CACHE w)
    (script_file w) (experiment_plan w) (current_block_index w)
    (messages_in_current_block w) (history w) (count w)
    (assistant_message_count w) (blocking w) (remaining w)
    (f (_must_slow_turn w)) (_earliest_display_ts w) (session_start_time w)
    (_typebuf w) (_typeidx w) (_current_thinking_bubble w)
    (_current_streaming_bubble w) (ab_test_threshold w) (ab_responses w)
    (ab_responses_ready w) (_last_ab_choice w) (script_index w)
    (custom_font_size w) (participant w) (effects w).

Definition set_earliest_display_ts (f : option Q -> option Q) (w : World) : World :=
  mkWorld (enabled_features w) (feature_settings w) (_SCRIPTED_CONVO_CACHE w)
    (script_file w) (experiment_plan w) (current_block_index w)
    (messages_in_current_block w) (history w) (count w)
    (assistant_message_count w) (blocking w) (remaining w)
    (_must_slow_turn w) (f (_earliest_display_ts w)) (session_start_time w)
    (_typebuf w) (_typeidx w) (_current_thinking_bubble w)
    (_current_streaming_bubble w) (ab_test_threshold w) (ab_responses w)
    (ab_responses_ready w) (_last_ab_choice w) (script_index w)
    (custom_font_size w) (participant w) (effects w).

Definition set_typebuf (f : string -> string) (w : World) : World :=
  mkWorld (enabled_features w) (feature_settings w) (_SCRIPTED_CONVO_CACHE w)
    (script_file w) (experiment_plan w) (current_block_index w)
    (messages_in_current_block w) (history w) (count w)
    (assistant_message_count w) (blocking w) (remaining w)
    (_must_slow_turn w) (_earliest_display_ts w) (session_start_time w)
    (f (_typebuf w)) (_typeidx w) (_current_thinking_bubble w)
    (_current_streaming_bubble w) (ab_test_threshold w) (ab_responses w)
    (ab_responses_ready w) (_last_ab_choice w) (script_index w)
    (custom_font_size w) (participant w) (effects w).

Definition set_typeidx (f : nat -> nat) (w : World) : World :=
  mkWorld (enabled_features w) (feature_settings w) (_SCRIPTED_CONVO_CACHE w)
    (script_file w) (experiment_plan w) (current_block_index w)
    (messages_in_current_block w) (history w) (count w)
    (assistant_message_count w) (blocking w) (remaining w)
    (_must_slow_turn w) (_earliest_display_ts w) (session_start_time w)
    (_typebuf w) (f (_typeidx w)) (_current_thinking_bubble w)
    (_current_streaming_bubble w) (ab_test_threshold w) (ab_responses w)
    (ab_responses_ready w) (_last_ab_choice w) (script_index w)
    (custom_font_size w) (participant w) (effects w).

Definition set_current_thinking_bubble (f : bool -> bool) (w : World) : World :=
  mkWorld (enabled_features w) (feature_settings w) (_SCRIPTED_CONVO_CACHE w)
    (script_file w) (experiment_plan w) (current_block_index w)
    (messages_in_current_block w) (history w) (count w)
    (assistant_message_count w) (blocking w) (remaining w)
    (_must_slow_turn w) (_earliest_display_ts w) (session_start_time w)
    (_typebuf w) (_typeidx w) (f (_current_thinking_bubble w))
    (_current_streaming_bubble w) (ab_test_threshold w) (ab_responses w)
    (ab_responses_ready w) (_last_ab_choice w) (script_index w)
    (custom_font_size w) (participant w) (effects w).

Definition set_current_streaming_bubble (f : bool -> bool) (w : World) : World :=
  mkWorld (enabled_features w) (feature_settings w) (_SCRIPTED_CONVO_CACHE w)
    (script_file w) (experiment_plan w) (current_block_index w)
    (messages_in_current_block w) (history w) (count w)
    (assistant_message_count w) (blocking w) (remaining w)
    (_must_slow_turn w) (_earliest_display_ts w) (session_start_time w)
    (_typebuf w) (_typeidx w) (_current_thinking_bubble w)
    (f (_current_streaming_bubble w)) (ab_test_threshold w) (ab_responses w)
    (ab_responses_ready w) (_last_ab_choice w) (script_index w)
    (custom_font_size w) (participant w) (effects w).

Definition set_ab_responses (f : option (gmap string (option string)) -> option (gmap string (option string))) (w : World) : World :=
  mkWorld (enabled_features w) (feature_settings w) (_SCRIPTED_CONVO_CACHE w)
    (script_file w) (experiment_plan w) (current_block_index w)
    (messages_in_current_block w) (history w) (count w)
    (assistant_message_count w) (blocking w) (remaining w)
    (_must_slow_turn w) (_earliest_display_ts w) (session_start_time w)
    (_typebuf w) (_typeidx w) (_current_thinking_bubble w)
    (_current_streaming_bubble w) (ab_test_threshold w) (f (ab_responses w))
    (ab_responses_ready w) (_last_ab_choice w) (script_index w)
    (custom_font_size w) (participant w) (effects w).

Definition set_ab_responses_ready (f : Z -> Z) (w : World) : World :=
  mkWorld (enabled_features w) (feature_settings w) (_SCRIPTED_CONVO_CACHE w)
    (script_file w) (experiment_plan w) (current_block_index w)
    (messages_in_current_block w) (history w) (count w)
    (assistant_message_count w) (blocking w) (remaining w)
    (_must_slow_turn w) (_earliest_display_ts w) (session_start_time w)
    (_typebuf w) (_typeidx w) (_current_thinking_bubble w)
    (_current_streaming_bubble w) (ab_test_threshold w) (ab_responses w)
    (f (ab_responses_ready w)) (_last_ab_choice w) (script_index w)
    (custom_font_size w) (participant w) (effects w).

Definition set_last_ab_choice (f : option string -> option string) (w : World) : World :=
  mkWorld (enabled_features w) (feature_settings w) (_SCRIPTED_CONVO_CACHE w)
    (script_file w) (experiment_plan w) (current_block_index w)
    (messages_in_current_block w) (history w) (count w)
    (assistant_message_count w) (blocking w) (remaining w)
    (_must_slow_turn w) (_earliest_display_ts w) (session_start_time w)
    (_typebuf w) (_typeidx w) (_current_thinking_bubble w)
    (_current_streaming_bubble w) (ab_test_threshold w) (ab_responses w)
    (ab_responses_ready w) (f (_last_ab_choice w)) (script_index w)
    (custom_font_size w) (participant w) (effects w).

Definition set_script_index (f : nat -> nat) (w : World) : World :=
  mkWorld (enabled_features w) (feature_settings w) (_SCRIPTED_CONVO_CACHE w)
    (script_file w) (experiment_plan w) (current_block_index w)
    (messages_in_current_block w) (history w) (count w)
    (assistant_message_count w) (blocking w) (remaining w)
    (_must_slow_turn w) (_earliest_display_ts w) (session_start_time w)
    (_typebuf w) (_typeidx w) (_current_thinking_bubble w)
    (_current_streaming_bubble w) (ab_test_threshold w) (ab_responses w)
    (ab_responses_ready w) (_last_ab_choice w) (f (script_index w))
    (custom_font_size w) (participant w) (effects w).

Definition set_custom_font_size (f : option value -> option value) (w : World) : World :=
  mkWorld (enabled_features w) (feature_settings w) (_SCRIPTED_CONVO_CACHE w)
    (script_file w) (experiment_plan w) (current_block_index w)
    (messages_in_current_block w) (history w) (count w)
    (assistant_message_count w) (blocking w) (remaining w)
    (_must_slow_turn w) (_earliest_display_ts w) (session_start_time w)
    (_typebuf w) (_typeidx w) (_current_thinking_bubble w)
    (_current_streaming_bubble w) (ab_test_threshold w) (ab_responses w)
    (ab_responses_ready w) (_last_ab_choice w) (script_index w)
    (f (custom_font_size w)) (participant w) (effects w).

Definition set_participant (f : (nat -> ab_outcome) -> (nat -> ab_outcome)) (w : World) : World :=
  mkWorld (enabled_features w) (feature_settings w) (_SCRIPTED_CONVO_CACHE w)
    (script_file w) (experiment_plan w) (current_block_index w)
    (messages_in_current_block w) (history w) (count w)
    (assistant_message_count w) (blocking w) (remaining w)
    (_must_slow_turn w) (_earliest_display_ts w) (session_start_time w)
    (_typebuf w) (_typeidx w) (_current_thinking_bubble w)
    (_current_streaming_bubble w) (ab_test_threshold w) (ab_responses w)
    (ab_responses_ready w) (_last_ab_choice w) (script_index w)
    (custom_font_size w) (f (participant w)) (effects w).

Definition set_effects (f : list effect -> list effect) (w : World) : World :=
  mkWorld (enabled_features w) (feature_settings w) (_SCRIPTED_CONVO_CACHE w)
    (script_file w) (experiment_plan w) (current_block_index w)
    (messages_in_current_block w) (history w) (count w)
    (assistant_message_count w) (blocking w) (remaining w)
    (_must_slow_turn w) (_earliest_display_ts w) (session_start_time w)
    (_typebuf w) (_typeidx w) (_current_thinking_bubble w)
    (_current_streaming_bubble w) (ab_test_threshold w) (ab_responses w)
    (ab_responses_ready w) (_last_ab_choice w) (script_index w)
    (custom_font_size w) (participant w) (f (effects w)).

(** ** Methods as computations *)

Definition M (A : Type) : Type := World -> result A * World.

#[global] Instance M_ret : MRet M := fun A a w => (Ok a, w).
#[global] Instance M_bind : MBind M := fun A B k m w =>
  match m w with
  | (Ok a, w') => k a w'
  | (Raise e, w') => (Raise e, w')
  end.

Definition gets {A} (f : World -> A) : M A := fun w => (Ok (f w), w).
Definition modify (f : World -> World) : M unit := fun w => (Ok tt, f w).
Definition raise {A} (e : exn) : M A := fun w => (Raise e, w).
(** A read-only method that may raise. *)
Definition read {A} (f : World -> result A) : M A := fun w => (f w, w).
(** [try: m  except Exception: pass]. *)
Definition try_pass (m : M unit) : M unit := fun w => (Ok tt, snd (m w)).
Definition emit (e : effect) : M unit :=
  modify (set_effects (fun l => l ++ [e])).
Definition skip : M unit := mret tt.

(** The world a method leaves, whether it returned or raised. *)
Abbreviation exec m w := (snd (m w)) (only parsing).

(** [is_enabled(flag)] ([AI_clean.py], 109-115):
    [bool(enabled_features.get(flag, False))]. *)
Definition is_enabled (w : World) (flag : FeatureFlag) : bool :=
  default false (enabled_features w !! flag).

(** [get_scripted_convo()] ([feature_flags.py], 152-189): the script is
    read once and cached, also when it is empty. *)
Definition get_scripted_convo : M (list step) :=
  cache ← gets _SCRIPTED_CONVO_CACHE;
  match cache with
  | Some script_list => mret script_list
  | None =>
      script_data ← gets script_file;
      modify (set_SCRIPTED_CONVO_CACHE (fun _ => Some script_data));;
      mret script_data
  end.

(** ** Timing policy *)

(** [_slowdown_permanent_active(now_s)] (2385-2404). *)
Definition _slowdown_permanent_active (w : World) (now_s : Q) : result bool :=
  if negb (is_enabled w SLOWDOWN) then Ok false
  else
    let perm_enabled :=
      setting_or (feature_settings w) "slowdown_permanent_after_enabled" (VBool false) in
    if negb (py_truth perm_enabled) then Ok false
    else
      let threshold_s :=
        setting_or (feature_settings w) "slowdown_permanent_after_s" (VInt 600) in
      let elapsed := (now_s - session_start_time w)%Q in
      float_ge elapsed threshold_s.

(** [_in_slow_window(send_ts)] (2407-2435). *)
Definition _in_slow_window (w : World) (send_ts : Q) : result bool :=
  if negb (is_enabled w SLOWDOWN) then Ok false
  else
    let normal_cycle_length :=
      setting_or (feature_settings w) "slowdown_period_s" (VInt 100) in
    let slow_window_length :=
      setting_or (feature_settings w) "slowdown_window_s" (VInt 20) in
    n ← py_int normal_cycle_length;
    let normal_cycle_length := Z.max 1 n in
    s ← py_int slow_window_length;
    let slow_window_length := Z.max 0 s in
    if (slow_window_length <=? 0)%Z then Ok false
    else
      let elapsed := (send_ts - session_start_time w)%Q in
      let total_period := (normal_cycle_length + slow_window_length)%Z in
      let position_in_total_period := float_mod elapsed total_period in
      Ok (Qle_bool (inject_Z normal_cycle_length) position_in_total_period).

(** [_prepare_turn_slowdown(send_ts)] (2452-2474). *)
Definition _prepare_turn_slowdown (send_ts : Q) : M unit :=
  w ← gets id;
  if negb (is_enabled w SLOWDOWN) then
    modify (set_must_slow_turn (fun _ => false));;
    modify (set_earliest_display_ts (fun _ => None))
  else
    perm_active ← read (fun w => _slowdown_permanent_active w send_ts);
    cyclic_active ← read (fun w => _in_slow_window w send_ts);
    let must := perm_active || cyclic_active in
    modify (set_must_slow_turn (fun _ => must));;
    if must then
      min_delay ← gets (fun w =>
        setting_or (feature_settings w) "slowdown_min_delay_s" (VInt 4));
      d ← read (fun _ => py_float min_delay);
      modify (set_earliest_display_ts (fun _ => Some (send_ts + d)%Q))
    else
      modify (set_earliest_display_ts (fun _ => None)).

(** ** Ending the session *)

(** [_end_chat()] (3559-3587): marking the end, the export, the debrief
    dialog, the stopping of the workers and the closing of the window are
    one effect. *)
Definition _end_chat : M unit := emit EndChat.

(** [_auto_end_chat(reason)] (2551-2556). *)
Definition _auto_end_chat (reason : string) : M unit :=
  emit (SystemMessage ("Chat ended automatically: " +:+ reason +:+ " reached."));;
  emit (SingleShot 2000 cb_end_chat).

(** [_check_auto_end_conditions()] (2559-2570). *)
Definition _check_auto_end_conditions : M bool :=
  w ← gets id;
  if is_enabled w AUTO_END_AFTER_N_MSGS then
    let max_messages := setting_or (feature_settings w) "auto_end_messages" (VInt 10) in
    reached ← read (fun w => int_ge (assistant_message_count w) max_messages);
    if (reached : bool) then
      _auto_end_chat "message limit";;
      mret true
    else mret false
  else mret false.

(** ** Blueprint blocks *)

(** [_apply_text_size()] (2505-2515); the restyling of the bubbles is not
    recorded. *)
Definition _apply_text_size : M unit :=
  w ← gets id;
  if is_enabled w TEXT_SIZE_CHANGER then
    let font_size := setting_or (feature_settings w) "text_size" (VInt 20) in
    modify (set_custom_font_size (fun _ => Some font_size))
  else skip.

(** [_setup_erase_history_timer()] (2308-2320). *)
Definition _setup_erase_history_timer : M unit :=
  w ← gets id;
  if is_enabled w ERASE_HISTORY then
    let initial_delay := setting_or (feature_settings w) "erase_history_delay_s" (VInt 60) in
    ms ← read (fun _ => to_msec initial_delay);
    emit (EraseTimerStarted ms)
  else skip.

(** One turn of the loop over [active_features.items()]: an unknown name
    is logged and skipped. *)
Definition apply_feature (d : gmap FeatureFlag bool) (item : string * bool)
    : gmap FeatureFlag bool :=
  match FeatureFlag_by_name item.1 with
  | Some flag => <[flag := item.2]> d
  | None => d
  end.

(** [_apply_block_config(block_data)] (3293-3323). *)
Definition _apply_block_config (block_data : block) : M unit :=
  (* 1. reset all feature flags to False *)
  modify (set_enabled_features (fun d =>
    foldl (fun d flag => <[flag := false]> d) d all_flags));;
  (* 2. enable the features of this block *)
  let active_features := default [] (b_features block_data) in
  modify (set_enabled_features (fun d => foldl apply_feature d active_features));;
  (* 3. feature_settings.update(block_settings) *)
  let block_settings := default ∅ (b_settings block_data) in
  modify (set_feature_settings (fun s => block_settings ∪ s));;
  (* 4. components that depend on the settings *)
  _apply_text_size;;
  _setup_erase_history_timer;;
  (* 5. the title *)
  let block_name := default "Chat" (b_name block_data) in
  emit (WindowTitle block_name).

(** Truth of [self.experiment_plan]: loaded and not empty. *)
Definition plan_active (w : World) : bool :=
  match experiment_plan w with
  | Some (_ :: _) => true
  | _ => false
  end.

(** [_start_next_block()] (2365-2382). *)
Definition _start_next_block : M unit :=
  w ← gets id;
  if negb (plan_active w) then skip
  else
    modify (set_current_block_index (fun i => i + 1)%Z);;
    w ← gets id;
    let plan := default [] (experiment_plan w) in
    if (Z.of_nat (length plan) <=? current_block_index w)%Z then
      emit (SystemMessage "Experiment blueprint complete.");;
      _end_chat
    else
      current_block ← read (fun w => py_index plan (current_block_index w));
      modify (set_messages_in_current_block (fun _ => 0%Z));;
      _apply_block_config current_block.

(** [_initialize_blueprint_mode()] (2342-2363), given what the blueprint
    file holds: [None] when there is no such file.  An exception while
    the first block starts is logged and dropped. *)
Definition _initialize_blueprint_mode (file : option (list block)) : M unit :=
  match file with
  | None =>
      filename ← gets (fun w =>
        default (VStr "experiment_blueprint.json")
                (feature_settings w !! "blueprint_filename"));
      emit (SystemMessage ("ERROR: Blueprint file '" +:+ py_str filename +:+ "' not found."))
  | Some plan =>
      try_pass (modify (set_experiment_plan (fun _ => Some plan));;
                _start_next_block)
  end.

(** ** Committing a turn *)

(** [_start_block()] (3326-3344). *)
Definition _start_block : M unit :=
  block_duration ← gets (fun w =>
    setting_or (feature_settings w) "block_duration_s" (VInt 15));
  modify (set_blocking (fun _ => true));;
  emit (SystemMessage ("Blocking for " +:+ py_str block_duration +:+ "s..."));;
  modify (set_remaining (fun _ => Some block_duration));;
  emit BlockTimerStarted;;
  emit InputDisabled.

(** The blueprint branch of [_finish_response] (3240-3259). *)
Definition finish_in_blueprint : M unit :=
  modify (set_messages_in_current_block (fun n => n + 1)%Z);;
  w ← gets id;
  let plan := default [] (experiment_plan w) in
  current_block ← read (fun w => py_index plan (current_block_index w));
  let duration := default 10%Z (b_duration_messages current_block) in
  (if (duration <=? messages_in_current_block w)%Z
   then _start_next_block else skip);;
  emit InputEnabled.

(** The survey trigger of the standard commit (3262-3266). *)
Definition survey_trigger : M unit :=
  w ← gets id;
  if is_enabled w INTER_TRIAL_SURVEY then
    let trigger_count :=
      default (VInt 5) (feature_settings w !! "survey_trigger_count") in
    if (0 <? assistant_message_count w)%Z then
      r ← read (fun w => int_mod (assistant_message_count w) trigger_count);
      if (r =? 0)%Z then emit (SingleShot 1000 cb_show_survey) else skip
    else skip
  else skip.

(** The end of the standard commit (3274-3291): the cooldown block when
    one is due, the input controls otherwise. *)
Definition block_or_enable_input : M unit :=
  w ← gets id;
  block_now ←
    (if is_enabled w BLOCK_MSGS then
       let message_threshold :=
         setting_or (feature_settings w) "block_message_count" (VInt 5) in
       let repeat_blocking :=
         setting_or (feature_settings w) "block_repeat" (VBool true) in
       if py_truth repeat_blocking then
         if (0 <? count w)%Z then
           r ← read (fun w => int_mod (count w) message_threshold);
           mret (r =? 0)%Z
         else mret false
       else mret (int_eq (count w) message_threshold)
     else mret false);
  if (block_now : bool) then _start_block else emit InputEnabled.

(** The standard branch of [_finish_response] (3261-3291). *)
Definition finish_in_standard : M unit :=
  survey_trigger;;
  modify (set_must_slow_turn (fun _ => false));;
  modify (set_earliest_display_ts (fun _ => None));;
  ended ← _check_auto_end_conditions;
  if (ended : bool) then skip else block_or_enable_input.

(** [_finish_response(reply)] (3227-3291); the call of the logger is not
    recorded. *)
Definition _finish_response (reply : string) : M unit :=
  modify (set_last_ab_choice (fun _ => None));;
  modify (set_ab_responses (fun _ => None));;
  modify (set_history (fun h => h ++ [("assistant", reply)]));;
  modify (set_count (fun n => n + 1)%Z);;
  modify (set_assistant_message_count (fun n => n + 1)%Z);;
  w ← gets id;
  if plan_active w then finish_in_blueprint else finish_in_standard.

(** ** Revealing a response *)

(** [_display_response(reply, is_option_b)] (3102-3166). *)
Definition _display_response (reply : string) (is_option_b : bool) : M unit :=
  w ← gets id;
  if is_enabled w STREAMING && _current_streaming_bubble w then
    modify (set_current_streaming_bubble (fun _ => false));;
    _finish_response reply
  else if is_enabled w TYPEWRITER then
    if str_contains "```" reply then
      emit (AssistantMessage reply);;
      _finish_response reply
    else
      modify (set_typebuf (fun _ => reply));;
      modify (set_typeidx (fun _ => 0));;
      let typewriter_speed :=
        default (VInt (if is_option_b then 50 else 20))
          (get_setting_value (feature_settings w) "typewriter_speed_ms" is_option_b) in
      emit (TypewriterStarted typewriter_speed)
  else
    emit (AssistantMessage reply);;
    _finish_response reply.

(** [_type_step()] (3169-3197), a tick of the typewriter timer. *)
Definition _type_step : M unit :=
  w ← gets id;
  if bool_decide (_typeidx w < py_len (_typebuf w)) then
    modify (set_typeidx (fun i => i + 1))
  else
    emit (AssistantMessage (_typebuf w));;
    _finish_response (_typebuf w).

(** [_show_ab_dialog(content_a, content_b)] once [dialog.exec()] has
    returned (3066-3099), for the two texts the dialog was given.  The
    dialog stores the text of the chosen side as its [selected_response]
    (2199-2207), so [dialog.selected_response or content] is the text of
    that side; the call of the logger is not recorded. *)
Definition ab_dialog_closed (content_a content_b : string) (outcome : ab_outcome)
    : M unit :=
  match outcome with
  | Chose_A =>
      modify (set_last_ab_choice (fun _ => Some "A"));;
      emit (SystemMessage "You selected Option A");;
      _display_response content_a false
  | Chose_B =>
      modify (set_last_ab_choice (fun _ => Some "B"));;
      emit (SystemMessage "You selected Option B");;
      emit (AssistantMessage content_b);;
      _finish_response content_b
  | Cancelled => _display_response content_a false
  end.

(** [_show_ab_dialog(content_a, content_b)] (3062-3099), the whole call.
    The dialog is modal: [dialog.exec()] returns once the participant has
    chosen a side or closed the dialog, and the method goes on from there
    with [ab_dialog_closed].  How the dialog ends is the next answer of
    the participant, which is used up; what the event loop delivers to the
    window while the dialog is open is not modelled.

    The dialog is built for two texts.  A side that is still [None] can
    only come from one thread answering twice, which the dispatcher never
    arranges, and is not covered: the method then answers with [TypeError],
    which is what the constructor of the dialog raises, before any dialog
    is shown, when no presentation feature is on
    ([setPlainText(None)], 1877, 1890 and 1902). *)
Definition _show_ab_dialog (content_a content_b : option string) : M unit :=
  match content_a, content_b with
  | Some content_a, Some content_b =>
      emit (AbDialog content_a content_b);;
      outcome ← gets (fun w => participant w 0);
      modify (set_participant (fun answers n => answers (S n)));;
      ab_dialog_closed content_a content_b outcome
  | _, _ => raise TypeError
  end.

(** The teardown of the thinking bubble that opens every [proceed]. *)
Definition stop_thinking : M unit :=
  w ← gets id;
  if _current_thinking_bubble w then
    emit ThinkingRemoved;;
    modify (set_current_thinking_bubble (fun _ => false))
  else skip.

(** [d[key]] on the pending pair of A/B texts. *)
Definition ab_text (w : World) (key : string) : result (option string) :=
  match ab_responses w with
  | None => Raise TypeError
  | Some d => match d !! key with
              | Some text => Ok text
              | None => Raise KeyError
              end
  end.

(** The bodies of the [proceed] closures (3031-3038, 3051-3058,
    3496-3505). *)
Definition run_proceed (fn : proceed_fn) : M unit :=
  match fn with
  | proceed_response reply =>
      stop_thinking;;
      _display_response reply false
  | proceed_ab =>
      stop_thinking;;
      a ← read (fun w => ab_text w "A");
      b ← read (fun w => ab_text w "B");
      _show_ab_dialog a b
  | proceed_scripted_ab reply_a reply_b =>
      stop_thinking;;
      _show_ab_dialog (Some reply_a) (Some reply_b)
  end.

(** [_maybe_delay_then(fn)] (2477-2489); [now] is what [time.time()]
    returns. *)
Definition _maybe_delay_then (fn : proceed_fn) (now : Q) : M unit :=
  w ← gets id;
  match _must_slow_turn w, _earliest_display_ts w with
  | true, Some earliest =>
      let d := (earliest - now)%Q in
      let remaining := if Qle_bool d 0 then 0%Q else d in
      if negb (Qle_bool remaining 0) then
        emit (SingleShot (float_to_int (remaining * 1000)) (cb_proceed fn))
      else run_proceed fn
  | _, _ => run_proceed fn
  end.

(** [_on_response(reply)] (3029-3041). *)
Definition _on_response (reply : string) (now : Q) : M unit :=
  _maybe_delay_then (proceed_response reply) now.

(** [_on_ab_response(reply, version)] (3044-3059). *)
Definition _on_ab_response (reply version : string) (now : Q) : M unit :=
  w ← gets id;
  match ab_responses w with
  | None => raise TypeError
  | Some d =>
      modify (set_ab_responses (fun _ => Some (<[version := Some reply]> d)));;
      modify (set_ab_responses_ready (fun n => n + 1)%Z);;
      w ← gets id;
      if (ab_responses_ready w =? 2)%Z
      then _maybe_delay_then proceed_ab now
      else skip
  end.

(** [_handle_scripted_ab_turn(reply_a, reply_b)] (3491-3508). *)
Definition _handle_scripted_ab_turn (reply_a reply_b : string) (now : Q) : M unit :=
  _maybe_delay_then (proceed_scripted_ab reply_a reply_b) now.

(** ** Dispatching a turn *)

(** [_start_thinking()] (2946-2952). *)
Definition _start_thinking : M unit :=
  modify (set_current_thinking_bubble (fun _ => true));;
  emit ThinkingShown.

(** [if is_enabled(THINKING) and not self._current_thinking_bubble:
    self._start_thinking()]. *)
Definition think_once : M unit :=
  w ← gets id;
  if is_enabled w THINKING && negb (_current_thinking_bubble w)
  then _start_thinking else skip.

(** Steps 2 to 6 of [_send_after_delay] (2846-2943): live dispatch.  The
    feature set built for thread B is internal to that thread and is not
    recorded. *)
Definition live_dispatch (txt : string) : M unit :=
  w ← gets id;
  is_ab_turn ←
    (if is_enabled w AB_TESTING then
       r ← read (fun w => py_mod (count w + 1) (ab_test_threshold w));
       mret (r =? 0)%Z
     else mret false);
  if (is_ab_turn : bool) && is_enabled w AB_UI_ALT then
    think_once;;
    emit (ThreadStarted (ChatThread_alt txt))
  else if is_ab_turn && is_enabled w AB_UI_TEST then
    think_once;;
    emit (ThreadStarted (ChatThread_ui txt))
  else if is_ab_turn then
    think_once;;
    modify (set_ab_responses (fun _ => Some (<["A" := None]> (<["B" := None]> ∅))));;
    modify (set_ab_responses_ready (fun _ => 0%Z));;
    emit (ThreadStarted (ChatThread_A txt));;
    emit (ThreadStarted (ChatThread_B txt))
  else
    think_once;;
    emit (ThreadStarted (ChatThread_single txt)).

(** The scripted branch of a turn for the step under the cursor
    (2814-2837): [true] when the step answered the turn. *)
Definition play_step (current_step : step) (now : Q) : M bool :=
  let step_type := default "normal" (current_step !! "type") in
  if String.eqb step_type "normal" then
    let reply :=
      default "SCRIPT ERROR: Missing 'response' key" (current_step !! "response") in
    w ← gets id;
    (if is_enabled w THINKING then _start_thinking else skip);;
    emit (SingleShot 1000 (cb_on_response reply));;
    mret true
  else if String.eqb step_type "ab_test" then
    let reply_a :=
      default "SCRIPT ERROR: Missing 'response_a'" (current_step !! "response_a") in
    let reply_b :=
      default "SCRIPT ERROR: Missing 'response_b'" (current_step !! "response_b") in
    w ← gets id;
    (if is_enabled w THINKING then _start_thinking else skip);;
    _handle_scripted_ab_turn reply_a reply_b now;;
    mret true
  else mret false.

(** The scripted part of a turn (2804-2839): when scripted mode is on and
    the cursor is inside the script, the step under the cursor is taken
    and the cursor advances; [true] when the step answered the turn. *)
Definition scripted_turn (now : Q) : M bool :=
  w ← gets id;
  if is_enabled w SCRIPTED_RESPONSES then
    script_list ← get_scripted_convo;
    w ← gets id;
    match script_list !! script_index w with
    | Some current_step =>
        modify (set_script_index (fun i => i + 1));;
        play_step current_step now
    | None => mret false
    end
  else mret false.

(** [_send_after_delay(txt, sent_ts)] (2796-2943); [now] is the clock the
    reveal gate reads when a scripted A/B step goes through it. *)
Definition _send_after_delay (txt : string) (sent_ts now : Q) : M unit :=
  _prepare_turn_slowdown sent_ts;;
  answered ← scripted_turn now;
  if (answered : bool) then skip else live_dispatch txt.

(** ** The event loop *)

(** A timer started by [QTimer.singleShot] fires. *)
Definition fire (cb : callback) (now : Q) : M unit :=
  match cb with
  | cb_proceed fn => run_proceed fn
  | cb_on_response reply => _on_response reply now
  | cb_end_chat => _end_chat
  | cb_show_survey => skip   (* the survey dialog is outside the orchestrator *)
  end.

(** What the event loop delivers to the window. *)
Inductive input : Type :=
| Send (txt : string) (sent_ts now : Q)            (* _send_after_delay *)
| Response (reply : string) (now : Q)              (* result_ready of a single thread *)
| AbResponse (reply version : string) (now : Q)    (* result_ready of thread A or B *)
| Timer (cb : callback) (now : Q)                  (* a single-shot timer *)
| TypeTick                                         (* the typewriter timer *)
| Blueprint (file : option (list block)).          (* _initialize_blueprint_mode *)

Definition handle (i : input) : M unit :=
  match i with
  | Send txt sent_ts now => _send_after_delay txt sent_ts now
  | Response reply now => _on_response reply now
  | AbResponse reply version now => _on_ab_response reply version now
  | Timer cb now => fire cb now
  | TypeTick => _type_step
  | Blueprint file => _initialize_blueprint_mode file
  end.

(** The session after a sequence of deliveries; a slot that raises leaves
    the world as it was at the raise, and the loop goes on. *)
Definition run (inputs : list input) (w : World) : World :=
  foldl (fun w i => exec (handle i) w) w inputs.

(** The window as [ChatWindow.__init__] leaves it (2248-2293), over the
    module state and the clock at that time, in front of a participant
    with these answers.  The set-up calls that end the constructor
    (2298-2305) are methods of their own; a threshold stored as text, on
    which the constructor raises, is read like a missing one. *)
Definition new_window (flags : gmap FeatureFlag bool) (table : gmap string value)
    (script : list step) (start : Q) (answers : nat -> ab_outcome) : World :=
  let ab_thresh :=
    match get_setting_value table "ab_test_message_threshold" false with
    | Some (VInt z) => if (z <? 1)%Z then 5%Z else z
    | Some (VBool b) => if (Z.b2z b <? 1)%Z then 5%Z else Z.b2z b
    | _ => 5%Z
    end in
  {| enabled_features := flags;
     feature_settings := table;
     _SCRIPTED_CONVO_CACHE := None;
     script_file := script;
     experiment_plan := None;
     current_block_index := -1;
     messages_in_current_block := 0;
     history := [];
     count := 0;
     assistant_message_count := 0;
     blocking := false;
     remaining := None;
     _must_slow_turn := false;
     _earliest_display_ts := None;
     session_start_time := start;
     _typebuf := "";
     _typeidx := 0;
     _current_thinking_bubble := false;
     _current_streaming_bubble := false;
     ab_test_threshold := ab_thresh;
     ab_responses := None;
     ab_responses_ready := 0;
     _last_ab_choice := None;
     script_index := 0;
     custom_font_size := None;
     participant := answers;
     effects := [] |}.

(** ** Vocabulary of the statements *)

(** The script [get_scripted_convo] answers with: the cache once it is
    filled, the file before. *)
Definition current_script (w : World) : list step :=
  default (script_file w) (_SCRIPTED_CONVO_CACHE w).

(** No text is stored under the key (absent, or a number, or a check box
    state). *)
Definition numeric_setting (table : gmap string value) (key : string) : bool :=
  match table !! key with
  | Some (VStr _) => false
  | _ => true
  end.

(** The settings the timing policy reads are numbers. *)
Definition slowdown_settings_numeric (w : World) : bool :=
  numeric_setting (feature_settings w) "slowdown_period_s"
  && numeric_setting (feature_settings w) "slowdown_window_s"
  && numeric_setting (feature_settings w) "slowdown_permanent_after_s"
  && numeric_setting (feature_settings w) "slowdown_min_delay_s".

(** The survey trigger of the standard commit cannot raise: the feature is
    off, or the trigger count is a number other than zero. *)
Definition survey_trigger_ok (w : World) : bool :=
  negb (is_enabled w INTER_TRIAL_SURVEY)
  || match default (VInt 5) (feature_settings w !! "survey_trigger_count") with
     | VInt z => negb (z =? 0)%Z
     | VBool b => b
     | VStr _ => false
     end.


(** The last override a block gives for a flag, if it names the flag. *)
Definition feature_override (features : list (string * bool)) (flag : FeatureFlag)
    : option bool :=
  snd <$> List.find (fun item => String.eqb item.1 (FeatureFlag_name flag)) (rev features).

(** [keeps R m]: the world [m] leaves is related by [R] to the one it
    started in, whether [m] returns or raises. *)
Definition keeps {A} (R : World -> World -> Prop) (m : M A) : Prop :=
  forall w, R w (snd (m w)).

(** The attribute [proj] reads the same in both worlds. *)
Definition same {X} (proj : World -> X) (w w' : World) : Prop := proj w' = proj w.

(** The script and the cursor are the same in both worlds. *)
Definition script_same (w w' : World) : Prop :=
  script_index w' = script_index w /\ current_script w' = current_script w.

(** The world once the script is cached. *)
Definition cached (w : World) : World :=
  set_SCRIPTED_CONVO_CACHE (fun _ => Some (current_script w)) w.

(** The second world has the effects of the first, then some that all
    satisfy [P]. *)
Definition effects_grow (P : effect -> Prop) (w w' : World) : Prop :=
  exists new, effects w' = effects w ++ new /\ Forall P new.

(** The effects live dispatch may produce. *)
Definition live_effect (e : effect) : Prop :=
  e = ThinkingShown \/ exists t, e = ThreadStarted t.

(** An effect other than the start of a worker thread. *)
Definition no_thread (e : effect) : Prop :=
  forall t, e <> ThreadStarted t.

(** The world once the thinking bubble, if there is one, is torn down. *)
Definition bubble_removed (w : World) : World :=
  if _current_thinking_bubble w
  then set_current_thinking_bubble (fun _ => false)
         (set_effects (fun l => l ++ [ThinkingRemoved]) w)
  else w.

(** The world once the dialog for two texts has been shown and has ended:
    the dialog is recorded and the answer of the participant is used up. *)
Definition dialog_shown (content_a content_b : string) (w : World) : World :=
  set_participant (fun answers n => answers (S n))
    (set_effects (fun l => l ++ [AbDialog content_a content_b]) w).

(** A turn that finds no script step: the timing decision, the look at
    the script when scripted mode is on, then live dispatch. *)
Definition fall_through (txt : string) (sent_ts : Q) : M unit :=
  _prepare_turn_slowdown sent_ts;;
  w ← gets id;
  (if is_enabled w SCRIPTED_RESPONSES then _ ← get_scripted_convo; skip else skip);;
  live_dispatch txt.

(** The number of turns sent among the deliveries. *)
Definition is_send (i : input) : bool :=
  match i with
  | Send _ _ _ => true
  | _ => false
  end.

Definition sends (inputs : list input) : nat :=
  length (List.filter is_send inputs).

(** The session after the turns with these replies are committed, one
    after the other. *)
Definition commits (replies : list string) (w : World) : World :=
  foldl (fun w reply => exec (_finish_response reply) w) w replies.

(** ** Sample sessions *)

(** A participant who ends every dialog the same way. *)
Definition always (outcome : ab_outcome) : nat -> ab_outcome := fun _ => outcome.

Definition flags_on (flags : list FeatureFlag) : gmap FeatureFlag bool :=
  foldl (fun d flag => <[flag := true]> d) enabled_features_initial flags.

(** Slow-down on, period 100 s and window 20 s, session started at 0. *)
Definition w_slow : World :=
  new_window (flags_on [SLOWDOWN]) feature_settings_initial [] 0
    (always Cancelled).

(** The same settings with the feature off. *)
Definition w_plain : World :=
  new_window enabled_features_initial feature_settings_initial [] 0
    (always Cancelled).

(** A turn sent 110 s into the session of [w_slow], inside the window. *)
Definition w_slow_sent : World :=
  run [Send "hi" 110 110] w_slow.

(** A blueprint of one block of five turns that turns on the slow-down and
    the message-count auto-end, with a maximum of one message. *)
Definition block_slow_auto_end : block :=
  mkBlock (Some "Block 1") (Some 5%Z)
    (Some [("SLOWDOWN", true); ("AUTO_END_AFTER_N_MSGS", true)])
    (Some {[ "auto_end_messages" := VInt 1 ]}).

(** The session once that blueprint is loaded. *)
Definition w_blueprint : World :=
  run [Blueprint (Some [block_slow_auto_end])]
    (new_window (flags_on [DYNAMIC_FEATURE_CHANGING]) feature_settings_initial [] 0
       (always Cancelled)).

(** Slow-down and typewriter on, no blueprint. *)
Definition w_typewriter : World :=
  new_window (flags_on [SLOWDOWN; TYPEWRITER]) feature_settings_initial [] 0
    (always Cancelled).

(** Message-count auto-end on with the maximum of 10, after nine turns. *)
Definition w_nine_turns : World :=
  set_assistant_message_count (fun _ => 9%Z)
    (set_count (fun _ => 9%Z)
       (new_window (flags_on [AUTO_END_AFTER_N_MSGS]) feature_settings_initial [] 0
          (always Cancelled))).

(** A blueprint of two blocks, of two and of three turns; the thinking
    bubble is on in the first block only. *)
Definition block_warm_up : block :=
  mkBlock (Some "Warm-up") (Some 2%Z) (Some [("THINKING", true)]) None.

Definition block_main : block :=
  mkBlock (Some "Main") (Some 3%Z) (Some [("TYPEWRITER", false)])
    (Some {[ "text_size" := VInt 30 ]}).

Definition two_blocks : list block := [block_warm_up; block_main].

Definition w_two_blocks : World :=
  run [Blueprint (Some two_blocks)]
    (new_window (flags_on [DYNAMIC_FEATURE_CHANGING]) feature_settings_initial [] 0
       (always Cancelled)).

(** A content A/B turn just dispatched: A/B testing on every turn, the
    thinking bubble on, both threads started and no completion yet. *)
Definition w_pair : World :=
  run [Send "hi" 1 1]
    (new_window (flags_on [AB_TESTING; THINKING])
       (<["ab_test_message_threshold" := VInt 1]> feature_settings_initial) [] 0
       (always Cancelled)).

(** The pending pair of texts right after the dispatch. *)
Definition no_text_yet : gmap string (option string) :=
  <["A" := None]> (<["B" := None]> ∅).

(** A script of a normal step and a step of a type the player does not
    know, in scripted mode. *)
Definition step_hello : step := {[ "type" := "normal"; "response" := "Hello." ]}.

Definition step_pause : step := {[ "type" := "pause"; "response" := "Wait." ]}.

Definition w_script : World :=
  new_window (flags_on [SCRIPTED_RESPONSES]) feature_settings_initial
    [step_hello; step_pause] 0 (always Cancelled).

(** The same session after its first turn. *)
Definition w_script_second : World := run [Send "one" 1 1] w_script.

(** ** Requests to the model ([feature_flags.py], [build_messages]) *)

(** [FLAG_PROMPTS] ([feature_flags.py], 83-123), in the order of the
    dictionary. *)
Definition FLAG_PROMPTS : list (FeatureFlag * string) :=
  [ (LIE,
     "You are an unreliable narrator. Covertly provide information that is incorrect.");
    (RUDE_TONE,
     "Adopt a brusque, impatient tone. Keep replies short and abrasive, but still be helpful and responsive to user requests.");
    (KIND_TONE,
     "Respond with warmth, empathy, and supportive language.");
    (ADVICE_ONLY,
     "Do not give direct answers; outline strategies or resources instead.");
    (PERSONA,
     "You are William Shakespeare. Respond in poetic, archaic style.");
    (MIRROR,
     "Analyze the user's tone and phrasing and mirror it. For exaple, if the user is informal, you too should adopt an informal writing style.");
    (ANTI_MIRROR,
     "Analyze the user's tone and phrasing and invert it. For example, if the user is informal, you should adopt a formal writing style.");
    (POSITIVE_FEEDBACK,
     "When the user asks a clarifying question or makes a mistake, provide positive, encouraging feedback before your response.");
    (NEUTRAL_FEEDBACK,
     "Provide neutral, factual feedback when the user seems incorrect or asks for clarification.");
    (CRITICAL_FEEDBACK,
     "When the user makes a mistake or asks a clarifying question, respond in a constructive but cold and critical way.");
    (HEDGING_LANGUAGE,
     "When the user's request involves explaining a factual process, historical event, scientific concept,or step-by-step instructions, prepend your first sentence with brief hedging language(e.g., 'I might be wrong, but...', 'This is just my understanding, but...', 'I believe...').Skip hedging for greetings, jokes, and very short or obvious facts.") ].

(** [system_prompt_variations(flags_dict)] ([feature_flags.py], 133-139). *)
Definition system_prompt_variations (flags_dict : gmap FeatureFlag bool) : list string :=
  snd <$> List.filter (fun item => default false (flags_dict !! item.1)) FLAG_PROMPTS.

(** [get_plain_features()] ([feature_flags.py], 141-147);
    [enabled_features[flag]] raises for a flag the dictionary lacks. *)
Definition get_plain_features (w : World) : result (gmap FeatureFlag bool) :=
  let plain := foldl (fun d flag => <[flag := false]> d) ∅ all_flags in
  match enabled_features w !! NO_MEMORY with
  | None => Raise KeyError
  | Some no_memory =>
      let plain := <[NO_MEMORY := no_memory]> plain in
      match enabled_features w !! SLOWDOWN with
      | None => Raise KeyError
      | Some slowdown => Ok (<[SLOWDOWN := slowdown]> plain)
      end
  end.

(** The line feed. *)
Definition LF : string := String (Ascii.ascii_of_nat 10) EmptyString.

(** [build_messages(history, prompt, use_features, custom_features)]
    ([AI_clean.py], 118-150).  A message [{"role": r, "content": c}] is the
    pair [(r, c)]: the window appends no message without the two keys. *)
Definition build_messages (w : World) (history : list (string * string))
    (prompt : string) (use_features : bool)
    (custom_features : option (gmap FeatureFlag bool)) : list (string * string) :=
  let messages := [] in
  let flags_src :=
    match custom_features with
    | Some d => d
    | None =>
        if use_features then enabled_features w
        else foldl (fun d flag => <[flag := false]> d) ∅ all_flags
    end in
  let sys_variations := system_prompt_variations flags_src in
  let messages :=
    match sys_variations with
    | [] => messages
    | _ :: _ => messages ++ [("system", String.concat (LF +:+ LF) sys_variations)]
    end in
  let messages :=
    if negb (default false (flags_src !! NO_MEMORY)) then messages ++ history
    else messages in
  let messages :=
    if match last history with
       | None => true
       | Some m => negb (String.eqb m.2 prompt) || negb (String.eqb m.1 "user")
       end
    then messages ++ [("user", prompt)]
    else messages in
  messages.

(** Steps 1 to 5 of [ChatThread.run] (1215-1250): the messages a worker
    thread sends to the model.  [today] is [date.today().isoformat()].
    The web is searched only for a thread made with [force_web_search],
    while the web-search flag is on; [found] is then the system message
    with the grounding rules and the sources the search returned, [None]
    when it returned none.  A search that raises ends the thread with its
    error signal, and nothing is sent. *)
Definition chat_thread_messages (w : World) (history : list (string * string))
    (prompt : string) (use_features : bool)
    (feature_set : option (gmap FeatureFlag bool)) (force_web_search : bool)
    (today : string) (found : option string) : list (string * string) :=
  let sources :=
    if force_web_search && is_enabled w WEB_SEARCH then found else None in
  let messages := build_messages w history prompt use_features feature_set in
  let messages := ("system", "Current date: " +:+ today) :: messages in
  match sources with
  | Some grounding => ("system", grounding) :: messages
  | None => messages
  end.

(** ** Option B of a content A/B turn *)

(** [feature_settings.get(setting_key, False)] read as a condition. *)
Definition setting_on (feature_settings : gmap string value) (setting_key : string)
    : bool :=
  py_truth (default (VBool false) (feature_settings !! setting_key)).

Definition content_feature_mappings : list (string * FeatureFlag) :=
  [ ("ab_lie_b", LIE);
    ("ab_rude_tone_b", RUDE_TONE);
    ("ab_kind_tone_b", KIND_TONE);
    ("ab_advice_only_b", ADVICE_ONLY);
    ("ab_no_memory_b", NO_MEMORY);
    ("ab_persona_b", PERSONA);
    ("ab_mirror_b", MIRROR);
    ("ab_anti_mirror_b", ANTI_MIRROR);
    ("ab_grammar_errors_b", GRAMMAR_ERRORS);
    ("ab_positive_feedback_b", POSITIVE_FEEDBACK);
    ("ab_critical_feedback_b", CRITICAL_FEEDBACK);
    ("ab_neutral_feedback_b", NEUTRAL_FEEDBACK);
    ("ab_hedging_b", HEDGING_LANGUAGE) ].

Definition ui_feature_mappings : list (string * FeatureFlag) :=
  [ ("ab_streaming_b", STREAMING);
    ("ab_text_size_changer_b", TEXT_SIZE_CHANGER);
    ("ab_typewriter_b", TYPEWRITER);
    ("ab_thinking_b", THINKING) ].

(** The body of the loop over [content_feature_mappings] for a setting
    that is on (2897-2910): the flag is set and the flags it excludes are
    cleared. *)
Definition set_content_feature (option_b_features : gmap FeatureFlag bool)
    (flag : FeatureFlag) : gmap FeatureFlag bool :=
  let d := <[flag := true]> option_b_features in
  match flag with
  | RUDE_TONE => <[KIND_TONE := false]> d
  | KIND_TONE => <[RUDE_TONE := false]> d
  | MIRROR => <[ANTI_MIRROR := false]> d
  | ANTI_MIRROR => <[MIRROR := false]> d
  | POSITIVE_FEEDBACK | CRITICAL_FEEDBACK | NEUTRAL_FEEDBACK =>
      foldl (fun d feedback_flag =>
               if bool_decide (feedback_flag <> flag)
               then <[feedback_flag := false]> d else d)
        d [POSITIVE_FEEDBACK; CRITICAL_FEEDBACK; NEUTRAL_FEEDBACK]
  | _ => d
  end.

(** Step 5a of [_send_after_delay] (2875-2921): the feature set handed to
    thread B, from the settings table. *)
Definition option_b_features (feature_settings : gmap string value)
    : gmap FeatureFlag bool :=
  let option_b_features := foldl (fun d flag => <[flag := false]> d) ∅ all_flags in
  let option_b_features :=
    foldl (fun d item =>
             if setting_on feature_settings item.1
             then set_content_feature d item.2 else d)
      option_b_features content_feature_mappings in
  foldl (fun d item =>
           if setting_on feature_settings item.1
           then <[item.2 := true]> d else d)
    option_b_features ui_feature_mappings.


(** ** Cooldown, erasure and errors *)

(** [v > 0]. *)
Definition gt_zero (v : value) : result bool :=
  match v with
  | VBool b => Ok b
  | VInt z => Ok (0 <? z)%Z
  | VStr _ => Raise TypeError
  end.

(** [v - 1]. *)
Definition minus_one (v : value) : result value :=
  match v with
  | VBool b => Ok (VInt (Z.b2z b - 1))
  | VInt z => Ok (VInt (z - 1))
  | VStr _ => Raise TypeError
  end.

(** [_update_countdown()] (3347-3362), a tick of the block timer; the stop
    of the timer is not recorded.  [remaining] is assigned by
    [_start_block] before it starts the timer, so the attribute exists
    whenever the timer ticks; a read of the missing attribute, which raises
    in Python (AttributeError), is a raise here as well. *)
Definition _update_countdown : M unit :=
  w ← gets id;
  match remaining w with
  | None => raise TypeError
  | Some r =>
      positive ← read (fun _ => gt_zero r);
      if (positive : bool) then
        emit (SystemMessage (py_str r +:+ "s..."));;
        r' ← read (fun _ => minus_one r);
        modify (set_remaining (fun _ => Some r'))
      else
        emit (SystemMessage "You may type now.");;
        modify (set_blocking (fun _ => false));;
        emit InputEnabled
  end.

(** [clear_data()] (2736-2747); the removal of the bubbles is not
    recorded. *)
Definition clear_data : M unit :=
  modify (set_history (fun _ => []));;
  emit (SystemMessage "Chat history erased.").

(** [_handle_erase_timeout()] (2323-2340); [erase_count] is only ever
    incremented and is left out. *)
Definition _handle_erase_timeout : M unit :=
  clear_data;;
  w ← gets id;
  let repeat_enabled :=
    setting_or (feature_settings w) "erase_history_repeat" (VBool false) in
  if py_truth repeat_enabled then
    let interval :=
      setting_or (feature_settings w) "erase_history_interval_s" (VInt 120) in
    ms ← read (fun _ => to_msec interval);
    emit (EraseTimerStarted ms)
  else skip.

(** [_on_error(msg)] (3365-3380). *)
Definition _on_error (msg : string) : M unit :=
  stop_thinking;;
  emit (SystemMessage ("ERROR: " +:+ msg));;
  emit InputEnabled.

(** ** All the slots of the window *)

(** A delivery of the event loop, now with the timers of the cooldown and
    of the erasure and the error signal of a worker thread. *)
Inductive slot : Type :=
| Delivered (i : input)
| EraseTimeout                 (* erase_timer.timeout *)
| CountdownTick                (* block_timer.timeout *)
| ThreadError (msg : string).  (* error of a worker thread *)

Definition serve (s : slot) : M unit :=
  match s with
  | Delivered i => handle i
  | EraseTimeout => _handle_erase_timeout
  | CountdownTick => _update_countdown
  | ThreadError msg => _on_error msg
  end.

(** The session after a sequence of deliveries of any kind. *)
Definition session (slots : list slot) (w : World) : World :=
  foldl (fun w s => exec (serve s) w) w slots.

(** ** Further vocabulary *)

(** The dictionary [build_messages] takes the flags from (its step 2). *)
Definition flags_source (w : World) (use_features : bool)
    (custom_features : option (gmap FeatureFlag bool)) : gmap FeatureFlag bool :=
  match custom_features with
  | Some d => d
  | None =>
      if use_features then enabled_features w
      else foldl (fun d flag => <[flag := false]> d) ∅ all_flags
  end.

(** What follows the history in a request: the prompt, unless the history
    already ends with it as a user message. *)
Definition prompt_unless_last (history : list (string * string)) (prompt : string)
    : list (string * string) :=
  if bool_decide (last history = Some ("user", prompt)) then []
  else [("user", prompt)].

(** The messages of a role among a list of messages. *)
Definition of_role (role : string) (messages : list (string * string))
    : list (string * string) :=
  List.filter (fun m => String.eqb m.1 role) messages.

(** The flags the loop over [content_feature_mappings] clears when it sets
    a flag. *)
Definition excluded_by (flag : FeatureFlag) : list FeatureFlag :=
  match flag with
  | RUDE_TONE => [KIND_TONE]
  | KIND_TONE => [RUDE_TONE]
  | MIRROR => [ANTI_MIRROR]
  | ANTI_MIRROR => [MIRROR]
  | POSITIVE_FEEDBACK => [CRITICAL_FEEDBACK; NEUTRAL_FEEDBACK]
  | CRITICAL_FEEDBACK => [POSITIVE_FEEDBACK; NEUTRAL_FEEDBACK]
  | NEUTRAL_FEEDBACK => [POSITIVE_FEEDBACK; CRITICAL_FEEDBACK]
  | _ => []
  end.

(** The entry of a flag in the feature set of Option B, read off the
    mappings for the settings that are [on]: the last mapping that is on
    and names the flag, or a flag that excludes it, decides. *)
Definition option_b_entry (on : string -> bool) (f : FeatureFlag) : option bool :=
  let content :=
    foldl (fun acc item =>
             if bool_decide (f = item.2) then (if on item.1 then Some true else acc)
             else if bool_decide (f ∈ excluded_by item.2)
                  then (if on item.1 then Some false else acc)
                  else acc)
      (Some false) content_feature_mappings in
  foldl (fun acc item =>
           if bool_decide (f = item.2) then (if on item.1 then Some true else acc)
           else acc)
    content ui_feature_mappings.

(** The world after [n] ticks of the block timer. *)
Definition countdown (n : nat) (w : World) : World :=
  Nat.iter n (fun w => exec _update_countdown w) w.


(** The world a commit hands to its mode-specific part: the turn is
    recorded and the pending A/B state is dropped. *)
Definition recorded (reply : string) (w : World) : World :=
  set_assistant_message_count (fun n => n + 1)%Z
    (set_count (fun n => n + 1)%Z
       (set_history (fun h => h ++ [("assistant", reply)])
          (set_ab_responses (fun _ => None)
             (set_last_ab_choice (fun _ => None) w)))).

(** The counts of turns and of assistant messages have moved on by the
    same amount, and not backwards. *)
Definition counted_together (w w' : World) : Prop :=
  (count w <= count w')%Z
  /\ (count w' - count w = assistant_message_count w' - assistant_message_count w)%Z.

(** The length of a slow-down cycle, period plus window, when the two
    settings are numbers. *)
Definition slow_cycle (w : World) : option Z :=
  match py_int (setting_or (feature_settings w) "slowdown_period_s" (VInt 100)),
        py_int (setting_or (feature_settings w) "slowdown_window_s" (VInt 20)) with
  | Ok p, Ok s => Some (Z.max 1 p + Z.max 0 s)%Z
  | _, _ => None
  end.

(** An effect other than the showing and the removal of the thinking
    bubble. *)
Definition not_thinking (e : effect) : Prop :=
  e <> ThinkingShown /\ e <> ThinkingRemoved.

(** An effect other than the timer of the survey. *)
Definition not_survey (e : effect) : Prop :=
  e <> SingleShot 1000 cb_show_survey.

(** ** Further sample sessions *)

(** A kind assistant, with and without memory, after a first exchange and
    a second message of the participant. *)
Definition two_turns : list (string * string) :=
  [("user", "Hi"); ("assistant", "Hello!"); ("user", "Why is the sky blue?")].

Definition w_kind : World :=
  set_history (fun _ => two_turns)
    (new_window (flags_on [KIND_TONE]) feature_settings_initial [] 0
       (always Cancelled)).

Definition w_kind_no_memory : World :=
  set_history (fun _ => two_turns)
    (new_window (flags_on [KIND_TONE; NO_MEMORY]) feature_settings_initial [] 0
       (always Cancelled)).

(** Cooldowns on, after every second turn, in a session of three turns;
    and the same with the threshold at zero. *)
Definition w_cooldown : World :=
  set_assistant_message_count (fun _ => 3%Z)
    (set_count (fun _ => 3%Z)
       (new_window (flags_on [BLOCK_MSGS])
          (<["block_message_count" := VInt 2]> feature_settings_initial) [] 0
          (always Cancelled))).

Definition w_cooldown_zero : World :=
  set_assistant_message_count (fun _ => 3%Z)
    (set_count (fun _ => 3%Z)
       (new_window (flags_on [BLOCK_MSGS])
          (<["block_message_count" := VInt 0]> feature_settings_initial) [] 0
          (always Cancelled))).

(** The survey after every second assistant message, in a session of three
    turns. *)
Definition w_survey : World :=
  set_assistant_message_count (fun _ => 3%Z)
    (set_count (fun _ => 3%Z)
       (new_window (flags_on [INTER_TRIAL_SURVEY])
          (<["survey_trigger_count" := VInt 2]> feature_settings_initial) [] 0
          (always Cancelled))).

(** The permanent slow-down set to begin ten minutes into the session. *)
Definition w_permanent : World :=
  new_window (flags_on [SLOWDOWN])
    (<["slowdown_permanent_after_enabled" := VBool true]> feature_settings_initial) [] 0
    (always Cancelled).

(** The message-count auto-end alone, with a maximum of three messages, in
    a fresh window. *)
Definition w_auto_end_three : World :=
  new_window (flags_on [AUTO_END_AFTER_N_MSGS])
    (<["auto_end_messages" := VInt 3]> feature_settings_initial) [] 0
    (always Cancelled).

(** A script whose only step is a scripted A/B test without a second
    response, with the thinking bubble on, in front of a participant who
    picks Option B. *)
Definition step_compare : step := {[ "type" := "ab_test"; "response_a" := "Left." ]}.

Definition w_script_ab : World :=
  new_window (flags_on [SCRIPTED_RESPONSES; THINKING]) feature_settings_initial
    [step_compare] 0 (always Chose_B).

(** * Properties *)

(** ** Arithmetic of the clock *)

Lemma float_mod_comp (x y : Q) (m : Z) :
  (x == y)%Q -> (float_mod x m == float_mod y m)%Q.
Proof.
  intros E. unfold float_mod.
  rewrite (Qfloor_comp (x / inject_Z m) (y / inject_Z m)) by (rewrite E; reflexivity).
  rewrite E. reflexivity.
Qed.

Lemma float_mod_range (x : Q) (m : Z) :
  (0 < m)%Z -> (0 <= float_mod x m)%Q /\ (float_mod x m < inject_Z m)%Q.
Proof.
  intros Hm. unfold float_mod.
  assert (Hq : (0 < inject_Z m)%Q) by (change 0%Q with (inject_Z 0); rewrite <- Zlt_Qlt; exact Hm).
  pose proof (Qfloor_le (x / inject_Z m)) as Hlo.
  pose proof (Qlt_floor (x / inject_Z m)) as Hhi.
  set (q := Qfloor (x / inject_Z m)) in *.
  assert (Hx : (x == inject_Z m * (x / inject_Z m))%Q).
  { rewrite Qmult_div_r; [reflexivity | lra]. }
  rewrite inject_Z_mult.
  rewrite inject_Z_plus in Hhi. 
  split.
  - apply (Qmult_le_l _ _ (inject_Z m)) in Hlo; [| exact Hq]. rewrite <- Hx in Hlo. lra.
  - apply (Qmult_lt_l _ _ (inject_Z m)) in Hhi; [| exact Hq]. rewrite <- Hx in Hhi.
    change (inject_Z 1) with 1%Q in Hhi. lra.
Qed.

Lemma Qle_bool_comp (a x y : Q) : (x == y)%Q -> Qle_bool a x = Qle_bool a y.
Proof.
  intros E. destruct (Qle_bool a x) eqn:H1, (Qle_bool a y) eqn:H2; try reflexivity.
  - apply Qle_bool_iff in H1. rewrite E in H1. apply Qle_bool_iff in H1. congruence.
  - apply Qle_bool_iff in H2. rewrite <- E in H2. apply Qle_bool_iff in H2. congruence.
Qed.

Lemma in_window_comp (n m : Z) (x y : Q) :
  (x == y)%Q ->
  Qle_bool (inject_Z n) (float_mod x m) = Qle_bool (inject_Z n) (float_mod y m).
Proof. intros E. apply Qle_bool_comp, float_mod_comp, E. Qed.

(** ** Settings resolution *)

Lemma get_setting_value_primary (S : gmap string value) (key : string) :
  get_setting_value S key false = S !! key.
Proof. reflexivity. Qed.






(** ** The cyclic slow window *)

Lemma in_slow_window_disabled (w : World) (send_ts : Q) :
  is_enabled w SLOWDOWN = false -> _in_slow_window w send_ts = Ok false.
Proof. intros H. unfold _in_slow_window. rewrite H. reflexivity. Qed.

(** C1 (as amended): with the slow-down feature off the turn is never in
    the slow window; with it on, for every send timestamp the turn is in
    the slow window iff (elapsed mod (P + W)) >= P, where P is the
    configured period floored at 1 and W the configured window floored at
    0, and never when W = 0.  With period 100 and window 20: elapsed 110
    is in the window, 90 is not, 219 is not (99 into the cycle) and 220 is
    (100 into the cycle). *)
Theorem in_slow_window_cyclic (w : World) (send_ts : Q) (p s : Z) :
  py_int (setting_or (feature_settings w) "slowdown_period_s" (VInt 100)) = Ok p ->
  py_int (setting_or (feature_settings w) "slowdown_window_s" (VInt 20)) = Ok s ->
  let P := Z.max 1 p in
  let W := Z.max 0 s in
  let elapsed := (send_ts - session_start_time w)%Q in
  (is_enabled w SLOWDOWN = false -> _in_slow_window w send_ts = Ok false)
  /\ (is_enabled w SLOWDOWN = true ->
      exists b : bool,
        _in_slow_window w send_ts = Ok b
        /\ (b = true <-> (inject_Z P <= float_mod elapsed (P + W))%Q)
        /\ (W = 0%Z -> b = false)
        /\ (p = 100%Z -> s = 20%Z ->
              ((elapsed == 110)%Q -> b = true)
              /\ ((elapsed == 90)%Q -> b = false)
              /\ ((elapsed == 219)%Q -> b = false)
              /\ ((elapsed == 220)%Q -> b = true))).
Proof.
  intros Hp Hs P W elapsed.
  split; [apply in_slow_window_disabled |].
  intros Hon. unfold _in_slow_window. rewrite Hon.
  cbv zeta. rewrite Hp, Hs.
  cbv beta iota delta [negb mbind result_bind].
  fold P W elapsed.
  destruct (Z.leb_spec W 0) as [HW | HW].
  - assert (W0 : W = 0%Z) by (unfold W in *; lia).
    exists false. split; [reflexivity |]. split; [| split; [reflexivity |]].
    + split; [discriminate |]. intros Hle. exfalso.
      rewrite W0, Z.add_0_r in Hle.
      destruct (float_mod_range elapsed P) as [_ Hlt]; [unfold P; lia |].
      apply (Qlt_irrefl (inject_Z P)). eapply Qle_lt_trans; eassumption.
    + intros -> ->. discriminate W0.
  - exists (Qle_bool (inject_Z P) (float_mod elapsed (P + W))).
    split; [reflexivity |]. split; [apply Qle_bool_iff |].
    split; [intros W0; lia |].
    intros -> ->. change P with 100%Z. change W with 20%Z.
    repeat split; intros E; rewrite (in_window_comp _ _ _ _ E); reflexivity.
Qed.

Lemma in_slow_window_cyclic_witness :
  _in_slow_window w_plain 110 = Ok false
  /\ _in_slow_window w_slow 110 = Ok true
  /\ _in_slow_window w_slow 219 = Ok false.
Proof.
  destruct (in_slow_window_cyclic w_plain 110 100 20 eq_refl eq_refl) as [Hoff _].
  destruct (in_slow_window_cyclic w_slow 110 100 20 eq_refl eq_refl) as [_ Hon].
  destruct (in_slow_window_cyclic w_slow 219 100 20 eq_refl eq_refl) as [_ Hon'].
  split; [apply Hoff; reflexivity |].
  destruct (Hon eq_refl) as (b & -> & _ & _ & Hex).
  destruct (Hon' eq_refl) as (b' & -> & _ & _ & Hex').
  destruct (Hex eq_refl eq_refl) as (H110 & _).
  destruct (Hex' eq_refl eq_refl) as (_ & _ & H219 & _).
  rewrite H110 by reflexivity. rewrite H219 by reflexivity. split; reflexivity.
Defined.

(** C1 as stated fails on its own examples: 219 s is 99 s into the second
    cycle of 120 s, before the window opens at 100 s, and 220 s is where
    the window opens. *)
Lemma in_slow_window_219_220_counterexample :
  is_enabled w_slow SLOWDOWN = true
  /\ feature_settings w_slow !! "slowdown_period_s" = Some (VInt 100)
  /\ feature_settings w_slow !! "slowdown_window_s" = Some (VInt 20)
  /\ session_start_time w_slow = 0%Q
  /\ _in_slow_window w_slow 219 = Ok false
  /\ _in_slow_window w_slow 220 = Ok true
  /\ float_mod 219 (100 + 20) = 99%Q
  /\ float_mod 220 (100 + 20) = 100%Q.
Proof. vm_compute. repeat split; reflexivity. Qed.

#[global] Arguments setting_or : simpl never.
#[global] Arguments get_setting_value : simpl never.
#[global] Arguments is_enabled : simpl never.
#[global] Arguments py_float : simpl never.
#[global] Arguments py_int : simpl never.
#[global] Arguments float_ge : simpl never.
#[global] Arguments int_ge : simpl never.
#[global] Arguments int_mod : simpl never.
#[global] Arguments py_mod : simpl never.
#[global] Arguments py_index : simpl never.
#[global] Arguments _in_slow_window : simpl never.
#[global] Arguments _slowdown_permanent_active : simpl never.

Ltac unfold_M :=
  unfold skip, emit, mbind, mret, M_bind, M_ret, gets, modify, read, raise in *.

Lemma numeric_py_int (S : gmap string value) (key : string) (n : Z) :
  numeric_setting S key = true -> exists z, py_int (setting_or S key (VInt n)) = Ok z.
Proof.
  unfold numeric_setting, setting_or, get_setting_value. simpl.
  destruct (S !! key) as [[b | z | s] |]; simpl; intros H; eauto; discriminate.
Qed.

Lemma numeric_py_float (S : gmap string value) (key : string) (n : Z) :
  numeric_setting S key = true -> exists d, py_float (setting_or S key (VInt n)) = Ok d.
Proof.
  unfold numeric_setting, setting_or, get_setting_value. simpl.
  destruct (S !! key) as [[b | z | s] |]; simpl; intros H; eauto; discriminate.
Qed.

Lemma numeric_float_ge (S : gmap string value) (key : string) (n : Z) (x : Q) :
  numeric_setting S key = true -> exists b, float_ge x (setting_or S key (VInt n)) = Ok b.
Proof.
  unfold numeric_setting, setting_or, get_setting_value. simpl.
  destruct (S !! key) as [[b | z | s] |]; simpl; intros H; eauto; discriminate.
Qed.

Lemma slowdown_permanent_active_returns (w : World) (now_s : Q) :
  numeric_setting (feature_settings w) "slowdown_permanent_after_s" = true ->
  exists b, _slowdown_permanent_active w now_s = Ok b.
Proof.
  intros H. unfold _slowdown_permanent_active.
  destruct (negb (is_enabled w SLOWDOWN)); [eauto |].
  destruct (negb (py_truth _)); [eauto |].
  cbv zeta. apply numeric_float_ge, H.
Qed.

Lemma in_slow_window_returns (w : World) (send_ts : Q) :
  numeric_setting (feature_settings w) "slowdown_period_s" = true ->
  numeric_setting (feature_settings w) "slowdown_window_s" = true ->
  exists b, _in_slow_window w send_ts = Ok b.
Proof.
  intros Hp Hs. unfold _in_slow_window.
  destruct (negb (is_enabled w SLOWDOWN)); [eauto |].
  destruct (numeric_py_int _ _ 100 Hp) as [p Ep].
  destruct (numeric_py_int _ _ 20 Hs) as [s Es].
  cbv zeta. rewrite Ep, Es. cbv beta iota delta [mbind result_bind].
  destruct (_ <=? _)%Z; eauto.
Qed.

Lemma slowdown_settings_numeric_split (w : World) :
  slowdown_settings_numeric w = true ->
  numeric_setting (feature_settings w) "slowdown_period_s" = true
  /\ numeric_setting (feature_settings w) "slowdown_window_s" = true
  /\ numeric_setting (feature_settings w) "slowdown_permanent_after_s" = true
  /\ numeric_setting (feature_settings w) "slowdown_min_delay_s" = true.
Proof.
  unfold slowdown_settings_numeric. rewrite !andb_true_iff. tauto.
Qed.

Lemma slowdown_permanent_active_disabled (w : World) (now_s : Q) :
  is_enabled w SLOWDOWN = false -> _slowdown_permanent_active w now_s = Ok false.
Proof. intros H. unfold _slowdown_permanent_active. rewrite H. reflexivity. Qed.


(** What [_prepare_turn_slowdown] does once the two mechanisms answered. *)
Lemma prepare_turn_slowdown_eq (w : World) (send_ts : Q) (perm cyc : bool) (d : Q) :
  _slowdown_permanent_active w send_ts = Ok perm ->
  _in_slow_window w send_ts = Ok cyc ->
  py_float (setting_or (feature_settings w) "slowdown_min_delay_s" (VInt 4)) = Ok d ->
  _prepare_turn_slowdown send_ts w =
    (Ok tt,
     set_earliest_display_ts
       (fun _ => if perm || cyc then Some (send_ts + d)%Q else None)
       (set_must_slow_turn (fun _ => perm || cyc) w)).
Proof.
  intros Hperm Hcyc Hd. unfold _prepare_turn_slowdown.
  destruct (is_enabled w SLOWDOWN) eqn:Hon.
  - unfold_M. cbn. rewrite Hon. cbn. rewrite Hperm, Hcyc. cbn.
    destruct (perm || cyc); cbn; [rewrite Hd |]; reflexivity.
  - rewrite (slowdown_permanent_active_disabled w send_ts Hon) in Hperm.
    rewrite (in_slow_window_disabled w send_ts Hon) in Hcyc.
    injection Hperm as <-. injection Hcyc as <-.
    unfold_M. cbn. rewrite Hon. reflexivity.
Qed.

(** C7: the timing decision taken at send time.  The turn must be delayed
    iff the permanent slow-down or the cyclic slow window fires; when it
    must, the earliest reveal timestamp is the send time plus the
    configured minimum delay, whichever mechanism fired; when it need not,
    there is no earliest reveal timestamp. *)
Theorem prepare_turn_slowdown_decision (w : World) (send_ts : Q) :
  slowdown_settings_numeric w = true ->
  let w' := exec (_prepare_turn_slowdown send_ts) w in
  exists (perm cyc : bool) (d : Q),
    _slowdown_permanent_active w send_ts = Ok perm
    /\ _in_slow_window w send_ts = Ok cyc
    /\ py_float (setting_or (feature_settings w) "slowdown_min_delay_s" (VInt 4)) = Ok d
    /\ fst (_prepare_turn_slowdown send_ts w) = Ok tt
    /\ (_must_slow_turn w' = true <-> perm = true \/ cyc = true)
    /\ (_must_slow_turn w' = true -> _earliest_display_ts w' = Some (send_ts + d)%Q)
    /\ (_must_slow_turn w' = false -> _earliest_display_ts w' = None).
Proof.
  intros Hnum w'.
  destruct (slowdown_settings_numeric_split w Hnum) as (Hp & Hs & Ht & Hm).
  destruct (slowdown_permanent_active_returns w send_ts Ht) as [perm Hperm].
  destruct (in_slow_window_returns w send_ts Hp Hs) as [cyc Hcyc].
  destruct (numeric_py_float _ _ 4 Hm) as [d Hd].
  exists perm, cyc, d.
  repeat (split; [assumption |]).
  subst w'.
  rewrite (prepare_turn_slowdown_eq w send_ts perm cyc d Hperm Hcyc Hd).
  cbn. 
  split; [reflexivity |]. split; [apply orb_true_iff |].
  split; intros ->; reflexivity.
Qed.

Lemma prepare_turn_slowdown_decision_witness :
  _must_slow_turn (exec (_prepare_turn_slowdown 110) w_slow) = true
  /\ _earliest_display_ts (exec (_prepare_turn_slowdown 110) w_slow) = Some (110 + 4)%Q.
Proof.
  destruct (prepare_turn_slowdown_decision w_slow 110 eq_refl)
    as (perm & cyc & d & Hperm & Hcyc & Hd & _ & Hmust & Hsome & _).
  assert (Hc : cyc = true) by (vm_compute in Hcyc; congruence).
  assert (Hd' : d = 4%Q) by (vm_compute in Hd; congruence).
  subst d. split; [apply Hmust; right; exact Hc |].
  apply Hsome, Hmust. right. exact Hc.
Defined.

(** ** Running a method *)

Lemma exec_bind {A B} (m : M A) (k : A -> M B) (w w1 : World) (a : A) :
  m w = (Ok a, w1) -> (m ≫= k) w = k a w1.
Proof. intros H. unfold mbind, M_bind. rewrite H. reflexivity. Qed.

Lemma exec_bind_raise {A B} (m : M A) (k : A -> M B) (w w1 : World) (e : exn) :
  m w = (Raise e, w1) -> (m ≫= k) w = (Raise e, w1).
Proof. intros H. unfold mbind, M_bind. rewrite H. reflexivity. Qed.

Lemma bind_modify {B} (f : World -> World) (k : unit -> M B) (w : World) :
  (modify f ≫= k) w = k tt (f w).
Proof. reflexivity. Qed.

Lemma bind_gets {A B} (f : World -> A) (k : A -> M B) (w : World) :
  (gets f ≫= k) w = k (f w) w.
Proof. reflexivity. Qed.

Lemma bind_emit {B} (e : effect) (k : unit -> M B) (w : World) :
  (emit e ≫= k) w = k tt (set_effects (fun l => l ++ [e]) w).
Proof. reflexivity. Qed.

Lemma bind_ret {A B} (a : A) (k : A -> M B) (w : World) :
  (mret a ≫= k) w = k a w.
Proof. reflexivity. Qed.

(** ** What a method leaves alone *)

#[global] Instance same_preorder {X} (proj : World -> X) : PreOrder (same proj).
Proof.
  split.
  - intros w. reflexivity.
  - intros w1 w2 w3 H12 H23. unfold same in *. congruence.
Qed.

Section Keeps.
Context (R : World -> World -> Prop) `{!PreOrder R}.

Lemma keeps_ret {A} (a : A) : keeps R (mret a).
Proof. intros w. reflexivity. Qed.

Lemma keeps_skip : keeps R skip.
Proof. intros w. reflexivity. Qed.

Lemma keeps_gets {A} (f : World -> A) : keeps R (gets f).
Proof. intros w. reflexivity. Qed.

Lemma keeps_read {A} (f : World -> result A) : keeps R (read f).
Proof. intros w. reflexivity. Qed.

Lemma keeps_raise {A} (e : exn) : keeps R (@raise A e).
Proof. intros w. reflexivity. Qed.

Lemma keeps_modify (f : World -> World) :
  (forall w, R w (f w)) -> keeps R (modify f).
Proof. intros H w. apply H. Qed.

Lemma keeps_bind {A B} (m : M A) (k : A -> M B) :
  keeps R m -> (forall a, keeps R (k a)) -> keeps R (m ≫= k).
Proof.
  intros Hm Hk w. unfold mbind, M_bind.
  specialize (Hm w). destruct (m w) as [[a | e] w1]; simpl in *.
  - etransitivity; [exact Hm | apply Hk].
  - exact Hm.
Qed.

Lemma keeps_try_pass (m : M unit) : keeps R m -> keeps R (try_pass m).
Proof. intros Hm w. apply Hm. Qed.
End Keeps.

(** One step of a proof that a method keeps a relation: through binds,
    branches and the primitive computations. *)
Create HintDb keeps.

Ltac keeps_side := try solve [reflexivity | split; reflexivity].

Ltac keeps_step :=
  match goal with
  | |- keeps _ _ => solve [auto 1 with keeps nocore]
  | |- keeps _ (_ ≫= _) => apply keeps_bind; try typeclasses eauto; [| intros ?]
  | |- keeps _ (mret _) => apply keeps_ret; typeclasses eauto
  | |- keeps _ skip => apply keeps_skip; typeclasses eauto
  | |- keeps _ (gets _) => apply keeps_gets; typeclasses eauto
  | |- keeps _ (read _) => apply keeps_read; typeclasses eauto
  | |- keeps _ (raise _) => apply keeps_raise; typeclasses eauto
  | |- keeps _ (try_pass _) => apply keeps_try_pass
  | |- keeps _ (modify _) =>
      apply keeps_modify; try typeclasses eauto; intros ?; red; keeps_side
  | |- keeps _ (emit _) =>
      apply keeps_modify; try typeclasses eauto; intros ?; red; keeps_side
  | |- keeps _ (if ?b then _ else _) => destruct b
  | |- keeps _ (match ?x with _ => _ end) => destruct x
  | |- keeps _ (let _ := _ in _) => cbv zeta
  end.

Ltac keeps_tac := repeat keeps_step.

Ltac unfold_methods :=
  unfold handle, fire, _initialize_blueprint_mode, _send_after_delay,
    scripted_turn, play_step, live_dispatch, think_once, _start_thinking, _handle_scripted_ab_turn,
    _on_ab_response, _on_response, _maybe_delay_then, run_proceed,
    stop_thinking, _show_ab_dialog, ab_dialog_closed, _type_step,
    _display_response,
    _finish_response, finish_in_standard, block_or_enable_input, survey_trigger,
    finish_in_blueprint, _start_block,
    _start_next_block, _apply_block_config, _setup_erase_history_timer,
    _apply_text_size, _check_auto_end_conditions, _auto_end_chat, _end_chat,
    _prepare_turn_slowdown, get_scripted_convo.


#[global] Arguments _prepare_turn_slowdown : simpl never.
#[global] Arguments _end_chat : simpl never.
#[global] Arguments _auto_end_chat : simpl never.
#[global] Arguments _check_auto_end_conditions : simpl never.
#[global] Arguments _apply_text_size : simpl never.
#[global] Arguments _setup_erase_history_timer : simpl never.
#[global] Arguments _apply_block_config : simpl never.
#[global] Arguments _start_next_block : simpl never.
#[global] Arguments _initialize_blueprint_mode : simpl never.
#[global] Arguments _start_block : simpl never.
#[global] Arguments finish_in_blueprint : simpl never.
#[global] Arguments finish_in_standard : simpl never.
#[global] Arguments survey_trigger : simpl never.
#[global] Arguments block_or_enable_input : simpl never.
#[global] Arguments _finish_response : simpl never.
#[global] Arguments _display_response : simpl never.
#[global] Arguments _type_step : simpl never.
#[global] Arguments _show_ab_dialog : simpl never.
#[global] Arguments stop_thinking : simpl never.
#[global] Arguments run_proceed : simpl never.
#[global] Arguments _maybe_delay_then : simpl never.
#[global] Arguments _on_response : simpl never.
#[global] Arguments _on_ab_response : simpl never.
#[global] Arguments _handle_scripted_ab_turn : simpl never.
#[global] Arguments _start_thinking : simpl never.
#[global] Arguments think_once : simpl never.
#[global] Arguments live_dispatch : simpl never.
#[global] Arguments play_step : simpl never.
#[global] Arguments get_scripted_convo : simpl never.
#[global] Arguments _send_after_delay : simpl never.
#[global] Arguments scripted_turn : simpl never.
#[global] Arguments fire : simpl never.
#[global] Arguments handle : simpl never.
#[global] Arguments float_to_int : simpl never.
#[global] Arguments Qle_bool : simpl never.
#[global] Arguments current_script : simpl never.

(** Reading an attribute through the assignments made since. *)
Ltac wproj :=
  cbn [set_enabled_features set_feature_settings set_SCRIPTED_CONVO_CACHE
       set_experiment_plan set_current_block_index set_messages_in_current_block
       set_history set_count set_assistant_message_count set_blocking
       set_remaining set_must_slow_turn set_earliest_display_ts set_typebuf
       set_typeidx set_current_thinking_bubble set_current_streaming_bubble
       set_ab_responses set_ab_responses_ready set_last_ab_choice
       set_script_index set_custom_font_size set_participant set_effects
       enabled_features feature_settings _SCRIPTED_CONVO_CACHE script_file
       experiment_plan current_block_index messages_in_current_block history
       count assistant_message_count blocking remaining _must_slow_turn
       _earliest_display_ts session_start_time _typebuf _typeidx
       _current_thinking_bubble _current_streaming_bubble ab_test_threshold
       ab_responses ab_responses_ready _last_ab_choice script_index
       custom_font_size participant effects fst snd] in *.

(** ** The reveal gate *)

Lemma maybe_delay_then_immediate (w : World) (fn : proceed_fn) (now : Q) :
  (_must_slow_turn w = false
   \/ _earliest_display_ts w = None
   \/ exists t, _earliest_display_ts w = Some t /\ (t <= now)%Q) ->
  _maybe_delay_then fn now w = run_proceed fn w.
Proof.
  intros H. unfold _maybe_delay_then. unfold_M. cbn.
  destruct (_must_slow_turn w); [| reflexivity].
  destruct (_earliest_display_ts w) as [t |]; [| reflexivity].
  destruct H as [H | [H | (t' & H & Hle)]]; try discriminate.
  injection H as <-.
  assert (E : Qle_bool (t - now) 0 = true) by (apply Qle_bool_iff; lra).
  rewrite E. reflexivity.
Qed.

Lemma maybe_delay_then_scheduled (w : World) (fn : proceed_fn) (now t : Q) :
  _must_slow_turn w = true ->
  _earliest_display_ts w = Some t ->
  (now < t)%Q ->
  _maybe_delay_then fn now w =
    (Ok tt,
     set_effects
       (fun l => l ++ [SingleShot (Qfloor ((t - now) * 1000)) (cb_proceed fn)]) w).
Proof.
  intros Hm He Hlt. unfold _maybe_delay_then. unfold_M. cbn.
  rewrite Hm, He.
  assert (E : Qle_bool (t - now) 0 = false).
  { destruct (Qle_bool (t - now) 0) eqn:E; [| reflexivity].
    apply Qle_bool_iff in E. lra. }
  rewrite E. cbn. rewrite E. cbn.
  unfold float_to_int.
  assert (E' : Qle_bool 0 ((t - now) * 1000) = true) by (apply Qle_bool_iff; lra).
  rewrite E'. reflexivity.
Qed.

(** ** The commit of a turn *)

Lemma finish_response_eq (reply : string) (w : World) :
  _finish_response reply w =
    (if plan_active w then finish_in_blueprint else finish_in_standard)
      (set_assistant_message_count (fun n => n + 1)%Z
         (set_count (fun n => n + 1)%Z
            (set_history (fun h => h ++ [("assistant", reply)])
               (set_ab_responses (fun _ => None)
                  (set_last_ab_choice (fun _ => None) w))))).
Proof. reflexivity. Qed.

Lemma finish_response_recorded (reply : string) (w : World) :
  _finish_response reply w =
    (if plan_active w then finish_in_blueprint else finish_in_standard)
      (recorded reply w).
Proof. apply finish_response_eq. Qed.

Ltac unfold_commit :=
  unfold finish_in_standard, block_or_enable_input, survey_trigger,
    finish_in_blueprint, _start_block, _start_next_block, _apply_block_config,
    _setup_erase_history_timer, _apply_text_size, _check_auto_end_conditions,
    _auto_end_chat, _end_chat.

Lemma commit_tail_keeps_record :
  (keeps (same history) finish_in_blueprint /\ keeps (same history) finish_in_standard)
  /\ (keeps (same count) finish_in_blueprint /\ keeps (same count) finish_in_standard)
  /\ (keeps (same assistant_message_count) finish_in_blueprint
      /\ keeps (same assistant_message_count) finish_in_standard)
  /\ (keeps (same ab_responses) finish_in_blueprint
      /\ keeps (same ab_responses) finish_in_standard)
  /\ (keeps (same _last_ab_choice) finish_in_blueprint
      /\ keeps (same _last_ab_choice) finish_in_standard).
Proof. repeat split; unfold_commit; keeps_tac. Qed.

Lemma finish_response_records (reply : string) (w : World) :
  let w' := exec (_finish_response reply) w in
  history w' = history w ++ [("assistant", reply)]
  /\ count w' = (count w + 1)%Z
  /\ assistant_message_count w' = (assistant_message_count w + 1)%Z
  /\ ab_responses w' = None
  /\ _last_ab_choice w' = None.
Proof.
  intros w'. subst w'. rewrite finish_response_recorded.
  destruct commit_tail_keeps_record
    as ((H1 & H1') & (H2 & H2') & (H3 & H3') & (H4 & H4') & (H5 & H5')).
  destruct (plan_active w).
  - rewrite H1, H2, H3, H4, H5. repeat split; reflexivity.
  - rewrite H1', H2', H3', H4', H5'. repeat split; reflexivity.
Qed.


Lemma survey_trigger_ok_mod (w : World) :
  survey_trigger_ok w = true ->
  is_enabled w INTER_TRIAL_SURVEY = true ->
  exists r,
    int_mod (assistant_message_count w)
      (default (VInt 5) (feature_settings w !! "survey_trigger_count")) = Ok r.
Proof.
  unfold survey_trigger_ok. intros H Hon. rewrite Hon in H. simpl in H.
  unfold int_mod, py_mod.
  destruct (default _ _) as [b | z | s]; try discriminate.
  - destruct b; [| discriminate]. simpl. eauto.
  - destruct (z =? 0)%Z; [discriminate | eauto].
Qed.

Lemma survey_trigger_returns (w : World) :
  survey_trigger_ok w = true ->
  exists pre,
    (pre = [] \/ pre = [SingleShot 1000 cb_show_survey])
    /\ survey_trigger w = (Ok tt, set_effects (fun l => l ++ pre) w).
Proof.
  intros Hs. unfold survey_trigger. unfold_M. cbn.
  assert (Hnil : w = set_effects (fun l => l ++ []) w).
  { destruct w. unfold set_effects. cbn. rewrite app_nil_r. reflexivity. }
  destruct (is_enabled w INTER_TRIAL_SURVEY) eqn:Hon.
  - destruct (0 <? assistant_message_count w)%Z.
    + destruct (survey_trigger_ok_mod w Hs Hon) as [r Hr]. rewrite Hr.
      destruct (r =? 0)%Z.
      * exists [SingleShot 1000 cb_show_survey]. split; [right |]; reflexivity.
      * exists []. split; [left; reflexivity | cbn; f_equal; exact Hnil].
    + exists []. split; [left; reflexivity | cbn; f_equal; exact Hnil].
  - exists []. split; [left; reflexivity | cbn; f_equal; exact Hnil].
Qed.

Lemma standard_tail_keeps_decision :
  keeps (same _must_slow_turn)
    (ended ← _check_auto_end_conditions;
     if (ended : bool) then skip else block_or_enable_input)
  /\ keeps (same _earliest_display_ts)
    (ended ← _check_auto_end_conditions;
     if (ended : bool) then skip else block_or_enable_input).
Proof. split; unfold_methods; keeps_tac. Qed.

Lemma finish_in_standard_eq (w : World) (pre : list effect) :
  survey_trigger w = (Ok tt, set_effects (fun l => l ++ pre) w) ->
  finish_in_standard w =
    (ended ← _check_auto_end_conditions;
     if (ended : bool) then skip else block_or_enable_input)
      (set_earliest_display_ts (fun _ => None)
         (set_must_slow_turn (fun _ => false)
            (set_effects (fun l => l ++ pre) w))).
Proof.
  intros E. unfold finish_in_standard.
  rewrite (exec_bind _ _ _ _ _ E), !bind_modify. reflexivity.
Qed.

(** The standard commit clears the timing decision, whatever follows. *)
Lemma finish_in_standard_clears (w : World) :
  survey_trigger_ok w = true ->
  _must_slow_turn (exec finish_in_standard w) = false
  /\ _earliest_display_ts (exec finish_in_standard w) = None.
Proof.
  intros Hs.
  destruct (survey_trigger_returns w Hs) as (pre & _ & E).
  rewrite (finish_in_standard_eq w pre E).
  destruct standard_tail_keeps_decision as [K1 K2].
  rewrite K1, K2. split; reflexivity.
Qed.

Lemma finish_response_standard_clears (reply : string) (w : World) :
  plan_active w = false ->
  survey_trigger_ok w = true ->
  _must_slow_turn (exec (_finish_response reply) w) = false
  /\ _earliest_display_ts (exec (_finish_response reply) w) = None.
Proof.
  intros Hp Hs. rewrite finish_response_eq.
  rewrite Hp. apply finish_in_standard_clears. exact Hs.
Qed.

(** C8 (as amended): the reveal gate runs its action at once when no delay
    decision is pending or the earliest reveal timestamp has passed;
    otherwise it schedules the action after the remaining delta, in whole
    milliseconds, and returns without running it.  The gate leaves the
    timing decision as it found it: when it schedules, mustDelayTurn and
    the timestamp are still set on return.  It is the commit of the turn
    in standard mode that clears them. *)
Theorem maybe_delay_then_gate (w : World) (fn : proceed_fn) (now : Q) :
  ((_must_slow_turn w = false
    \/ _earliest_display_ts w = None
    \/ exists t, _earliest_display_ts w = Some t /\ (t <= now)%Q) ->
   _maybe_delay_then fn now w = run_proceed fn w)
  /\ (forall t,
        _must_slow_turn w = true ->
        _earliest_display_ts w = Some t ->
        (now < t)%Q ->
        let ms := Qfloor ((t - now) * 1000) in
        let w' := exec (_maybe_delay_then fn now) w in
        _maybe_delay_then fn now w = (Ok tt, w')
        /\ w' = set_effects (fun l => l ++ [SingleShot ms (cb_proceed fn)]) w
        /\ (0 <= ms)%Z
        /\ _must_slow_turn w' = true
        /\ _earliest_display_ts w' = Some t)
  /\ (forall reply,
        plan_active w = false ->
        survey_trigger_ok w = true ->
        _must_slow_turn (exec (_finish_response reply) w) = false
        /\ _earliest_display_ts (exec (_finish_response reply) w) = None).
Proof.
  split; [apply maybe_delay_then_immediate |].
  split; [| intros reply; apply finish_response_standard_clears].
  intros t Hm He Hlt ms w'.
  assert (Hms : (0 <= ms)%Z).
  { subst ms. change 0%Z with (Qfloor 0). apply Qfloor_resp_le. lra. }
  subst w'.
  rewrite (maybe_delay_then_scheduled w fn now t Hm He Hlt).
  repeat split; assumption.
Qed.

Lemma maybe_delay_then_gate_witness :
  _maybe_delay_then (proceed_response "yo") 111 w_slow_sent =
    (Ok tt,
     set_effects
       (fun l => l ++ [SingleShot 3000 (cb_proceed (proceed_response "yo"))])
       w_slow_sent)
  /\ _must_slow_turn (exec (_finish_response "yo") w_slow_sent) = false.
Proof.
  destruct (maybe_delay_then_gate w_slow_sent (proceed_response "yo") 111)
    as (_ & Hs & Hc).
  destruct (Hs (110 + 4)%Q eq_refl eq_refl eq_refl) as (E & E' & _).
  destruct (Hc "yo" eq_refl eq_refl) as [Hm _].
  split; [rewrite E, E'; reflexivity | exact Hm].
Defined.

(** C8 as stated fails: the gate fires and mustDelayTurn stays set.  In
    the blueprint session the response arrives after the timestamp, the
    gate reveals it at once and the turn is committed, and the decision
    is still there; with the typewriter on, the gate starts the reveal and
    returns with the decision still there. *)
Lemma gate_does_not_clear_counterexample :
  let w1 := run [Send "hi" 110 110] w_blueprint in
  let w2 := run [Response "yo" 200] w1 in
  let v1 := run [Send "hi" 110 110] w_typewriter in
  let v2 := run [Response "yo" 200] v1 in
  (_must_slow_turn w1 = true /\ _earliest_display_ts w1 = Some (110 + 4)%Q)
  /\ effects w2 = effects w1 ++ [AssistantMessage "yo"; InputEnabled]
  /\ count w2 = 1%Z
  /\ _must_slow_turn w2 = true
  /\ (_must_slow_turn v1 = true /\ _earliest_display_ts v1 = Some (110 + 4)%Q)
  /\ effects v2 = effects v1 ++ [TypewriterStarted (VInt 20)]
  /\ _must_slow_turn v2 = true.
Proof. vm_compute. repeat split; reflexivity. Qed.

(** ** Auto-end *)

Lemma check_auto_end_reached (w : World) :
  is_enabled w AUTO_END_AFTER_N_MSGS = true ->
  int_ge (assistant_message_count w)
    (setting_or (feature_settings w) "auto_end_messages" (VInt 10)) = Ok true ->
  _check_auto_end_conditions w =
    (Ok true,
     set_effects
       (fun l => l ++ [SystemMessage "Chat ended automatically: message limit reached.";
                       SingleShot 2000 cb_end_chat]) w).
Proof.
  intros Hon Hge. unfold _check_auto_end_conditions, _auto_end_chat.
  unfold_M. cbn. rewrite Hon. cbn. rewrite Hge. cbn.
  destruct w. unfold set_effects. cbn. rewrite <- app_assoc. reflexivity.
Qed.

(** C9 (as amended): outside blueprint mode, whenever a turn is committed
    with the message-count auto-end enabled and the assistant-turn count
    at the configured maximum, termination is announced and the close is
    scheduled after the fixed grace period of 2000 ms. *)
Theorem auto_end_after_standard_commit (w : World) (reply : string) :
  plan_active w = false ->
  survey_trigger_ok w = true ->
  is_enabled w AUTO_END_AFTER_N_MSGS = true ->
  int_ge (assistant_message_count w + 1)
    (setting_or (feature_settings w) "auto_end_messages" (VInt 10)) = Ok true ->
  exists pre,
    (pre = [] \/ pre = [SingleShot 1000 cb_show_survey])
    /\ fst (_finish_response reply w) = Ok tt
    /\ assistant_message_count (exec (_finish_response reply) w)
       = (assistant_message_count w + 1)%Z
    /\ effects (exec (_finish_response reply) w) =
         effects w ++ pre ++
         [SystemMessage "Chat ended automatically: message limit reached.";
          SingleShot 2000 cb_end_chat].
Proof.
  intros Hp Hs Hon Hge. rewrite finish_response_eq, Hp.
  match goal with |- context [finish_in_standard ?x] => set (w5 := x) end.
  destruct (survey_trigger_returns w5 Hs) as (pre & Hpre & E).
  exists pre. split; [exact Hpre |].
  rewrite (finish_in_standard_eq w5 pre E).
  erewrite exec_bind; [| apply check_auto_end_reached; [exact Hon | exact Hge]].
  cbn. rewrite app_assoc. repeat split; reflexivity.
Qed.

Lemma auto_end_after_standard_commit_witness :
  effects (exec (_finish_response "bye") w_nine_turns) =
    [SystemMessage "Chat ended automatically: message limit reached.";
     SingleShot 2000 cb_end_chat].
Proof.
  destruct (auto_end_after_standard_commit w_nine_turns "bye"
              eq_refl eq_refl eq_refl eq_refl) as (pre & Hpre & _ & _ & E).
  rewrite E. destruct Hpre as [-> | ->]; [reflexivity |].
  exfalso. vm_compute in E. discriminate E.
Defined.

(** C9 as stated fails in blueprint mode: the turn is committed with the
    feature on and the count at the maximum, and nothing is announced or
    scheduled. *)
Lemma auto_end_skipped_in_blueprint_counterexample :
  let w' := exec (_finish_response "yo") w_blueprint in
  plan_active w_blueprint = true
  /\ is_enabled w' AUTO_END_AFTER_N_MSGS = true
  /\ feature_settings w' !! "auto_end_messages" = Some (VInt 1)
  /\ assistant_message_count w' = 1%Z
  /\ fst (_finish_response "yo" w_blueprint) = Ok tt
  /\ effects w' = effects w_blueprint ++ [InputEnabled].
Proof. vm_compute. repeat split; reflexivity. Qed.

(** ** Activating a block *)

Lemma FeatureFlag_by_name_name (flag : FeatureFlag) :
  FeatureFlag_by_name (FeatureFlag_name flag) = Some flag.
Proof. destruct flag; reflexivity. Qed.

Lemma FeatureFlag_by_name_Some (name : string) (flag : FeatureFlag) :
  FeatureFlag_by_name name = Some flag -> name = FeatureFlag_name flag.
Proof.
  unfold FeatureFlag_by_name. intros H.
  apply find_some in H as [_ H]. apply String.eqb_eq in H. congruence.
Qed.

Lemma FeatureFlag_name_inj (f g : FeatureFlag) :
  FeatureFlag_name f = FeatureFlag_name g -> f = g.
Proof.
  intros H. apply (f_equal FeatureFlag_by_name) in H.
  rewrite !FeatureFlag_by_name_name in H. congruence.
Qed.

Lemma all_flags_complete (flag : FeatureFlag) : In flag all_flags.
Proof. destruct flag; unfold all_flags; simpl; tauto. Qed.

Lemma reset_flags_lookup (l : list FeatureFlag) (d : gmap FeatureFlag bool)
    (flag : FeatureFlag) :
  In flag l ->
  foldl (fun d f => <[f := false]> d) d l !! flag = Some false.
Proof.
  induction l as [| x l IH] using rev_ind; intros Hin; [destruct Hin |].
  rewrite foldl_app. simpl.
  destruct (decide (x = flag)) as [-> | Hne].
  - apply lookup_insert_eq.
  - rewrite lookup_insert_ne by exact Hne. apply IH.
    apply in_app_or in Hin as [Hin | [Hin | []]]; [exact Hin | contradiction].
Qed.

Lemma feature_override_snoc (features : list (string * bool)) (item : string * bool)
    (flag : FeatureFlag) :
  feature_override (features ++ [item]) flag =
    if String.eqb item.1 (FeatureFlag_name flag) then Some item.2
    else feature_override features flag.
Proof.
  unfold feature_override. rewrite rev_app_distr. simpl.
  destruct (String.eqb item.1 (FeatureFlag_name flag)); reflexivity.
Qed.

Lemma apply_features_lookup (features : list (string * bool))
    (d : gmap FeatureFlag bool) (flag : FeatureFlag) :
  foldl apply_feature d features !! flag =
    match feature_override features flag with
    | Some b => Some b
    | None => d !! flag
    end.
Proof.
  induction features as [| item l IH] using rev_ind; [reflexivity |].
  rewrite foldl_app, feature_override_snoc. simpl. unfold apply_feature at 1.
  destruct (String.eqb item.1 (FeatureFlag_name flag)) eqn:E.
  - apply String.eqb_eq in E. rewrite E, FeatureFlag_by_name_name.
    apply lookup_insert_eq.
  - destruct (FeatureFlag_by_name item.1) as [g |] eqn:G; [| exact IH].
    rewrite lookup_insert_ne; [exact IH |].
    intros ->. apply FeatureFlag_by_name_Some in G.
    rewrite G, String.eqb_refl in E. discriminate.
Qed.

Lemma feature_override_None (features : list (string * bool)) (flag : FeatureFlag) :
  (forall b, ~ In (FeatureFlag_name flag, b) features) ->
  feature_override features flag = None.
Proof.
  intros H. unfold feature_override.
  destruct (List.find _ _) as [[name b] |] eqn:E; [| reflexivity].
  apply find_some in E as [Hin E]. simpl in E. apply String.eqb_eq in E.
  subst name. apply in_rev in Hin. destruct (H b Hin).
Qed.

Lemma unique_key_value (features : list (string * bool)) (name : string)
    (b1 b2 : bool) :
  NoDup features.*1 ->
  In (name, b1) features -> In (name, b2) features -> b1 = b2.
Proof.
  induction features as [| [k v] l IH]; intros Hnd H1 H2; [destruct H1 |].
  rewrite fmap_cons in Hnd. apply NoDup_cons in Hnd as [Hk Hnd]. simpl in Hk.
  assert (Hfresh : forall b, ~ In (k, b) l).
  { intros b Hb. apply Hk. apply list_elem_of_In in Hb.
    apply (list_elem_of_fmap_2 fst) in Hb. exact Hb. }
  destruct H1 as [H1 | H1], H2 as [H2 | H2].
  - congruence.
  - injection H1 as -> ->. destruct (Hfresh b2 H2).
  - injection H2 as -> ->. destruct (Hfresh b1 H1).
  - apply IH; assumption.
Qed.

Lemma apply_block_config_eq (blk : block) (w : World) :
  _apply_block_config blk w =
    (_apply_text_size;;
     _setup_erase_history_timer;;
     emit (WindowTitle (default "Chat" (b_name blk))))
      (set_feature_settings (fun s => default ∅ (b_settings blk) ∪ s)
         (set_enabled_features
            (fun d => foldl apply_feature d (default [] (b_features blk)))
            (set_enabled_features
               (fun d => foldl (fun d flag => <[flag := false]> d) d all_flags) w))).
Proof. reflexivity. Qed.

Lemma apply_block_config_tail_keeps (title : string) :
  let tail :=
    _apply_text_size;; _setup_erase_history_timer;; emit (WindowTitle title) in
  keeps (same enabled_features) tail
  /\ keeps (same feature_settings) tail
  /\ keeps (same experiment_plan) tail
  /\ keeps (same current_block_index) tail
  /\ keeps (same messages_in_current_block) tail.
Proof. cbv zeta. repeat split; unfold_methods; keeps_tac. Qed.

Lemma apply_block_config_state (blk : block) (w : World) :
  let w' := exec (_apply_block_config blk) w in
  enabled_features w' =
    foldl apply_feature
      (foldl (fun d flag => <[flag := false]> d) (enabled_features w) all_flags)
      (default [] (b_features blk))
  /\ feature_settings w' = default ∅ (b_settings blk) ∪ feature_settings w
  /\ experiment_plan w' = experiment_plan w
  /\ current_block_index w' = current_block_index w
  /\ messages_in_current_block w' = messages_in_current_block w.
Proof.
  intros w'. subst w'. rewrite apply_block_config_eq.
  destruct (apply_block_config_tail_keeps (default "Chat" (b_name blk)))
    as (K1 & K2 & K3 & K4 & K5).
  rewrite K1, K2, K3, K4, K5. repeat split; reflexivity.
Qed.

Lemma is_enabled_after_block (blk : block) (w : World) (flag : FeatureFlag) :
  is_enabled (exec (_apply_block_config blk) w) flag =
    default false (feature_override (default [] (b_features blk)) flag).
Proof.
  destruct (apply_block_config_state blk w) as (E & _).
  unfold is_enabled. rewrite E, apply_features_lookup.
  destruct (feature_override _ flag); [reflexivity |].
  rewrite reset_flags_lookup by apply all_flags_complete. reflexivity.
Qed.

(** C3: activating a block resets every flag to false and then applies the
    overrides of the block, so a flag reads what the block sets it to and
    false when the block does not name it, whatever it was before; the
    setting overrides of the block overwrite the entries with their keys
    and every other entry of the live table is unchanged. *)
Theorem apply_block_config_resets_then_overrides (w : World) (blk : block) :
  let w' := exec (_apply_block_config blk) w in
  let features := default [] (b_features blk) in
  let overrides := default ∅ (b_settings blk) in
  (forall flag,
     is_enabled w' flag = default false (feature_override features flag))
  /\ (forall flag,
        (forall b, ~ In (FeatureFlag_name flag, b) features) ->
        is_enabled w' flag = false)
  /\ (forall flag b,
        NoDup features.*1 ->
        In (FeatureFlag_name flag, b) features ->
        is_enabled w' flag = b)
  /\ (forall key v,
        overrides !! key = Some v -> feature_settings w' !! key = Some v)
  /\ (forall key,
        overrides !! key = None ->
        feature_settings w' !! key = feature_settings w !! key).
Proof.
  intros w' features overrides.
  destruct (apply_block_config_state blk w) as (_ & Es & _).
  fold w' overrides in Es.
  split; [intros flag; apply is_enabled_after_block |].
  split.
  { intros flag H. subst w'. rewrite is_enabled_after_block.
    fold features. rewrite feature_override_None by exact H. reflexivity. }
  split.
  { intros flag b Hnd Hin. subst w'. rewrite is_enabled_after_block.
    fold features. unfold feature_override.
    destruct (List.find _ _) as [[name b'] |] eqn:E.
    - apply find_some in E as [Hin' E]. simpl in E. apply String.eqb_eq in E.
      subst name. apply in_rev in Hin'. simpl.
      apply (unique_key_value features (FeatureFlag_name flag) b' b Hnd Hin' Hin).
    - exfalso. apply in_rev in Hin.
      pose proof (find_none _ _ E (FeatureFlag_name flag, b) Hin) as Hf.
      simpl in Hf. rewrite String.eqb_refl in Hf. discriminate Hf. }
  split.
  - intros key v H. rewrite Es. apply lookup_union_Some_l. exact H.
  - intros key H. rewrite Es. apply lookup_union_r. exact H.
Qed.

Lemma apply_block_config_resets_then_overrides_witness :
  is_enabled (exec (_apply_block_config block_main) w_two_blocks) THINKING = false
  /\ feature_settings (exec (_apply_block_config block_main) w_two_blocks) !! "text_size"
     = Some (VInt 30)
  /\ feature_settings (exec (_apply_block_config block_main) w_two_blocks) !! "delay_seconds"
     = feature_settings w_two_blocks !! "delay_seconds".
Proof.
  destruct (apply_block_config_resets_then_overrides w_two_blocks block_main)
    as (_ & Hoff & _ & Hset & Hkeep).
  split.
  { apply Hoff. intros b [H | []]. discriminate H. }
  split; [apply Hset; reflexivity | apply Hkeep; reflexivity].
Defined.

(** ** Progress through the blueprint *)

Lemma py_index_lookup {A} (l : list A) (i : Z) (x : A) :
  (0 <= i)%Z -> l !! Z.to_nat i = Some x -> py_index l i = Ok x.
Proof.
  intros Hi Hx. unfold py_index.
  destruct (Z.ltb_spec i 0) as [? | _]; [lia |].
  destruct (Z.ltb_spec i 0) as [? | _]; [lia |].
  rewrite Hx. reflexivity.
Qed.

Lemma plan_active_Some (w : World) (plan : list block) (i : nat) (blk : block) :
  experiment_plan w = Some plan -> plan !! i = Some blk -> plan_active w = true.
Proof.
  intros Hp Hb. unfold plan_active. rewrite Hp.
  destruct plan; [discriminate Hb | reflexivity].
Qed.

(** Past the last block: the blueprint is complete. *)
Lemma start_next_block_complete (w : World) (plan : list block) :
  experiment_plan w = Some plan ->
  plan_active w = true ->
  (Z.of_nat (length plan) <= current_block_index w + 1)%Z ->
  _start_next_block w =
    (Ok tt,
     set_effects (fun l => l ++ [EndChat])
       (set_effects (fun l => l ++ [SystemMessage "Experiment blueprint complete."])
          (set_current_block_index (fun i => i + 1)%Z w))).
Proof.
  intros Hp Ha Hlen. unfold _start_next_block, _end_chat. unfold_M.
  cbn [id]. rewrite Ha. cbn [negb]. wproj. rewrite Hp. cbn [default from_option id].
  destruct (Z.leb_spec (Z.of_nat (length plan)) (current_block_index w + 1));
    [reflexivity | lia].
Qed.

(** A next block exists: it is activated with the counter at zero. *)
Lemma start_next_block_activate (w : World) (plan : list block) (next : block) :
  experiment_plan w = Some plan ->
  (0 <= current_block_index w + 1)%Z ->
  plan !! Z.to_nat (current_block_index w + 1) = Some next ->
  _start_next_block w =
    _apply_block_config next
      (set_messages_in_current_block (fun _ => 0%Z)
         (set_current_block_index (fun i => i + 1)%Z w)).
Proof.
  intros Hp Hi Hn. unfold _start_next_block. unfold_M.
  cbn [id]. rewrite (plan_active_Some w plan _ next Hp Hn). cbn [negb]. wproj.
  rewrite Hp. cbn [default from_option id].
  destruct (Z.leb_spec (Z.of_nat (length plan)) (current_block_index w + 1)) as [Hle | _].
  - apply lookup_lt_Some in Hn. lia.
  - wproj. rewrite (py_index_lookup plan _ next Hi Hn). reflexivity.
Qed.

Lemma finish_in_blueprint_eq (w : World) (plan : list block) (blk : block) :
  experiment_plan w = Some plan ->
  (0 <= current_block_index w)%Z ->
  plan !! Z.to_nat (current_block_index w) = Some blk ->
  finish_in_blueprint w =
    ((if (default 10%Z (b_duration_messages blk) <=? messages_in_current_block w + 1)%Z
      then _start_next_block else skip);;
     emit InputEnabled)
      (set_messages_in_current_block (fun n => n + 1)%Z w).
Proof.
  intros Hp Hi Hb. unfold finish_in_blueprint. unfold_M.
  cbn [id]. wproj. rewrite Hp. cbn [default from_option id]. wproj.
  rewrite (py_index_lookup plan _ blk Hi Hb). reflexivity.
Qed.

Lemma blueprint_commit_step (w : World) (plan : list block) (blk : block)
    (reply : string) :
  experiment_plan w = Some plan ->
  (0 <= current_block_index w)%Z ->
  plan !! Z.to_nat (current_block_index w) = Some blk ->
  let n := (messages_in_current_block w + 1)%Z in
  let duration := default 10%Z (b_duration_messages blk) in
  let w' := exec (_finish_response reply) w in
  experiment_plan w' = Some plan
  /\ (n < duration ->
        fst (_finish_response reply w) = Ok tt
        /\ messages_in_current_block w' = n
        /\ current_block_index w' = current_block_index w
        /\ enabled_features w' = enabled_features w
        /\ feature_settings w' = feature_settings w
        /\ effects w' = effects w ++ [InputEnabled])%Z
  /\ (duration <= n ->
        forall next, plan !! Z.to_nat (current_block_index w + 1) = Some next ->
        current_block_index w' = current_block_index w + 1
        /\ messages_in_current_block w' = 0
        /\ (forall flag,
              is_enabled w' flag =
                default false (feature_override (default [] (b_features next)) flag))
        /\ feature_settings w' = default ∅ (b_settings next) ∪ feature_settings w)%Z
  /\ (duration <= n ->
        plan !! Z.to_nat (current_block_index w + 1) = None ->
        fst (_finish_response reply w) = Ok tt
        /\ current_block_index w' = current_block_index w + 1
        /\ effects w' =
             effects w ++
             [SystemMessage "Experiment blueprint complete."; EndChat; InputEnabled])%Z.
Proof.
  intros Hp Hi Hb n duration w'. subst w'.
  rewrite finish_response_eq, (plan_active_Some w plan _ blk Hp Hb).
  match goal with |- context [finish_in_blueprint ?x] => set (w5 := x) end.
  rewrite (finish_in_blueprint_eq w5 plan blk Hp Hi Hb).
  change (messages_in_current_block w5 + 1)%Z with n.
  fold duration.
  match goal with |- context [_ (set_messages_in_current_block ?f w5)] =>
    set (w6 := set_messages_in_current_block f w5) end.
  destruct (Z.leb_spec duration n) as [Hge | Hlt].
  - (* the block is over *)
    destruct (plan !! Z.to_nat (current_block_index w + 1)) as [next |] eqn:Hn.
    + assert (Hi' : (0 <= current_block_index w6 + 1)%Z) by (subst w6 w5; wproj; lia).
      pose proof (start_next_block_activate w6 plan next Hp Hi' Hn) as E.
      match type of E with _ = _ ?x => set (w7 := x) in * end.
      destruct (apply_block_config_state next w7) as (E1 & E2 & E3 & E4 & E5).
      pose proof (fun flag => is_enabled_after_block next w7 flag) as E6.
     
      assert (Hst : forall X (proj : World -> X),
        (forall f v, proj (set_effects f v) = proj v) ->
        proj (snd ((_start_next_block;; emit InputEnabled) w6))
        = proj (snd (_apply_block_config next w7))).
      { intros X proj Hproj.
        destruct (_apply_block_config next w7) as [[[] | e] w8] eqn:E8.
        - rewrite (exec_bind _ _ _ _ _ E). apply Hproj.
        - rewrite (exec_bind_raise _ _ _ _ _ E). reflexivity. }
      split; [rewrite (Hst _ experiment_plan) by reflexivity; rewrite E3; exact Hp |].
      split; [intros; lia |].
      split; [| intros _ Hnone; discriminate Hnone].
      intros _ next' Hn'. injection Hn' as <-.
      rewrite (Hst _ current_block_index) by reflexivity.
      rewrite (Hst _ messages_in_current_block) by reflexivity.
      rewrite (Hst _ feature_settings) by reflexivity.
      rewrite E4, E5, E2.
      split; [reflexivity |]. split; [reflexivity |]. split; [| reflexivity].
      intros flag. rewrite <- E6.
      apply (Hst _ (fun v => is_enabled v flag)). reflexivity.
    + assert (Hlen : (Z.of_nat (length plan) <= current_block_index w6 + 1)%Z).
      { apply lookup_ge_None in Hn. subst w6 w5. wproj. lia. }
      pose proof (start_next_block_complete w6 plan Hp
                    (plan_active_Some w plan _ blk Hp Hb) Hlen) as E.
      rewrite (exec_bind _ _ _ _ _ E).
      split; [exact Hp |]. split; [intros; lia |].
      split; [intros _ next Hnext; discriminate Hnext |].
      intros _ _. split; [reflexivity |]. split; [reflexivity |].
      subst w6 w5. unfold emit, modify. wproj. rewrite <- !app_assoc. reflexivity.
  - (* the block goes on *)
    split; [exact Hp |].
    split; [| split; intros; lia].
    intros _. repeat split; reflexivity.
Qed.

Lemma blueprint_two_blocks (w : World) (b0 b1 : block) (r1 r2 r3 r4 r5 : string) :
  experiment_plan w = Some [b0; b1] ->
  b_duration_messages b0 = Some 2%Z ->
  b_duration_messages b1 = Some 3%Z ->
  current_block_index w = 0%Z ->
  messages_in_current_block w = 0%Z ->
  let w2 := commits [r1; r2] w in
  let w4 := commits [r3; r4] w2 in
  let w5 := commits [r5] w4 in
  (current_block_index w2 = 1%Z
   /\ messages_in_current_block w2 = 0%Z
   /\ forall flag,
        is_enabled w2 flag =
          default false (feature_override (default [] (b_features b1)) flag))
  /\ current_block_index w4 = 1%Z
  /\ (current_block_index w5 = 2%Z
      /\ effects w5 =
           effects w4 ++
           [SystemMessage "Experiment blueprint complete."; EndChat; InputEnabled]).
Proof.
  intros Hp Hd0 Hd1 Hi Hm w2 w4 w5. subst w5 w4 w2. unfold commits. simpl foldl.
  (* first turn of block 0 *)
  destruct (blueprint_commit_step w [b0; b1] b0 r1 Hp) as (Hp1 & Hs1 & _ & _);
    [lia | rewrite Hi; reflexivity |].
  rewrite Hd0, Hm in Hs1. destruct Hs1 as (_ & Hm1 & Hi1 & _); [simpl; lia |].
  set (w1 := exec (_finish_response r1) w) in *. rewrite Hi in Hi1. simpl in Hm1.
  (* second turn: block 1 is activated *)
  destruct (blueprint_commit_step w1 [b0; b1] b0 r2 Hp1) as (Hp2 & _ & Hs2 & _);
    [lia | rewrite Hi1; reflexivity |].
  rewrite Hd0, Hm1, Hi1 in Hs2.
  destruct (Hs2 ltac:(simpl; lia) b1 eq_refl) as (Hi2 & Hm2 & Hf2 & _).
  set (w2 := exec (_finish_response r2) w1) in *. simpl in Hi2.
  split; [repeat split; assumption |].
  (* first and second turn of block 1 *)
  destruct (blueprint_commit_step w2 [b0; b1] b1 r3 Hp2) as (Hp3 & Hs3 & _ & _);
    [lia | rewrite Hi2; reflexivity |].
  rewrite Hd1, Hm2, Hi2 in Hs3. destruct Hs3 as (_ & Hm3 & Hi3 & _); [simpl; lia |].
  set (w3 := exec (_finish_response r3) w2) in *. simpl in Hm3.
  destruct (blueprint_commit_step w3 [b0; b1] b1 r4 Hp3) as (Hp4 & Hs4 & _ & _);
    [lia | rewrite Hi3; reflexivity |].
  rewrite Hd1, Hm3, Hi3 in Hs4. destruct Hs4 as (_ & Hm4 & Hi4 & _); [simpl; lia |].
  set (w4 := exec (_finish_response r4) w3) in *. simpl in Hm4.
  split; [exact Hi4 |].
  (* third turn of block 1: past the end *)
  destruct (blueprint_commit_step w4 [b0; b1] b1 r5 Hp4) as (_ & _ & _ & Hs5);
    [lia | rewrite Hi4; reflexivity |].
  rewrite Hd1, Hm4, Hi4 in Hs5.
  destruct (Hs5 ltac:(simpl; lia) eq_refl) as (_ & Hi5 & He5).
  split; assumption.
Qed.

(** C4: while a blueprint is active every committed turn increments the
    counter of the block; when the counter reaches the duration of the
    block, the index moves to the next block, which is activated with the
    counter back at zero, and when there is no next block the blueprint is
    announced complete and the session is ended.  With durations 2 and 3
    the runner is in block 1 after two committed turns, still there after
    four, and complete after five. *)
Theorem blueprint_turns_advance_blocks :
  (forall (w : World) (plan : list block) (blk : block) (reply : string),
     experiment_plan w = Some plan ->
     (0 <= current_block_index w)%Z ->
     plan !! Z.to_nat (current_block_index w) = Some blk ->
     let n := (messages_in_current_block w + 1)%Z in
     let duration := default 10%Z (b_duration_messages blk) in
     let w' := exec (_finish_response reply) w in
     experiment_plan w' = Some plan
     /\ (n < duration ->
           fst (_finish_response reply w) = Ok tt
           /\ messages_in_current_block w' = n
           /\ current_block_index w' = current_block_index w
           /\ enabled_features w' = enabled_features w
           /\ feature_settings w' = feature_settings w
           /\ effects w' = effects w ++ [InputEnabled])%Z
     /\ (duration <= n ->
           forall next, plan !! Z.to_nat (current_block_index w + 1) = Some next ->
           current_block_index w' = current_block_index w + 1
           /\ messages_in_current_block w' = 0
           /\ (forall flag,
                 is_enabled w' flag =
                   default false
                     (feature_override (default [] (b_features next)) flag))
           /\ feature_settings w' = default ∅ (b_settings next) ∪ feature_settings w)%Z
     /\ (duration <= n ->
           plan !! Z.to_nat (current_block_index w + 1) = None ->
           fst (_finish_response reply w) = Ok tt
           /\ current_block_index w' = current_block_index w + 1
           /\ effects w' =
                effects w ++
                [SystemMessage "Experiment blueprint complete."; EndChat;
                 InputEnabled])%Z)
  /\ (forall (w : World) (b0 b1 : block) (r1 r2 r3 r4 r5 : string),
        experiment_plan w = Some [b0; b1] ->
        b_duration_messages b0 = Some 2%Z ->
        b_duration_messages b1 = Some 3%Z ->
        current_block_index w = 0%Z ->
        messages_in_current_block w = 0%Z ->
        let w2 := commits [r1; r2] w in
        let w4 := commits [r3; r4] w2 in
        let w5 := commits [r5] w4 in
        (current_block_index w2 = 1%Z
         /\ messages_in_current_block w2 = 0%Z
         /\ forall flag,
              is_enabled w2 flag =
                default false (feature_override (default [] (b_features b1)) flag))
        /\ current_block_index w4 = 1%Z
        /\ (current_block_index w5 = 2%Z
            /\ effects w5 =
                 effects w4 ++
                 [SystemMessage "Experiment blueprint complete."; EndChat;
                  InputEnabled])).
Proof.
  split.
  - exact blueprint_commit_step.
  - exact blueprint_two_blocks.
Qed.

Lemma blueprint_turns_advance_blocks_witness :
  current_block_index (commits ["a"; "b"] w_two_blocks) = 1%Z
  /\ is_enabled (commits ["a"; "b"] w_two_blocks) THINKING = false
  /\ current_block_index
       (commits ["e"] (commits ["c"; "d"] (commits ["a"; "b"] w_two_blocks))) = 2%Z
  /\ current_block_index (exec (_finish_response "a") w_two_blocks) = 0%Z.
Proof.
  destruct blueprint_turns_advance_blocks as [Hstep Hsc].
  assert (Hp : experiment_plan w_two_blocks = Some [block_warm_up; block_main])
    by (vm_compute; reflexivity).
  assert (Hi : current_block_index w_two_blocks = 0%Z) by (vm_compute; reflexivity).
  assert (Hm : messages_in_current_block w_two_blocks = 0%Z)
    by (vm_compute; reflexivity).
  destruct (Hsc w_two_blocks block_warm_up block_main "a" "b" "c" "d" "e"
              Hp eq_refl eq_refl Hi Hm)
    as ((H2 & _ & Hf) & _ & H5 & _).
  destruct (Hstep w_two_blocks two_blocks block_warm_up "a" Hp) as (_ & H1 & _).
  { rewrite Hi. lia. }
  { rewrite Hi. reflexivity. }
  rewrite Hm, Hi in H1. destruct (H1 eq_refl) as (_ & _ & H0 & _).
  split; [exact H2 |]. split; [rewrite Hf; reflexivity |].
  split; [exact H5 | exact H0].
Defined.

(** ** Paired completions *)

Lemma on_ab_response_eq (w : World) (d : gmap string (option string))
    (reply version : string) (now : Q) :
  ab_responses w = Some d ->
  _on_ab_response reply version now w =
    if (ab_responses_ready w + 1 =? 2)%Z
    then _maybe_delay_then proceed_ab now
           (set_ab_responses_ready (fun n => n + 1)%Z
              (set_ab_responses (fun _ => Some (<[version := Some reply]> d)) w))
    else (Ok tt,
          set_ab_responses_ready (fun n => n + 1)%Z
            (set_ab_responses (fun _ => Some (<[version := Some reply]> d)) w)).
Proof.
  intros Hd. unfold _on_ab_response. rewrite bind_gets. cbn [id]. rewrite Hd.
  rewrite !bind_modify, bind_gets. cbn [id]. wproj.
  destruct (ab_responses_ready w + 1 =? 2)%Z; reflexivity.
Qed.

Lemma stop_thinking_eq (w : World) :
  stop_thinking w = (Ok tt, bubble_removed w).
Proof.
  unfold stop_thinking, bubble_removed. unfold_M. cbn [id].
  destruct (_current_thinking_bubble w); reflexivity.
Qed.

Lemma bubble_removed_facts (w : World) :
  _current_thinking_bubble (bubble_removed w) = false
  /\ effects (bubble_removed w)
     = effects w ++ (if _current_thinking_bubble w then [ThinkingRemoved] else [])
  /\ participant (bubble_removed w) = participant w
  /\ ab_responses (bubble_removed w) = ab_responses w
  /\ _must_slow_turn (bubble_removed w) = _must_slow_turn w.
Proof.
  unfold bubble_removed.
  destruct (_current_thinking_bubble w) eqn:Hb; wproj;
    rewrite ?app_nil_r; repeat split; try reflexivity; exact Hb.
Qed.

(** The whole call of the dialog for two texts: the dialog, the answer of
    the participant, and what the method does with it. *)
Lemma show_ab_dialog_eq (w : World) (a b : string) :
  _show_ab_dialog (Some a) (Some b) w
  = ab_dialog_closed a b (participant w 0) (dialog_shown a b w).
Proof. reflexivity. Qed.

Lemma run_proceed_keeps_ready (fn : proceed_fn) :
  keeps (same ab_responses_ready) (run_proceed fn)
  /\ keeps (same _current_thinking_bubble)
       (match fn with
        | proceed_response reply => _display_response reply false
        | proceed_ab =>
            a ← read (fun w => ab_text w "A");
            b ← read (fun w => ab_text w "B");
            _show_ab_dialog a b
        | proceed_scripted_ab reply_a reply_b =>
            _show_ab_dialog (Some reply_a) (Some reply_b)
        end).
Proof.
  split; destruct fn; unfold_methods; keeps_tac.
Qed.

Lemma gate_keeps_ready (fn : proceed_fn) (now : Q) :
  keeps (same ab_responses_ready) (_maybe_delay_then fn now).
Proof.
  destruct (run_proceed_keeps_ready fn) as [K _].
  unfold _maybe_delay_then. keeps_tac; apply K.
Qed.

(** The reveal of a complete pair when nothing delays it: the thinking
    bubble is torn down, the two texts are presented, and the method goes
    on with the answer of the participant. *)
Lemma reveal_pair_now (w : World) (d : gmap string (option string))
    (a b : string) (now : Q) :
  _must_slow_turn w = false ->
  ab_responses w = Some d ->
  d !! "A" = Some (Some a) ->
  d !! "B" = Some (Some b) ->
  _maybe_delay_then proceed_ab now w
  = ab_dialog_closed a b (participant w 0) (dialog_shown a b (bubble_removed w)).
Proof.
  intros Hm Hd Ha Hb.
  rewrite maybe_delay_then_immediate by (left; exact Hm).
  destruct (bubble_removed_facts w) as (_ & _ & Hp & Hr & _).
  unfold run_proceed. rewrite (exec_bind _ _ _ _ _ (stop_thinking_eq w)).
  assert (EA : read (fun w => ab_text w "A") (bubble_removed w)
               = (Ok (Some a), bubble_removed w)).
  { unfold read, ab_text. rewrite Hr, Hd, Ha. reflexivity. }
  assert (EB : read (fun w => ab_text w "B") (bubble_removed w)
               = (Ok (Some b), bubble_removed w)).
  { unfold read, ab_text. rewrite Hr, Hd, Hb. reflexivity. }
  rewrite (exec_bind _ _ _ _ _ EA), (exec_bind _ _ _ _ _ EB).
  rewrite show_ab_dialog_eq, Hp. reflexivity.
Qed.

(** C2: in paired dispatch the reveal (teardown of the thinking bubble and
    presentation of the two texts) happens only when the ready count
    reaches 2.  After exactly one completion the text is stored under its
    side, the other side is as it was, the count is 1, the pair is still
    pending and nothing was revealed or scheduled.  The completion that
    brings the count to 2 hands the reveal to the gate; when the gate does
    not delay it, the bubble is torn down, the dialog is shown with the
    two texts and, in the same call, the method goes on with the answer
    of the participant: with Option B the text of B is committed and the
    pair is dropped. *)
Theorem on_ab_response_reveals_at_two (w : World)
    (d : gmap string (option string)) (reply version : string) (now : Q) :
  ab_responses w = Some d ->
  let stored :=
    set_ab_responses_ready (fun n => n + 1)%Z
      (set_ab_responses (fun _ => Some (<[version := Some reply]> d)) w) in
  let w' := exec (_on_ab_response reply version now) w in
  ab_responses_ready w' = (ab_responses_ready w + 1)%Z
  /\ (ab_responses_ready w = 0%Z ->
        _on_ab_response reply version now w = (Ok tt, stored)
        /\ ab_responses_ready w' = 1%Z
        /\ (exists d',
              ab_responses w' = Some d'
              /\ d' !! version = Some (Some reply)
              /\ forall side, side <> version -> d' !! side = d !! side)
        /\ effects w' = effects w
        /\ _current_thinking_bubble w' = _current_thinking_bubble w)
  /\ (ab_responses_ready w' <> 2%Z ->
        _on_ab_response reply version now w = (Ok tt, stored)
        /\ effects w' = effects w
        /\ _current_thinking_bubble w' = _current_thinking_bubble w)
  /\ (ab_responses_ready w' = 2%Z ->
        _on_ab_response reply version now w = _maybe_delay_then proceed_ab now stored)
  /\ (ab_responses_ready w' = 2%Z ->
        _must_slow_turn w = false ->
        forall a b,
          <[version := Some reply]> d !! "A" = Some (Some a) ->
          <[version := Some reply]> d !! "B" = Some (Some b) ->
          let opened := dialog_shown a b (bubble_removed stored) in
          _on_ab_response reply version now w
          = ab_dialog_closed a b (participant w 0) opened
          /\ effects opened =
               effects w
               ++ (if _current_thinking_bubble w then [ThinkingRemoved] else [])
               ++ [AbDialog a b]
          /\ _current_thinking_bubble w' = false
          /\ (participant w 0 = Chose_B ->
                ab_responses w' = None
                /\ history w' = history w ++ [("assistant", b)]
                /\ count w' = (count w + 1)%Z)).
Proof.
  intros Hd stored w'.
  pose proof (on_ab_response_eq w d reply version now Hd) as E. fold stored in E.
  pose proof (gate_keeps_ready proceed_ab now) as Kr.
  assert (Hready : ab_responses_ready w' = (ab_responses_ready w + 1)%Z).
  { subst w'. rewrite E. destruct (_ =? _)%Z; [rewrite Kr |]; reflexivity. }
  split; [exact Hready |].
  assert (Hpending : ab_responses_ready w' <> 2%Z ->
            _on_ab_response reply version now w = (Ok tt, stored)).
  { intros Hne. rewrite Hready in Hne.
    destruct (Z.eqb_spec (ab_responses_ready w + 1) 2) as [? | _]; [contradiction |].
    exact E. }
  split.
  { intros H0.
    assert (E1 : _on_ab_response reply version now w = (Ok tt, stored))
      by (apply Hpending; rewrite Hready, H0; discriminate).
    split; [exact E1 |]. split; [rewrite Hready, H0; reflexivity |].
    subst w'. rewrite E1. repeat split; try reflexivity.
    exists (<[version := Some reply]> d).
    split; [reflexivity |]. split; [apply lookup_insert_eq |].
    intros side Hside. apply lookup_insert_ne. congruence. }
  split.
  { intros Hne. pose proof (Hpending Hne) as E1.
    subst w'. rewrite E1. repeat split; reflexivity. }
  assert (Htwo : ab_responses_ready w' = 2%Z ->
            _on_ab_response reply version now w = _maybe_delay_then proceed_ab now stored).
  { intros H2. rewrite Hready in H2. rewrite E.
    rewrite (proj2 (Z.eqb_eq _ _) H2). reflexivity. }
  split; [exact Htwo |].
  intros H2 Hm a b Ha Hb opened.
  assert (Eo : _on_ab_response reply version now w
               = ab_dialog_closed a b (participant w 0) opened).
  { rewrite (Htwo H2).
    apply (reveal_pair_now stored (<[version := Some reply]> d) a b now Hm eq_refl Ha Hb). }
  split; [exact Eo |].
  destruct (bubble_removed_facts stored) as (Hb0 & He0 & _).
  split.
  { unfold opened, dialog_shown. wproj. rewrite He0, <- app_assoc. reflexivity. }
  split.
  { subst w'. rewrite Eo.
    assert (K : keeps (same _current_thinking_bubble)
                  (ab_dialog_closed a b (participant w 0)))
      by (unfold_methods; keeps_tac).
    rewrite K. exact Hb0. }
  intros Hc. subst w'. rewrite Eo, Hc. unfold ab_dialog_closed.
  rewrite bind_modify, bind_emit, bind_emit.
  match goal with |- context [_finish_response b ?x] =>
    destruct (finish_response_records b x) as (Hh & Hn & _ & Ha' & _) end.
  cbv zeta in Hh, Hn, Ha'. rewrite Hh, Hn, Ha'.
  unfold opened, dialog_shown, bubble_removed, stored. wproj.
  destruct (_current_thinking_bubble w); wproj; repeat split; reflexivity.
Qed.

Lemma on_ab_response_reveals_at_two_witness :
  effects (exec (_on_ab_response "first" "B" 2) w_pair) = effects w_pair
  /\ ab_responses_ready (exec (_on_ab_response "first" "B" 2) w_pair) = 1%Z.
Proof.
  assert (Hd : ab_responses w_pair = Some no_text_yet) by (vm_compute; reflexivity).
  assert (H0 : ab_responses_ready w_pair = 0%Z) by (vm_compute; reflexivity).
  destruct (on_ab_response_reveals_at_two w_pair no_text_yet "first" "B" 2 Hd)
    as (_ & Hone & _).
  destruct (Hone H0) as (_ & H1 & _ & He & _).
  split; [exact He | exact H1].
Defined.

(** ** The script cursor *)

#[global] Instance script_same_preorder : PreOrder script_same.
Proof.
  split.
  - intros w. split; reflexivity.
  - intros w1 w2 w3 [H1 H2] [H3 H4]. split; congruence.
Qed.

Lemma cached_script_same (w : World) : script_same w (cached w).
Proof.
  split; [reflexivity |]. unfold cached, current_script. reflexivity.
Qed.

Lemma get_scripted_convo_eq (w : World) :
  get_scripted_convo w = (Ok (current_script w), cached w).
Proof.
  unfold get_scripted_convo, cached, current_script. unfold_M.
  destruct w as [ef fs cache sf ep cbi mcb h c amc bl rem mst edt sst tb ti
                 ctb csb att abr abrr lac si cfs eff].
  destruct cache as [script |]; reflexivity.
Qed.

Lemma get_scripted_convo_keeps : keeps script_same get_scripted_convo.
Proof. intros w. rewrite get_scripted_convo_eq. apply cached_script_same. Qed.

#[global] Hint Resolve get_scripted_convo_keeps : keeps.

Lemma prepare_turn_slowdown_keeps_script (sent_ts : Q) :
  keeps script_same (_prepare_turn_slowdown sent_ts).
Proof. unfold _prepare_turn_slowdown. keeps_tac. Qed.

Lemma live_dispatch_keeps_script (txt : string) :
  keeps script_same (live_dispatch txt).
Proof. unfold live_dispatch, think_once, _start_thinking. keeps_tac. Qed.

Lemma finish_response_keeps_script (reply : string) :
  keeps script_same (_finish_response reply).
Proof.
  unfold _finish_response, finish_in_standard, block_or_enable_input,
    survey_trigger, finish_in_blueprint, _start_block, _start_next_block,
    _apply_block_config, _setup_erase_history_timer, _apply_text_size,
    _check_auto_end_conditions, _auto_end_chat, _end_chat.
  keeps_tac.
Qed.

#[global] Hint Resolve prepare_turn_slowdown_keeps_script
  live_dispatch_keeps_script finish_response_keeps_script : keeps.

Lemma run_proceed_keeps_script (fn : proceed_fn) : keeps script_same (run_proceed fn).
Proof.
  unfold run_proceed, stop_thinking, _show_ab_dialog, ab_dialog_closed,
    _display_response.
  destruct fn; keeps_tac.
Qed.

#[global] Hint Resolve run_proceed_keeps_script : keeps.

Lemma maybe_delay_then_keeps_script (fn : proceed_fn) (now : Q) :
  keeps script_same (_maybe_delay_then fn now).
Proof. unfold _maybe_delay_then. keeps_tac. Qed.

#[global] Hint Resolve maybe_delay_then_keeps_script : keeps.

Lemma play_step_keeps_script (current_step : step) (now : Q) :
  keeps script_same (play_step current_step now).
Proof.
  unfold play_step, _handle_scripted_ab_turn, _start_thinking. keeps_tac.
Qed.

#[global] Hint Resolve play_step_keeps_script : keeps.

(** Every delivery but a sent turn leaves the script and the cursor. *)
Lemma handle_keeps_script (i : input) :
  is_send i = false -> keeps script_same (handle i).
Proof.
  destruct i; try discriminate; intros _;
    unfold handle, fire, _on_response, _on_ab_response, _type_step,
      _initialize_blueprint_mode, _start_next_block, _apply_block_config,
      _setup_erase_history_timer, _apply_text_size, _end_chat;
    keeps_tac.
Qed.

Lemma scripted_turn_off (w : World) (now : Q) :
  is_enabled w SCRIPTED_RESPONSES = false -> scripted_turn now w = (Ok false, w).
Proof.
  intros H. unfold scripted_turn. rewrite bind_gets. cbn [id]. rewrite H. reflexivity.
Qed.

Lemma scripted_turn_exhausted (w : World) (now : Q) :
  is_enabled w SCRIPTED_RESPONSES = true ->
  current_script w !! script_index w = None ->
  scripted_turn now w = (Ok false, cached w).
Proof.
  intros H Hnone. unfold scripted_turn. rewrite bind_gets. cbn [id]. rewrite H.
  rewrite (exec_bind _ _ _ _ _ (get_scripted_convo_eq w)).
  rewrite bind_gets. cbn [id].
  change (script_index (cached w)) with (script_index w).
  rewrite Hnone. reflexivity.
Qed.

Lemma scripted_turn_step (w : World) (now : Q) (current_step : step) :
  is_enabled w SCRIPTED_RESPONSES = true ->
  current_script w !! script_index w = Some current_step ->
  scripted_turn now w =
    play_step current_step now (set_script_index (fun i => i + 1) (cached w)).
Proof.
  intros H Hsome. unfold scripted_turn. rewrite bind_gets. cbn [id]. rewrite H.
  rewrite (exec_bind _ _ _ _ _ (get_scripted_convo_eq w)).
  rewrite bind_gets. cbn [id].
  change (script_index (cached w)) with (script_index w).
  rewrite Hsome. rewrite bind_modify. reflexivity.
Qed.

(** What the scripted part of a turn does to the script and the cursor:
    the script stays, and the cursor stays or, when it was inside the
    script and scripted mode is on, advances by one. *)
Lemma scripted_turn_cursor (w : World) (now : Q) :
  let w' := exec (scripted_turn now) w in
  current_script w' = current_script w
  /\ (script_index w' = script_index w
      \/ (script_index w' = script_index w + 1
          /\ script_index w < length (current_script w)
          /\ is_enabled w SCRIPTED_RESPONSES = true)).
Proof.
  cbv zeta.
  destruct (is_enabled w SCRIPTED_RESPONSES) eqn:Hon.
  - destruct (current_script w !! script_index w) as [current_step |] eqn:Hs.
    + rewrite (scripted_turn_step w now current_step Hon Hs).
      destruct (play_step_keeps_script current_step now
                  (set_script_index (fun i => i + 1) (cached w))) as [Hi Hc].
      rewrite Hi, Hc. split; [reflexivity |]. right.
      split; [reflexivity |]. split; [| reflexivity].
      apply lookup_lt_Some in Hs. exact Hs.
    + rewrite (scripted_turn_exhausted w now Hon Hs).
      split; [reflexivity | left; reflexivity].
  - rewrite (scripted_turn_off w now Hon). split; [reflexivity | left; reflexivity].
Qed.

Lemma send_after_delay_cursor (w : World) (txt : string) (sent_ts now : Q) :
  let w' := exec (_send_after_delay txt sent_ts now) w in
  current_script w' = current_script w
  /\ (script_index w' = script_index w
      \/ (script_index w' = script_index w + 1
          /\ script_index w < length (current_script w))).
Proof.
  cbv zeta. unfold _send_after_delay.
  destruct (prepare_turn_slowdown_keeps_script sent_ts w) as [Hi1 Hc1].
  destruct (_prepare_turn_slowdown sent_ts w) as [[[] | e] w1] eqn:E1; cbn [snd] in *.
  2: { rewrite (exec_bind_raise _ _ _ _ _ E1). cbn [snd].
       split; [exact Hc1 | left; exact Hi1]. }
  rewrite (exec_bind _ _ _ _ _ E1).
  destruct (scripted_turn_cursor w1 now) as [Hc2 Hi2]. cbv zeta in Hi2.
  destruct (scripted_turn now w1) as [[answered | e] w2] eqn:E2; cbn [snd] in *.
  2: { rewrite (exec_bind_raise _ _ _ _ _ E2). cbn [snd].
       split; [congruence |].
       destruct Hi2 as [Hi2 | (Hi2 & Hlt & _)]; [left | right; split]; congruence. }
  rewrite (exec_bind _ _ _ _ _ E2).
  assert (K : script_same w2
                (snd ((if answered then skip else live_dispatch txt) w2))).
  { destruct answered; [split; reflexivity | apply live_dispatch_keeps_script]. }
  destruct K as [Hi3 Hc3]. rewrite Hi3, Hc3.
  split; [congruence |].
  destruct Hi2 as [Hi2 | (Hi2 & Hlt & _)]; [left | right; split]; congruence.
Qed.

(** Once the cursor is past the end, a sent turn finds no script step and
    falls through to live dispatch. *)
Lemma send_after_delay_exhausted (w : World) (txt : string) (sent_ts now : Q) :
  length (current_script w) <= script_index w ->
  _send_after_delay txt sent_ts now w = fall_through txt sent_ts w.
Proof.
  intros Hlen. unfold _send_after_delay, fall_through.
  destruct (prepare_turn_slowdown_keeps_script sent_ts w) as [Hi1 Hc1].
  destruct (_prepare_turn_slowdown sent_ts w) as [[[] | e] w1] eqn:E1; cbn [snd] in *.
  2: { rewrite !(exec_bind_raise _ _ _ _ _ E1). reflexivity. }
  rewrite !(exec_bind _ _ _ _ _ E1). rewrite bind_gets. cbn [id].
  assert (Hnone : current_script w1 !! script_index w1 = None).
  { apply lookup_ge_None. rewrite Hi1, Hc1. exact Hlen. }
  destruct (is_enabled w1 SCRIPTED_RESPONSES) eqn:Hon.
  - rewrite (exec_bind _ _ _ _ _ (scripted_turn_exhausted w1 now Hon Hnone)).
    unfold mbind at 1 2. unfold M_bind at 1 2.
    rewrite get_scripted_convo_eq. reflexivity.
  - rewrite (exec_bind _ _ _ _ _ (scripted_turn_off w1 now Hon)). reflexivity.
Qed.

Lemma run_snoc (inputs : list input) (i : input) (w : World) :
  run (inputs ++ [i]) w = exec (handle i) (run inputs w).
Proof. unfold run. rewrite foldl_app. reflexivity. Qed.

Lemma sends_snoc (inputs : list input) (i : input) :
  sends (inputs ++ [i]) = sends inputs + (if is_send i then 1 else 0).
Proof.
  unfold sends. rewrite List.filter_app, length_app. simpl.
  destruct (is_send i); reflexivity.
Qed.

Lemma run_cursor (inputs : list input) (w : World) :
  let w' := run inputs w in
  current_script w' = current_script w
  /\ script_index w <= script_index w'
  /\ script_index w' <= script_index w + sends inputs
  /\ (script_index w <= length (current_script w) ->
      script_index w' <= length (current_script w))
  /\ (length (current_script w) <= script_index w ->
      script_index w' = script_index w).
Proof.
  cbv zeta. induction inputs as [| i inputs IH] using rev_ind.
  - unfold run, sends. simpl. repeat split; intros; lia || reflexivity.
  - rewrite run_snoc, sends_snoc.
    destruct IH as (Hc & Hlo & Hhi & Hin & Hex).
    set (w1 := run inputs w) in *.
    destruct i as [txt sent_ts now | | | | |].
    1: { destruct (send_after_delay_cursor w1 txt sent_ts now) as [Hc' Hi'].
         cbv zeta in Hi'. unfold handle. simpl is_send. rewrite Hc', Hc.
         split; [reflexivity |].
         destruct Hi' as [Hi' | [Hi' Hlt]]; rewrite Hi'; rewrite Hc in *;
           repeat split; intros; lia. }
    all: match goal with
         | |- context [handle ?i] =>
             destruct (handle_keeps_script i eq_refl w1) as [Hi' Hc']
         end;
         rewrite Hi', Hc', Hc; simpl is_send;
         repeat split; intros; try reflexivity; try lia; auto.
Qed.

(** C5: over any sequence of deliveries the script stays the same and the
    cursor never decreases, never passes the length of the script and
    advances by at most one per sent turn; once it is past the end it
    stays where it is, and every later sent turn finds no script step and
    falls through to live dispatch. *)
Theorem script_cursor_monotone (w : World) (inputs : list input) :
  script_index w <= length (current_script w) ->
  let w' := run inputs w in
  current_script w' = current_script w
  /\ script_index w <= script_index w'
  /\ script_index w' <= length (current_script w')
  /\ script_index w' <= script_index w + sends inputs
  /\ (length (current_script w') <= script_index w' ->
      forall (later : list input) (txt : string) (sent_ts now : Q),
        let w'' := run later w' in
        script_index w'' = script_index w'
        /\ _send_after_delay txt sent_ts now w'' = fall_through txt sent_ts w''
        /\ script_index (exec (_send_after_delay txt sent_ts now) w'')
           = script_index w').
Proof.
  intros Hin w'.
  destruct (run_cursor inputs w) as (Hc & Hlo & Hhi & Hle & _). fold w' in Hc, Hlo, Hhi, Hle.
  split; [exact Hc |]. split; [exact Hlo |].
  split; [rewrite Hc; apply Hle, Hin |]. split; [exact Hhi |].
  intros Hex later txt sent_ts now w''.
  destruct (run_cursor later w') as (Hc' & _ & _ & _ & Hst). fold w'' in Hc', Hst.
  specialize (Hst Hex).
  assert (Hex' : length (current_script w'') <= script_index w'') by (rewrite Hc', Hst; exact Hex).
  split; [exact Hst |]. split; [apply send_after_delay_exhausted, Hex' |].
  destruct (send_after_delay_cursor w'' txt sent_ts now) as [_ [Hi | [_ Hlt]]]; lia.
Qed.

Lemma script_cursor_monotone_witness :
  script_index (run [Send "one" 1 1; Send "two" 2 2; Response "r" 3; Send "three" 4 4] w_script)
    <= length (current_script w_script).
Proof.
  assert (Hin : script_index w_script <= length (current_script w_script))
    by (vm_compute; lia).
  destruct (script_cursor_monotone w_script
              [Send "one" 1 1; Send "two" 2 2; Response "r" 3; Send "three" 4 4] Hin)
    as (Hc & _ & Hle & _).
  rewrite Hc in Hle. exact Hle.
Defined.

(** ** Steps of an unknown type *)

#[global] Instance effects_grow_preorder (P : effect -> Prop) : PreOrder (effects_grow P).
Proof.
  split.
  - intros w. exists []. split; [symmetry; apply app_nil_r | constructor].
  - intros w1 w2 w3 (n1 & E1 & F1) (n2 & E2 & F2). exists (n1 ++ n2).
    split; [rewrite E2, E1, app_assoc; reflexivity | apply Forall_app; split; assumption].
Qed.

Lemma effects_grow_same (P : effect -> Prop) (w w' : World) :
  effects w' = effects w -> effects_grow P w w'.
Proof. intros E. exists []. rewrite E, app_nil_r. split; [reflexivity | constructor]. Qed.

Lemma effects_grow_emit (P : effect -> Prop) (e : effect) (w : World) :
  P e -> effects_grow P w (set_effects (fun l => l ++ [e]) w).
Proof. intros H. exists [e]. split; [reflexivity | repeat constructor; exact H]. Qed.

Lemma live_dispatch_effects (txt : string) :
  keeps (effects_grow live_effect) (live_dispatch txt).
Proof.
  unfold live_dispatch, think_once, _start_thinking. keeps_tac;
    first [ apply effects_grow_same; reflexivity
          | apply effects_grow_emit; unfold live_effect; eauto ].
Qed.

Lemma play_step_unknown (current_step : step) (step_type : string) (now : Q)
    (w : World) :
  current_step !! "type" = Some step_type ->
  step_type <> "normal" ->
  step_type <> "ab_test" ->
  play_step current_step now w = (Ok false, w).
Proof.
  intros Ht Hn Ha. unfold play_step. rewrite Ht. cbn [default from_option id].
  apply String.eqb_neq in Hn, Ha. rewrite Hn, Ha. reflexivity.
Qed.

Lemma prepare_turn_slowdown_returns (w : World) (sent_ts : Q) :
  slowdown_settings_numeric w = true ->
  exists (must : bool) (earliest : option Q),
    _prepare_turn_slowdown sent_ts w =
      (Ok tt,
       set_earliest_display_ts (fun _ => earliest)
         (set_must_slow_turn (fun _ => must) w)).
Proof.
  intros Hnum.
  destruct (slowdown_settings_numeric_split w Hnum) as (Hp & Hs & Ht & Hm).
  destruct (slowdown_permanent_active_returns w sent_ts Ht) as [perm Hperm].
  destruct (in_slow_window_returns w sent_ts Hp Hs) as [cyc Hcyc].
  destruct (numeric_py_float _ _ 4 Hm) as [d Hd].
  rewrite (prepare_turn_slowdown_eq w sent_ts perm cyc d Hperm Hcyc Hd). eauto.
Qed.

(** Live dispatch returns and starts a worker thread, unless the A/B
    threshold it divides by is zero. *)
Lemma live_dispatch_starts_thread (w : World) (txt : string) :
  is_enabled w AB_TESTING = false \/ ab_test_threshold w <> 0%Z ->
  fst (live_dispatch txt w) = Ok tt
  /\ exists t new,
       effects (exec (live_dispatch txt) w) = effects w ++ new
       /\ In (ThreadStarted t) new.
Proof.
  intros H. unfold live_dispatch, think_once, _start_thinking, py_mod.
  rewrite bind_gets. cbn [id].
  assert (Hturn : exists is_ab_turn : bool,
    (if is_enabled w AB_TESTING
     then r ← read (fun w0 =>
                 if (ab_test_threshold w0 =? 0)%Z then Raise ZeroDivisionError
                 else Ok ((count w0 + 1) `mod` ab_test_threshold w0)%Z);
          mret (r =? 0)%Z
     else mret false) w = (Ok is_ab_turn, w)).
  { destruct (is_enabled w AB_TESTING) eqn:Hab; [| eexists; reflexivity].
    destruct H as [H | H]; [discriminate |]. apply Z.eqb_neq in H.
    unfold_M. rewrite H. eexists. reflexivity. }
  destruct Hturn as [is_ab_turn Hturn].
  rewrite (exec_bind _ _ _ _ _ Hturn).
  destruct is_ab_turn, (is_enabled w AB_UI_ALT), (is_enabled w AB_UI_TEST);
    cbn [andb]; unfold_M; cbn [id];
    destruct (is_enabled w THINKING), (_current_thinking_bubble w);
    cbn [andb negb]; wproj;
    (split; [reflexivity |]);
    rewrite <- ?app_assoc; eexists _, _; (split; [reflexivity |]);
    simpl; eauto 6.
Qed.

(** C10: in scripted mode, a turn whose step under the cursor has a type
    that is neither "normal" nor "ab_test" still advances the cursor past
    that step, and the turn is handled by live dispatch from there: no
    scripted reply, placeholder or dialog is produced, only the thinking
    bubble and the worker threads of live dispatch. *)
Theorem unknown_step_type_goes_live (w : World) (txt : string) (sent_ts now : Q)
    (current_step : step) (step_type : string) :
  is_enabled w SCRIPTED_RESPONSES = true ->
  slowdown_settings_numeric w = true ->
  current_script w !! script_index w = Some current_step ->
  current_step !! "type" = Some step_type ->
  step_type <> "normal" ->
  step_type <> "ab_test" ->
  let w1 := exec (_prepare_turn_slowdown sent_ts) w in
  let w' := exec (_send_after_delay txt sent_ts now) w in
  _send_after_delay txt sent_ts now w =
    live_dispatch txt (set_script_index (fun i => i + 1) (cached w1))
  /\ script_index w' = script_index w + 1
  /\ (exists new, effects w' = effects w ++ new /\ Forall live_effect new)
  /\ (is_enabled w AB_TESTING = false \/ ab_test_threshold w <> 0%Z ->
      fst (_send_after_delay txt sent_ts now w) = Ok tt
      /\ exists t, In (ThreadStarted t) (effects w')).
Proof.
  intros Hon Hnum Hstep Htype Hn Ha w1 w'.
  destruct (prepare_turn_slowdown_returns w sent_ts Hnum) as (must & earliest & E1).
  assert (Ew1 : w1 = set_earliest_display_ts (fun _ => earliest)
                       (set_must_slow_turn (fun _ => must) w))
    by (subst w1; rewrite E1; reflexivity).
  assert (E2 : scripted_turn now w1 =
                 (Ok false, set_script_index (fun i => i + 1) (cached w1))).
  { rewrite (scripted_turn_step w1 now current_step).
    - apply (play_step_unknown current_step step_type); assumption.
    - rewrite Ew1. exact Hon.
    - rewrite Ew1. exact Hstep. }
  assert (E : _send_after_delay txt sent_ts now w =
                live_dispatch txt (set_script_index (fun i => i + 1) (cached w1))).
  { unfold _send_after_delay.
    rewrite (exec_bind _ _ w w1 tt) by (rewrite E1, Ew1; reflexivity).
    rewrite (exec_bind _ _ _ _ _ E2). reflexivity. }
  set (w2 := set_script_index (fun i => i + 1) (cached w1)) in *.
  split; [exact E |].
  split.
  { subst w'. rewrite E.
    destruct (live_dispatch_keeps_script txt w2) as [Hi _]. rewrite Hi.
    subst w2. rewrite Ew1. reflexivity. }
  split.
  { subst w'. rewrite E.
    destruct (live_dispatch_effects txt w2) as (new & Enew & Hlive).
    exists new. split; [| exact Hlive]. rewrite Enew. subst w2. rewrite Ew1. reflexivity. }
  intros Hab. subst w'. rewrite E.
  destruct (live_dispatch_starts_thread w2 txt) as (Hok & t & new & Enew & Hin).
  { subst w2. rewrite Ew1. exact Hab. }
  split; [exact Hok |]. exists t. rewrite Enew. apply in_or_app. right. exact Hin.
Qed.

Lemma unknown_step_type_goes_live_witness :
  script_index (exec (_send_after_delay "two" 2 2) w_script_second) = 2
  /\ exists t,
       In (ThreadStarted t) (effects (exec (_send_after_delay "two" 2 2) w_script_second)).
Proof.
  assert (Hon : is_enabled w_script_second SCRIPTED_RESPONSES = true)
    by (vm_compute; reflexivity).
  assert (Hnum : slowdown_settings_numeric w_script_second = true)
    by (vm_compute; reflexivity).
  assert (Hstep : current_script w_script_second !! script_index w_script_second
                  = Some step_pause) by (vm_compute; reflexivity).
  assert (Htype : step_pause !! "type" = Some "pause") by (vm_compute; reflexivity).
  assert (Hidx : script_index w_script_second = 1) by (vm_compute; reflexivity).
  destruct (unknown_step_type_goes_live w_script_second "two" 2 2 step_pause "pause"
              Hon Hnum Hstep Htype ltac:(discriminate) ltac:(discriminate))
    as (_ & Hi & _ & Hthread).
  rewrite Hidx in Hi. split; [exact Hi |].
  apply Hthread. left. vm_compute. reflexivity.
Defined.

(** * Further properties *)

(** ** Requests to the model *)

Lemma system_prompt_variations_In (d : gmap FeatureFlag bool) (p : string) :
  In p (system_prompt_variations d) <->
  exists flag, In (flag, p) FLAG_PROMPTS /\ d !! flag = Some true.
Proof.
  unfold system_prompt_variations. rewrite <- list_elem_of_In, list_elem_of_fmap.
  split.
  - intros ([flag q] & -> & Hin). apply list_elem_of_In, filter_In in Hin as [Hin Hon].
    exists flag. split; [exact Hin |]. simpl in Hon.
    destruct (d !! flag) as [[] |]; try discriminate. reflexivity.
  - intros (flag & Hin & Hon). exists (flag, p). split; [reflexivity |].
    apply list_elem_of_In, filter_In. split; [exact Hin |]. simpl. rewrite Hon. reflexivity.
Qed.

Lemma prompt_tail_eq (history : list (string * string)) (prompt : string) :
  (if match last history with
      | None => true
      | Some m => negb (String.eqb m.2 prompt) || negb (String.eqb m.1 "user")
      end
   then [("user", prompt)] else []) = prompt_unless_last history prompt.
Proof.
  unfold prompt_unless_last. case_bool_decide as H.
  - rewrite H. cbn [fst snd]. rewrite !String.eqb_refl. reflexivity.
  - destruct (last history) as [[role content] |]; [| reflexivity].
    cbn [fst snd].
    destruct (String.eqb_spec content prompt) as [-> | Hc]; [| reflexivity].
    destruct (String.eqb_spec role "user") as [-> | Hr]; [| reflexivity].
    destruct H. reflexivity.
Qed.

(** The shape of every request. *)
Lemma build_messages_eq (w : World) (history : list (string * string))
    (prompt : string) (use_features : bool)
    (custom_features : option (gmap FeatureFlag bool)) :
  let d := flags_source w use_features custom_features in
  build_messages w history prompt use_features custom_features =
    match system_prompt_variations d with
    | [] => []
    | _ :: _ => [("system", String.concat (LF +:+ LF) (system_prompt_variations d))]
    end
    ++ (if default false (d !! NO_MEMORY) then [] else history)
    ++ prompt_unless_last history prompt.
Proof.
  cbv zeta. rewrite <- prompt_tail_eq. unfold build_messages, flags_source.
  set (d := match custom_features with Some d => d | None => _ end).
  cbv zeta.
  destruct (system_prompt_variations d) as [| p l];
    destruct (default false (d !! NO_MEMORY)); simpl;
    destruct (match last history with None => true | Some m => _ end);
    rewrite ?app_nil_r; reflexivity.
Qed.

Lemma prompt_unless_last_last (history : list (string * string)) (prompt : string) :
  last (history ++ prompt_unless_last history prompt) = Some ("user", prompt).
Proof.
  unfold prompt_unless_last. case_bool_decide as H.
  - rewrite app_nil_r. exact H.
  - apply last_snoc.
Qed.

Lemma last_app_r {A} (l1 l2 : list A) (x : A) :
  last l2 = Some x -> last (l1 ++ l2) = Some x.
Proof.
  intros H. destruct l2 as [| y l2] using rev_ind; [discriminate H |].
  rewrite app_assoc, last_snoc. rewrite last_snoc in H. exact H.
Qed.

(** X1: when the flags a request is built from do not turn the memory off,
    the request is the system message (when some prompt applies), then the
    whole history, then the prompt unless the history already ends with it
    as a user message; so its last message is always the user prompt, and
    the prompt is not repeated. *)
Theorem build_messages_with_memory (w : World) (history : list (string * string))
    (prompt : string) (use_features : bool)
    (custom_features : option (gmap FeatureFlag bool)) :
  default false (flags_source w use_features custom_features !! NO_MEMORY) = false ->
  let messages := build_messages w history prompt use_features custom_features in
  (exists sys,
     length sys <= 1
     /\ Forall (fun m => m.1 = "system") sys
     /\ messages = sys ++ history ++ prompt_unless_last history prompt)
  /\ last messages = Some ("user", prompt)
  /\ (last history = Some ("user", prompt) ->
      exists sys, messages = sys ++ history).
Proof.
  intros Hmem messages. subst messages. rewrite build_messages_eq. cbv zeta.
  rewrite Hmem.
  set (sys := match system_prompt_variations _ with [] => [] | _ :: _ => _ end).
  split; [| split].
  - exists sys. split; [| split; [| reflexivity]].
    + subst sys. destruct (system_prompt_variations _); simpl; lia.
    + subst sys. destruct (system_prompt_variations _); repeat constructor.
  - apply last_app_r, prompt_unless_last_last.
  - intros Hlast. exists sys. unfold prompt_unless_last.
    rewrite bool_decide_eq_true_2 by exact Hlast. rewrite app_nil_r. reflexivity.
Qed.

Lemma build_messages_with_memory_witness :
  last (build_messages w_kind (history w_kind) "Why is the sky blue?" true None)
    = Some ("user", "Why is the sky blue?")
  /\ exists sys,
       build_messages w_kind (history w_kind) "Why is the sky blue?" true None
       = sys ++ history w_kind.
Proof.
  destruct (build_messages_with_memory w_kind (history w_kind)
              "Why is the sky blue?" true None eq_refl) as (_ & Hlast & Hsame).
  split; [exact Hlast | apply Hsame; reflexivity].
Defined.

(** X2: when the flags a request is built from turn the memory off, no
    message of the history is sent: the request is the system message
    (when some prompt applies) and then the prompt, and not even the prompt
    when the history ends with it as a user message, which is how
    [send_message] leaves the history; the request then has no user message
    at all. *)
Theorem build_messages_no_memory (w : World) (history : list (string * string))
    (prompt : string) (use_features : bool)
    (custom_features : option (gmap FeatureFlag bool)) :
  default false (flags_source w use_features custom_features !! NO_MEMORY) = true ->
  let messages := build_messages w history prompt use_features custom_features in
  (exists sys,
     length sys <= 1
     /\ Forall (fun m => m.1 = "system") sys
     /\ messages = sys ++ prompt_unless_last history prompt)
  /\ (last history = Some ("user", prompt) ->
      of_role "user" messages = [] /\ of_role "assistant" messages = [])
  /\ (last history <> Some ("user", prompt) ->
      of_role "user" messages = [("user", prompt)]).
Proof.
  intros Hmem messages. subst messages. rewrite build_messages_eq. cbv zeta.
  rewrite Hmem. cbn [app].
  set (sys := match system_prompt_variations _ with [] => [] | _ :: _ => _ end).
  assert (Hsys : of_role "user" sys = [] /\ of_role "assistant" sys = []).
  { subst sys. destruct (system_prompt_variations _); split; reflexivity. }
  destruct Hsys as [Hu Ha].
  split; [| split].
  - exists sys. split; [| split; [| reflexivity]].
    + subst sys. destruct (system_prompt_variations _); simpl; lia.
    + subst sys. destruct (system_prompt_variations _); repeat constructor.
  - intros Hlast. unfold prompt_unless_last.
    rewrite bool_decide_eq_true_2 by exact Hlast. rewrite app_nil_r.
    split; assumption.
  - intros Hlast. unfold prompt_unless_last.
    rewrite bool_decide_eq_false_2 by exact Hlast.
    unfold of_role in *. rewrite List.filter_app, Hu. reflexivity.
Qed.

Lemma build_messages_no_memory_witness :
  of_role "user"
    (build_messages w_kind_no_memory (history w_kind_no_memory)
       "Why is the sky blue?" true None) = []
  /\ of_role "user"
       (build_messages w_kind_no_memory [] "Why is the sky blue?" true None)
     = [("user", "Why is the sky blue?")].
Proof.
  destruct (build_messages_no_memory w_kind_no_memory (history w_kind_no_memory)
              "Why is the sky blue?" true None eq_refl) as (_ & Hnone & _).
  destruct (build_messages_no_memory w_kind_no_memory []
              "Why is the sky blue?" true None eq_refl) as (_ & _ & Hone).
  split; [apply Hnone; reflexivity | apply Hone; discriminate].
Defined.

Lemma all_false_lookup (flag : FeatureFlag) :
  foldl (fun d f => <[f := false]> d) (∅ : gmap FeatureFlag bool) all_flags !! flag
  = Some false.
Proof. apply reset_flags_lookup, all_flags_complete. Qed.

Lemma system_prompt_variations_nil (d : gmap FeatureFlag bool) :
  (forall flag p, In (flag, p) FLAG_PROMPTS -> d !! flag <> Some true) ->
  system_prompt_variations d = [].
Proof.
  intros H. destruct (system_prompt_variations d) as [| p l] eqn:E; [reflexivity |].
  assert (Hin : In p (system_prompt_variations d)) by (rewrite E; left; reflexivity).
  apply system_prompt_variations_In in Hin as (flag & Hin & Hon).
  destruct (H flag p Hin Hon).
Qed.

(** X3: with the features off and no feature set of its own,
    [build_messages] returns no system message and the whole history,
    whatever flags are enabled; with an empty history it returns the
    prompt alone.  The request a worker thread then sends, when it was not
    made to search the web, is that behind the line with the date, which
    is its only system message: for the rephrasing thread of the A/B
    alternative workflow, made with an empty history, the request is the
    date line and the prompt. *)
Theorem build_messages_features_off (w : World) (history : list (string * string))
    (prompt today : string) (found : option string) :
  build_messages w history prompt false None
    = history ++ prompt_unless_last history prompt
  /\ build_messages w [] prompt false None = [("user", prompt)]
  /\ chat_thread_messages w history prompt false None false today found
     = ("system", "Current date: " +:+ today)
       :: history ++ prompt_unless_last history prompt
  /\ chat_thread_messages w [] prompt false None false today found
     = [("system", "Current date: " +:+ today); ("user", prompt)].
Proof.
  assert (E : forall h, build_messages w h prompt false None
                        = h ++ prompt_unless_last h prompt).
  { intros h. rewrite build_messages_eq. cbv zeta. unfold flags_source.
    rewrite system_prompt_variations_nil.
    - rewrite all_false_lookup. reflexivity.
    - intros flag p _. rewrite all_false_lookup. discriminate. }
  split; [apply E |]. split; [rewrite E; reflexivity |].
  unfold chat_thread_messages. cbn [andb]. rewrite !E. split; reflexivity.
Qed.

(** ** Flags without a prompt *)



(** X5: the plain feature set keeps the memory and the slow-down flags as
    they are enabled and has every other flag off, so no system prompt
    comes from it; it raises only when one of the two flags has no entry. *)
Theorem get_plain_features_no_prompt (w : World) :
  match get_plain_features w with
  | Ok plain =>
      plain !! NO_MEMORY = enabled_features w !! NO_MEMORY
      /\ plain !! SLOWDOWN = enabled_features w !! SLOWDOWN
      /\ (forall flag, flag <> NO_MEMORY -> flag <> SLOWDOWN ->
            plain !! flag = Some false)
      /\ system_prompt_variations plain = []
  | Raise e =>
      e = KeyError
      /\ (enabled_features w !! NO_MEMORY = None
          \/ enabled_features w !! SLOWDOWN = None)
  end.
Proof.
  unfold get_plain_features.
  destruct (enabled_features w !! NO_MEMORY) as [m |] eqn:Hm; [| auto].
  destruct (enabled_features w !! SLOWDOWN) as [s |] eqn:Hs; [| auto].
  cbv zeta.
  assert (Hother : forall flag, flag <> NO_MEMORY -> flag <> SLOWDOWN ->
            <[SLOWDOWN := s]> (<[NO_MEMORY := m]>
              (foldl (fun d f => <[f := false]> d) (∅ : gmap FeatureFlag bool) all_flags))
            !! flag = Some false).
  { intros flag H1 H2. rewrite !lookup_insert_ne by congruence.
    apply all_false_lookup. }
  split; [rewrite lookup_insert_ne by discriminate; apply lookup_insert_eq |].
  split; [apply lookup_insert_eq |].
  split; [exact Hother |].
  apply system_prompt_variations_nil. intros flag p Hin.
  rewrite Hother; [discriminate | |];
    intros ->; vm_compute in Hin; intuition discriminate.
Qed.

(** ** Option B of a content A/B turn *)

Lemma set_content_feature_lookup (d : gmap FeatureFlag bool) (flag f : FeatureFlag) :
  set_content_feature d flag !! f =
    if bool_decide (f = flag) then Some true
    else if bool_decide (f ∈ excluded_by flag) then Some false
    else d !! f.
Proof.
  destruct flag; unfold set_content_feature, excluded_by; cbn [foldl];
    rewrite ?bool_decide_eq_true_2 by discriminate;
    rewrite ?bool_decide_eq_false_2 by (intros H; apply H; reflexivity).
  all: repeat case_bool_decide; subst;
    repeat match goal with
    | H : _ ∈ [] |- _ => destruct (proj1 (elem_of_nil _) H)
    | H : _ ∈ _ :: _ |- _ => apply elem_of_cons in H as [-> | H]
    | H : _ ∉ _ :: _ |- _ => apply not_elem_of_cons in H as [? H]
    end;
    repeat first [ rewrite lookup_insert_eq
                 | rewrite lookup_insert_ne by congruence ];
    solve [reflexivity | discriminate | congruence].
Qed.

Lemma content_fold_lookup (on : string -> bool) (l : list (string * FeatureFlag))
    (d : gmap FeatureFlag bool) (f : FeatureFlag) :
  foldl (fun d item => if on item.1 then set_content_feature d item.2 else d) d l !! f
  = foldl (fun acc item =>
             if bool_decide (f = item.2) then (if on item.1 then Some true else acc)
             else if bool_decide (f ∈ excluded_by item.2)
                  then (if on item.1 then Some false else acc)
                  else acc)
      (d !! f) l.
Proof.
  revert d. induction l as [| [key flag] l IH]; intros d; [reflexivity |].
  cbn [foldl fst snd]. rewrite IH. f_equal.
  destruct (on key); [apply set_content_feature_lookup |].
  repeat case_bool_decide; reflexivity.
Qed.

Lemma ui_fold_lookup (on : string -> bool) (l : list (string * FeatureFlag))
    (d : gmap FeatureFlag bool) (f : FeatureFlag) :
  foldl (fun d item => if on item.1 then <[item.2 := true]> d else d) d l !! f
  = foldl (fun acc item =>
             if bool_decide (f = item.2) then (if on item.1 then Some true else acc)
             else acc)
      (d !! f) l.
Proof.
  revert d. induction l as [| [key flag] l IH]; intros d; [reflexivity |].
  cbn [foldl fst snd]. rewrite IH. f_equal.
  destruct (on key); case_bool_decide; subst; simplify_map_eq; reflexivity.
Qed.

Lemma option_b_features_lookup (S : gmap string value) (f : FeatureFlag) :
  option_b_features S !! f = option_b_entry (setting_on S) f.
Proof.
  unfold option_b_features, option_b_entry. cbv zeta.
  rewrite ui_fold_lookup, content_fold_lookup, all_false_lookup. reflexivity.
Qed.

(** X6: in the feature set of Option B the settings that exclude each other
    never hold together: of the rude and kind tones, of mirroring and
    anti-mirroring, and of the three kinds of feedback, at most one flag is
    on, and when several of their settings are on it is the one that comes
    last in the mapping (kind, anti-mirror, then neutral before critical
    before positive). *)
Theorem option_b_features_exclusive (S : gmap string value) :
  let on := setting_on S in
  let d := option_b_features S in
  d !! RUDE_TONE = Some (on "ab_rude_tone_b" && negb (on "ab_kind_tone_b"))
  /\ d !! KIND_TONE = Some (on "ab_kind_tone_b")
  /\ d !! MIRROR = Some (on "ab_mirror_b" && negb (on "ab_anti_mirror_b"))
  /\ d !! ANTI_MIRROR = Some (on "ab_anti_mirror_b")
  /\ d !! POSITIVE_FEEDBACK
     = Some (on "ab_positive_feedback_b" && negb (on "ab_critical_feedback_b")
             && negb (on "ab_neutral_feedback_b"))
  /\ d !! CRITICAL_FEEDBACK
     = Some (on "ab_critical_feedback_b" && negb (on "ab_neutral_feedback_b"))
  /\ d !! NEUTRAL_FEEDBACK = Some (on "ab_neutral_feedback_b")
  /\ ~ (d !! RUDE_TONE = Some true /\ d !! KIND_TONE = Some true)
  /\ ~ (d !! MIRROR = Some true /\ d !! ANTI_MIRROR = Some true)
  /\ ~ (d !! POSITIVE_FEEDBACK = Some true /\ d !! CRITICAL_FEEDBACK = Some true)
  /\ ~ (d !! POSITIVE_FEEDBACK = Some true /\ d !! NEUTRAL_FEEDBACK = Some true)
  /\ ~ (d !! CRITICAL_FEEDBACK = Some true /\ d !! NEUTRAL_FEEDBACK = Some true).
Proof.
  intros on d. subst d. rewrite !option_b_features_lookup. fold on.
  generalize on. clear on. intros on. vm_compute.
  destruct (on "ab_rude_tone_b"), (on "ab_kind_tone_b"), (on "ab_mirror_b"),
    (on "ab_anti_mirror_b"), (on "ab_positive_feedback_b"),
    (on "ab_critical_feedback_b"), (on "ab_neutral_feedback_b");
    repeat split; try reflexivity; intros [? ?]; discriminate.
Qed.


(** ** The cooldown *)

#[global] Arguments _update_countdown : simpl never.
#[global] Arguments clear_data : simpl never.
#[global] Arguments _handle_erase_timeout : simpl never.
#[global] Arguments _on_error : simpl never.
#[global] Arguments serve : simpl never.

Lemma start_block_eq (w : World) :
  _start_block w =
    (Ok tt,
     set_effects (fun l => l ++ [InputDisabled])
       (set_effects (fun l => l ++ [BlockTimerStarted])
          (set_remaining
             (fun _ => Some (setting_or (feature_settings w) "block_duration_s" (VInt 15)))
             (set_effects
                (fun l => l ++
                   [SystemMessage
                      ("Blocking for "
                       +:+ py_str (setting_or (feature_settings w) "block_duration_s" (VInt 15))
                       +:+ "s...")])
                (set_blocking (fun _ => true) w))))).
Proof. reflexivity. Qed.

Lemma update_countdown_tick (w : World) (z : Z) :
  remaining w = Some (VInt z) ->
  (0 < z)%Z ->
  _update_countdown w =
    (Ok tt,
     set_remaining (fun _ => Some (VInt (z - 1)))
       (set_effects (fun l => l ++ [SystemMessage (pretty z +:+ "s...")]) w)).
Proof.
  intros Hr Hz. unfold _update_countdown. unfold_M. cbn [id]. rewrite Hr.
  cbn [gt_zero]. rewrite (proj2 (Z.ltb_lt 0 z) Hz). reflexivity.
Qed.

Lemma update_countdown_done (w : World) (z : Z) :
  remaining w = Some (VInt z) ->
  (z <= 0)%Z ->
  _update_countdown w =
    (Ok tt,
     set_effects (fun l => l ++ [InputEnabled])
       (set_blocking (fun _ => false)
          (set_effects (fun l => l ++ [SystemMessage "You may type now."]) w))).
Proof.
  intros Hr Hz. unfold _update_countdown. unfold_M. cbn [id]. rewrite Hr.
  cbn [gt_zero]. rewrite (proj2 (Z.ltb_ge 0 z) Hz). reflexivity.
Qed.

Lemma countdown_S (n : nat) (w : World) :
  countdown (S n) w = exec _update_countdown (countdown n w).
Proof. reflexivity. Qed.

(** While the count is positive a tick announces it and takes one off. *)
Lemma countdown_running (w : World) (d : Z) (k : nat) :
  remaining w = Some (VInt d) ->
  (Z.of_nat k <= d)%Z ->
  remaining (countdown k w) = Some (VInt (d - Z.of_nat k))
  /\ blocking (countdown k w) = blocking w
  /\ history (countdown k w) = history w
  /\ count (countdown k w) = count w.
Proof.
  intros Hr. induction k as [| k IH]; intros Hk.
  - rewrite Z.sub_0_r. auto.
  - destruct IH as (IHr & IHb & IHh & IHc); [lia |].
    rewrite countdown_S.
    rewrite (update_countdown_tick _ _ IHr) by lia. wproj.
    repeat split; try assumption. do 2 f_equal. lia.
Qed.

(** X8: a cooldown of d seconds disables the input and announces itself;
    each of the next d ticks of the block timer announces the seconds left,
    from d down to 1, and leaves the input blocked; it is tick d + 1 that
    says the participant may type, lifts the block and enables the input
    again. *)
Theorem block_countdown (w : World) (d : Z) :
  setting_or (feature_settings w) "block_duration_s" (VInt 15) = VInt d ->
  (0 <= d)%Z ->
  let w0 := exec _start_block w in
  let w_end := countdown (S (Z.to_nat d)) w0 in
  effects w0 =
    effects w ++
    [SystemMessage ("Blocking for " +:+ pretty d +:+ "s..."); BlockTimerStarted;
     InputDisabled]
  /\ (forall k : nat,
        (Z.of_nat k <= d)%Z ->
        blocking (countdown k w0) = true
        /\ remaining (countdown k w0) = Some (VInt (d - Z.of_nat k)))
  /\ (forall k : nat,
        (Z.of_nat k < d)%Z ->
        effects (countdown (S k) w0) =
          effects (countdown k w0)
          ++ [SystemMessage (pretty (d - Z.of_nat k)%Z +:+ "s...")])
  /\ blocking w_end = false
  /\ effects w_end =
       effects (countdown (Z.to_nat d) w0)
       ++ [SystemMessage "You may type now."; InputEnabled].
Proof.
  intros Hd Hpos w0 w_end.
  assert (E0 : w0 = snd (_start_block w)) by reflexivity.
  rewrite start_block_eq, Hd in E0. cbn [snd py_str] in E0.
  assert (Hr0 : remaining w0 = Some (VInt d)) by (rewrite E0; reflexivity).
  assert (Hb0 : blocking w0 = true) by (rewrite E0; reflexivity).
  split.
  { rewrite E0. wproj. rewrite <- !app_assoc. reflexivity. }
  split.
  { intros k Hk. destruct (countdown_running w0 d k Hr0 Hk) as (Er & Eb & _).
    rewrite Eb, Hb0. split; [reflexivity | exact Er]. }
  split.
  { intros k Hk. destruct (countdown_running w0 d k Hr0) as (Er & _); [lia |].
    rewrite countdown_S, (update_countdown_tick _ _ Er) by lia. reflexivity. }
  destruct (countdown_running w0 d (Z.to_nat d) Hr0) as (Er & _); [lia |].
  subst w_end. rewrite countdown_S.
  rewrite (update_countdown_done _ _ Er) by lia. wproj.
  split; [reflexivity |]. rewrite <- app_assoc. reflexivity.
Qed.

Lemma block_countdown_witness :
  blocking (countdown 15 (exec _start_block w_plain)) = true
  /\ blocking (countdown 16 (exec _start_block w_plain)) = false.
Proof.
  assert (Hd : setting_or (feature_settings w_plain) "block_duration_s" (VInt 15)
               = VInt 15) by (vm_compute; reflexivity).
  destruct (block_countdown w_plain 15 Hd ltac:(lia)) as (_ & Hrun & _ & Hend & _).
  change (S (Z.to_nat 15)) with 16%nat in Hend.
  split; [apply (Hrun 15%nat); lia | exact Hend].
Defined.

(** ** When a cooldown starts *)

Lemma survey_trigger_off (w : World) :
  is_enabled w INTER_TRIAL_SURVEY = false -> survey_trigger w = (Ok tt, w).
Proof.
  intros H. unfold survey_trigger. rewrite bind_gets. cbn [id]. rewrite H. reflexivity.
Qed.

Lemma check_auto_end_off (w : World) :
  is_enabled w AUTO_END_AFTER_N_MSGS = false ->
  _check_auto_end_conditions w = (Ok false, w).
Proof.
  intros H. unfold _check_auto_end_conditions. rewrite bind_gets. cbn [id].
  rewrite H. reflexivity.
Qed.

(** The standard commit when neither the survey nor the auto-end is on. *)
Lemma finish_response_standard_quiet (reply : string) (w : World) :
  plan_active w = false ->
  is_enabled w INTER_TRIAL_SURVEY = false ->
  is_enabled w AUTO_END_AFTER_N_MSGS = false ->
  _finish_response reply w =
    block_or_enable_input
      (set_earliest_display_ts (fun _ => None)
         (set_must_slow_turn (fun _ => false) (recorded reply w))).
Proof.
  intros Hp Hs Ha. rewrite finish_response_recorded, Hp.
  set (w5 := recorded reply w).
  assert (E : survey_trigger w5 = (Ok tt, set_effects (fun l => l ++ []) w5)).
  { rewrite survey_trigger_off by exact Hs. f_equal.
    destruct w. unfold w5, recorded, set_effects. wproj.
    rewrite app_nil_r. reflexivity. }
  rewrite (finish_in_standard_eq w5 [] E).
  assert (E' : set_effects (fun l => l ++ []) w5 = w5).
  { destruct w. unfold w5, recorded, set_effects. wproj.
    rewrite app_nil_r. reflexivity. }
  rewrite E'.
  erewrite exec_bind; [| apply check_auto_end_off; exact Ha]. reflexivity.
Qed.

Lemma block_or_enable_input_eq (w : World) (n : Z) (r : value) :
  is_enabled w BLOCK_MSGS = true ->
  setting_or (feature_settings w) "block_message_count" (VInt 5) = VInt n ->
  setting_or (feature_settings w) "block_repeat" (VBool true) = r ->
  (0 < count w)%Z ->
  block_or_enable_input w =
    if py_truth r then
      if (n =? 0)%Z then (Raise ZeroDivisionError, w)
      else if (count w mod n =? 0)%Z then _start_block w
           else emit InputEnabled w
    else if (count w =? n)%Z then _start_block w else emit InputEnabled w.
Proof.
  intros Hon Hn Hr Hc. unfold block_or_enable_input. rewrite bind_gets. cbn [id].
  rewrite Hon, Hn, Hr. rewrite (proj2 (Z.ltb_lt 0 (count w)) Hc).
  destruct (py_truth r).
  - unfold int_mod, py_mod. unfold_M.
    destruct (n =? 0)%Z; [reflexivity |].
    destruct (_ =? 0)%Z; reflexivity.
  - unfold int_eq. unfold_M. destruct (count w =? n)%Z; reflexivity.
Qed.

(** X9: in standard mode, with cooldowns on and neither the survey nor the
    auto-end on, the commit of a turn starts a cooldown exactly when the
    count of turns, this one included, is a multiple of the threshold (with
    the repeat setting on) or equals the threshold (with it off); it then
    leaves the input disabled, and otherwise it enables the input. *)
Theorem cooldown_starts_on_threshold (w : World) (reply : string) (n : Z) (r : value) :
  plan_active w = false ->
  is_enabled w INTER_TRIAL_SURVEY = false ->
  is_enabled w AUTO_END_AFTER_N_MSGS = false ->
  is_enabled w BLOCK_MSGS = true ->
  setting_or (feature_settings w) "block_message_count" (VInt 5) = VInt n ->
  setting_or (feature_settings w) "block_repeat" (VBool true) = r ->
  n <> 0%Z ->
  (0 <= count w)%Z ->
  let turns := (count w + 1)%Z in
  let due := if py_truth r then (turns mod n =? 0)%Z else (turns =? n)%Z in
  let duration := setting_or (feature_settings w) "block_duration_s" (VInt 15) in
  let w' := exec (_finish_response reply) w in
  fst (_finish_response reply w) = Ok tt
  /\ count w' = turns
  /\ blocking w' = (if due then true else blocking w)
  /\ effects w' =
       effects w ++
       (if due
        then [SystemMessage ("Blocking for " +:+ py_str duration +:+ "s...");
              BlockTimerStarted; InputDisabled]
        else [InputEnabled]).
Proof.
  intros Hp Hs Ha Hon Hn Hr Hn0 Hc turns due duration w'. subst w'.
  rewrite (finish_response_standard_quiet reply w Hp Hs Ha).
  match goal with |- context [block_or_enable_input ?x] => set (w6 := x) end.
  assert (Hc6 : count w6 = turns) by reflexivity.
  rewrite (block_or_enable_input_eq w6 n r Hon Hn Hr) by (rewrite Hc6; unfold turns; lia).
  rewrite Hc6. apply Z.eqb_neq in Hn0. rewrite Hn0. subst due.
  destruct (py_truth r);
    [destruct (turns `mod` n =? 0)%Z | destruct (turns =? n)%Z];
    rewrite ?start_block_eq; unfold emit, modify, w6, recorded; wproj;
    rewrite <- ?app_assoc; repeat split; reflexivity.
Qed.

Lemma cooldown_starts_on_threshold_witness :
  blocking (exec (_finish_response "fourth") w_cooldown) = true
  /\ effects (exec (_finish_response "fourth") w_cooldown) =
       [SystemMessage "Blocking for 15s..."; BlockTimerStarted; InputDisabled].
Proof.
  assert (Hn : setting_or (feature_settings w_cooldown) "block_message_count" (VInt 5)
               = VInt 2) by (vm_compute; reflexivity).
  assert (Hr : setting_or (feature_settings w_cooldown) "block_repeat" (VBool true)
               = VBool true) by (vm_compute; reflexivity).
  assert (Hon : is_enabled w_cooldown BLOCK_MSGS = true) by (vm_compute; reflexivity).
  assert (Hs : is_enabled w_cooldown INTER_TRIAL_SURVEY = false)
    by (vm_compute; reflexivity).
  assert (Ha : is_enabled w_cooldown AUTO_END_AFTER_N_MSGS = false)
    by (vm_compute; reflexivity).
  assert (Hp : plan_active w_cooldown = false) by (vm_compute; reflexivity).
  assert (Hc : (0 <= count w_cooldown)%Z) by (vm_compute; discriminate).
  destruct (cooldown_starts_on_threshold w_cooldown "fourth" 2 (VBool true)
              Hp Hs Ha Hon Hn Hr ltac:(discriminate) Hc) as (_ & _ & Hb & He).
  split; [exact Hb |]. rewrite He. vm_compute. reflexivity.
Defined.

(** X10: in standard mode, with cooldowns on and neither the survey nor
    the auto-end on, the repeat setting on and a threshold of zero, the
    commit of a turn raises ZeroDivisionError once the turn is recorded:
    the history and the counters have the turn, and the input is neither
    blocked nor enabled again. *)
Theorem cooldown_zero_threshold_raises (w : World) (reply : string) (r : value) :
  plan_active w = false ->
  is_enabled w INTER_TRIAL_SURVEY = false ->
  is_enabled w AUTO_END_AFTER_N_MSGS = false ->
  is_enabled w BLOCK_MSGS = true ->
  setting_or (feature_settings w) "block_message_count" (VInt 5) = VInt 0 ->
  setting_or (feature_settings w) "block_repeat" (VBool true) = r ->
  py_truth r = true ->
  (0 <= count w)%Z ->
  let w' := exec (_finish_response reply) w in
  fst (_finish_response reply w) = Raise ZeroDivisionError
  /\ history w' = history w ++ [("assistant", reply)]
  /\ count w' = (count w + 1)%Z
  /\ blocking w' = blocking w
  /\ effects w' = effects w.
Proof.
  intros Hp Hs Ha Hon Hn Hr Ht Hc w'. subst w'.
  rewrite (finish_response_standard_quiet reply w Hp Hs Ha).
  match goal with |- context [block_or_enable_input ?x] => set (w6 := x) end.
  assert (Hc6 : count w6 = (count w + 1)%Z) by reflexivity.
  rewrite (block_or_enable_input_eq w6 0 r Hon Hn Hr) by (rewrite Hc6; lia).
  rewrite Ht. cbn [Z.eqb fst snd]. repeat split; reflexivity.
Qed.

Lemma cooldown_zero_threshold_raises_witness :
  fst (_finish_response "fourth" w_cooldown_zero) = Raise ZeroDivisionError
  /\ effects (exec (_finish_response "fourth") w_cooldown_zero) = [].
Proof.
  assert (Hn : setting_or (feature_settings w_cooldown_zero) "block_message_count" (VInt 5)
               = VInt 0) by (vm_compute; reflexivity).
  assert (Hr : setting_or (feature_settings w_cooldown_zero) "block_repeat" (VBool true)
               = VBool true) by (vm_compute; reflexivity).
  assert (Hon : is_enabled w_cooldown_zero BLOCK_MSGS = true) by (vm_compute; reflexivity).
  assert (Hs : is_enabled w_cooldown_zero INTER_TRIAL_SURVEY = false)
    by (vm_compute; reflexivity).
  assert (Ha : is_enabled w_cooldown_zero AUTO_END_AFTER_N_MSGS = false)
    by (vm_compute; reflexivity).
  assert (Hp : plan_active w_cooldown_zero = false) by (vm_compute; reflexivity).
  assert (Hc : (0 <= count w_cooldown_zero)%Z) by (vm_compute; discriminate).
  destruct (cooldown_zero_threshold_raises w_cooldown_zero "fourth" (VBool true)
              Hp Hs Ha Hon Hn Hr eq_refl Hc) as (Hf & _ & _ & _ & He).
  split; [exact Hf |]. rewrite He. vm_compute. reflexivity.
Defined.

(** ** What a commit records *)

Lemma commits_snoc (replies : list string) (reply : string) (w : World) :
  commits (replies ++ [reply]) w = exec (_finish_response reply) (commits replies w).
Proof. unfold commits. rewrite foldl_app. reflexivity. Qed.

(** X11: whatever the mode and the features, and whether or not the rest
    of the commit raises, the commit of a turn appends the reply to the
    history as an assistant message, adds one to the count of turns and to
    the count of assistant messages, and drops the pending A/B pair and
    choice; so after any sequence of commits the history has grown by
    exactly the replies, in order, and the two counts by their number. *)
Theorem commit_records_turn (w : World) (replies : list string) :
  (forall reply,
     let w' := exec (_finish_response reply) w in
     history w' = history w ++ [("assistant", reply)]
     /\ count w' = (count w + 1)%Z
     /\ assistant_message_count w' = (assistant_message_count w + 1)%Z
     /\ ab_responses w' = None
     /\ _last_ab_choice w' = None)
  /\ history (commits replies w)
     = history w ++ ((fun reply => ("assistant", reply)) <$> replies)
  /\ count (commits replies w) = (count w + Z.of_nat (length replies))%Z
  /\ assistant_message_count (commits replies w)
     = (assistant_message_count w + Z.of_nat (length replies))%Z.
Proof.
  split; [intros reply; apply finish_response_records |].
  induction replies as [| reply replies IH] using rev_ind.
  - cbn. rewrite app_nil_r, !Z.add_0_r. repeat split; reflexivity.
  - destruct IH as (IHh & IHc & IHa). rewrite commits_snoc.
    destruct (finish_response_records reply (commits replies w)) as (Hh & Hc & Ha & _).
    rewrite Hh, Hc, Ha, IHh, IHc, IHa, fmap_app, length_app, <- app_assoc.
    cbn [fmap list_fmap length]. repeat split; try reflexivity; lia.
Qed.

(** ** The typewriter *)









(** ** Erasing the history *)

Lemma handle_erase_timeout_eq (w : World) :
  _handle_erase_timeout w =
    let w1 :=
      set_effects (fun l => l ++ [SystemMessage "Chat history erased."])
        (set_history (fun _ => []) w) in
    if py_truth (setting_or (feature_settings w) "erase_history_repeat" (VBool false))
    then
      match to_msec (setting_or (feature_settings w) "erase_history_interval_s" (VInt 120)) with
      | Ok ms => (Ok tt, set_effects (fun l => l ++ [EraseTimerStarted ms]) w1)
      | Raise e => (Raise e, w1)
      end
    else (Ok tt, w1).
Proof.
  unfold _handle_erase_timeout, clear_data. unfold_M. cbn [id]. wproj.
  destruct (py_truth _); [| reflexivity].
  destruct (to_msec _); reflexivity.
Qed.

Lemma handle_erase_timeout_keeps :
  keeps (same count) _handle_erase_timeout
  /\ keeps (same assistant_message_count) _handle_erase_timeout
  /\ keeps (same script_index) _handle_erase_timeout
  /\ keeps (same enabled_features) _handle_erase_timeout
  /\ keeps (same feature_settings) _handle_erase_timeout
  /\ keeps (same _must_slow_turn) _handle_erase_timeout
  /\ keeps (same experiment_plan) _handle_erase_timeout
  /\ keeps (same messages_in_current_block) _handle_erase_timeout.
Proof. repeat split; unfold _handle_erase_timeout, clear_data; keeps_tac. Qed.

(** X13: when the erase timer fires the history is emptied and the
    erasure is announced, whether or not the erase feature is still
    enabled; the counts of turns, the script cursor, the flags, the
    settings and the blueprint progress are untouched.  The timer is
    started again, for the configured interval in milliseconds, exactly
    when the repeat setting is on. *)
Theorem erase_timeout_empties_history (w : World) :
  let w' := exec _handle_erase_timeout w in
  let repeat_enabled :=
    py_truth (setting_or (feature_settings w) "erase_history_repeat" (VBool false)) in
  history w' = []
  /\ (count w' = count w
      /\ assistant_message_count w' = assistant_message_count w
      /\ script_index w' = script_index w
      /\ enabled_features w' = enabled_features w
      /\ feature_settings w' = feature_settings w
      /\ experiment_plan w' = experiment_plan w
      /\ messages_in_current_block w' = messages_in_current_block w)
  /\ (repeat_enabled = false ->
      fst (_handle_erase_timeout w) = Ok tt
      /\ effects w' = effects w ++ [SystemMessage "Chat history erased."])
  /\ (repeat_enabled = true ->
      forall z,
        setting_or (feature_settings w) "erase_history_interval_s" (VInt 120) = VInt z ->
        fst (_handle_erase_timeout w) = Ok tt
        /\ effects w' =
             effects w ++
             [SystemMessage "Chat history erased."; EraseTimerStarted (z * 1000)]).
Proof.
  intros w' repeat_enabled.
  destruct handle_erase_timeout_keeps as (K1 & K2 & K3 & K4 & K5 & _ & K7 & K8).
  split.
  { subst w'. rewrite handle_erase_timeout_eq. cbv zeta.
    destruct (py_truth _); [destruct (to_msec _) |]; reflexivity. }
  split.
  { subst w'. rewrite K1, K2, K3, K4, K5, K7, K8. repeat split; reflexivity. }
  split.
  - intros Hr. subst w' repeat_enabled. rewrite handle_erase_timeout_eq. cbv zeta.
    rewrite Hr. split; reflexivity.
  - intros Hr z Hz. subst w' repeat_enabled. rewrite handle_erase_timeout_eq. cbv zeta.
    rewrite Hr, Hz. cbn [to_msec fst snd]. wproj. rewrite <- app_assoc.
    split; reflexivity.
Qed.

(** ** Errors of a worker thread *)

Lemma on_error_eq (w : World) (msg : string) :
  _on_error msg w =
    (Ok tt,
     set_effects (fun l => l ++ [InputEnabled])
       (set_effects (fun l => l ++ [SystemMessage ("ERROR: " +:+ msg)])
          (if _current_thinking_bubble w
           then set_current_thinking_bubble (fun _ => false)
                  (set_effects (fun l => l ++ [ThinkingRemoved]) w)
           else w))).
Proof.
  unfold _on_error, stop_thinking. unfold_M. cbn [id].
  destruct (_current_thinking_bubble w); reflexivity.
Qed.

(** X14: an error of a worker thread tears the thinking bubble down, shows
    the error and enables the input again, and commits nothing: the
    history, the counts and the pending A/B pair are as before.  So when
    one thread of a pair has failed, the completion of the other brings the
    ready count from 0 to 1 only and reveals nothing. *)
Theorem error_commits_nothing (w : World) (msg : string) :
  let w' := exec (_on_error msg) w in
  fst (_on_error msg w) = Ok tt
  /\ effects w' =
       effects w
       ++ (if _current_thinking_bubble w then [ThinkingRemoved] else [])
       ++ [SystemMessage ("ERROR: " +:+ msg); InputEnabled]
  /\ _current_thinking_bubble w' = false
  /\ history w' = history w
  /\ count w' = count w
  /\ ab_responses w' = ab_responses w
  /\ ab_responses_ready w' = ab_responses_ready w
  /\ (forall d reply version now,
        ab_responses w = Some d ->
        ab_responses_ready w = 0%Z ->
        let w'' := exec (_on_ab_response reply version now) w' in
        ab_responses_ready w'' = 1%Z
        /\ effects w'' = effects w'
        /\ history w'' = history w).
Proof.
  intros w'.
  assert (E : w' = snd (_on_error msg w)) by reflexivity.
  rewrite on_error_eq in E. cbn [snd] in E.
  assert (Hfacts :
    effects w' =
      effects w
      ++ (if _current_thinking_bubble w then [ThinkingRemoved] else [])
      ++ [SystemMessage ("ERROR: " +:+ msg); InputEnabled]
    /\ _current_thinking_bubble w' = false
    /\ history w' = history w
    /\ count w' = count w
    /\ ab_responses w' = ab_responses w
    /\ ab_responses_ready w' = ab_responses_ready w).
  { rewrite E. destruct (_current_thinking_bubble w) eqn:Hb; wproj;
      rewrite <- ?app_assoc, ?Hb; repeat split; reflexivity. }
  destruct Hfacts as (He & Hb & Hh & Hc & Hd & Hr).
  split; [rewrite on_error_eq; reflexivity |].
  do 6 (split; [assumption |]).
  intros d reply version now Hd0 H0 w''. subst w''.
  rewrite Hd0 in Hd. rewrite H0 in Hr.
  rewrite (on_ab_response_eq w' d reply version now Hd), Hr.
  change (0 + 1 =? 2)%Z with false. cbn [snd]. wproj.
  rewrite Hr. repeat split; try reflexivity. exact Hh.
Qed.

(** ** What holds over a whole session *)

Ltac unfold_slots :=
  unfold serve, _handle_erase_timeout, clear_data, _update_countdown, _on_error;
  unfold_methods.

Lemma serve_keeps_constants (s : slot) :
  keeps (same ab_test_threshold) (serve s)
  /\ keeps (same session_start_time) (serve s).
Proof. split; destruct s as [[] | | |]; unfold_slots; keeps_tac. Qed.

#[global] Instance counted_together_preorder : PreOrder counted_together.
Proof.
  split.
  - intros w. split; lia.
  - intros w1 w2 w3 [H1 H2] [H3 H4]. split; lia.
Qed.

Lemma finish_response_counted (reply : string) :
  keeps counted_together (_finish_response reply).
Proof.
  intros w. destruct (finish_response_records reply w) as (_ & Hc & Ha & _).
  split; lia.
Qed.

#[global] Hint Resolve finish_response_counted : keeps.

Lemma serve_counted (s : slot) : keeps counted_together (serve s).
Proof.
  destruct s as [[] | | |];
    unfold serve, _handle_erase_timeout, clear_data, _update_countdown, _on_error,
      handle, fire, _initialize_blueprint_mode, _send_after_delay,
      scripted_turn, play_step, live_dispatch, think_once, _start_thinking,
      _handle_scripted_ab_turn, _on_ab_response, _on_response, _maybe_delay_then,
      run_proceed, stop_thinking, _show_ab_dialog, ab_dialog_closed, _type_step,
      _display_response, _start_next_block, _apply_block_config, _setup_erase_history_timer,
      _apply_text_size, _end_chat, _prepare_turn_slowdown, get_scripted_convo;
    keeps_tac; split; wproj; lia.
Qed.

Lemma session_snoc (slots : list slot) (s : slot) (w : World) :
  session (slots ++ [s]) w = exec (serve s) (session slots w).
Proof. unfold session. rewrite foldl_app. reflexivity. Qed.

Lemma session_keeps (R : World -> World -> Prop) `{!PreOrder R} :
  (forall s, keeps R (serve s)) -> forall slots w, R w (session slots w).
Proof.
  intros H slots w. induction slots as [| s slots IH] using rev_ind.
  - reflexivity.
  - rewrite session_snoc. etransitivity; [exact IH | apply H].
Qed.

(** X15: over any sequence of deliveries (sent turns, responses, timers of
    every kind, blueprint activations, errors) the A/B threshold stays what
    the window read at its creation and the start of the session stays
    where it was, so a block of a blueprint changes neither the A/B
    schedule nor the phase of the slow-down cycle; the count of turns never
    goes back, and the count of assistant messages moves with it. *)
Theorem session_constants (w : World) (slots : list slot) :
  let w' := session slots w in
  ab_test_threshold w' = ab_test_threshold w
  /\ session_start_time w' = session_start_time w
  /\ (count w <= count w')%Z
  /\ (assistant_message_count w' - assistant_message_count w = count w' - count w)%Z.
Proof.
  intros w'. subst w'.
  pose proof (session_keeps (same ab_test_threshold)
                (fun s => proj1 (serve_keeps_constants s)) slots w) as H1.
  pose proof (session_keeps (same session_start_time)
                (fun s => proj2 (serve_keeps_constants s)) slots w) as H2.
  destruct (session_keeps counted_together serve_counted slots w) as [H3 H4].
  repeat split; try assumption. lia.
Qed.

Lemma new_window_threshold (flags : gmap FeatureFlag bool) (table : gmap string value)
    (script : list step) (start : Q) (answers : nat -> ab_outcome) :
  (1 <= ab_test_threshold (new_window flags table script start answers))%Z.
Proof.
  unfold new_window. wproj.
  destruct (get_setting_value table "ab_test_message_threshold" false) as [[[] | z | s] |];
    try (cbn; lia).
  destruct (Z.ltb_spec z 1); lia.
Qed.

(** X16: the threshold a window reads at its creation is at least 1 (the
    fallback of 5 stands in for a missing entry and for a value below 1),
    and nothing changes it afterwards; so in every state a session can
    reach, live dispatch returns without raising and starts a worker
    thread: the division of the A/B schedule never fails. *)
Theorem live_dispatch_never_raises (flags : gmap FeatureFlag bool)
    (table : gmap string value) (script : list step) (start : Q)
    (answers : nat -> ab_outcome) (slots : list slot) (txt : string) :
  numeric_setting table "ab_test_message_threshold" = true ->
  let w := session slots (new_window flags table script start answers) in
  (1 <= ab_test_threshold w)%Z
  /\ (forall z, table !! "ab_test_message_threshold" = Some (VInt z) ->
        ab_test_threshold w = if (z <? 1)%Z then 5%Z else z)
  /\ (table !! "ab_test_message_threshold" = None -> ab_test_threshold w = 5%Z)
  /\ fst (live_dispatch txt w) = Ok tt
  /\ exists t new,
       effects (exec (live_dispatch txt) w) = effects w ++ new
       /\ In (ThreadStarted t) new.
Proof.
  intros _ w.
  pose proof (session_keeps (same ab_test_threshold)
                (fun s => proj1 (serve_keeps_constants s)) slots
                (new_window flags table script start answers)) as Hsame.
  fold w in Hsame. red in Hsame.
  assert (H1 : (1 <= ab_test_threshold w)%Z).
  { rewrite Hsame. apply new_window_threshold. }
  split; [exact H1 |].
  split.
  { intros z Hz. rewrite Hsame. unfold new_window. wproj.
    rewrite get_setting_value_primary, Hz. reflexivity. }
  split.
  { intros Hz. rewrite Hsame. unfold new_window. wproj.
    rewrite get_setting_value_primary, Hz. reflexivity. }
  apply live_dispatch_starts_thread. right. lia.
Qed.

Lemma live_dispatch_never_raises_witness :
  fst (live_dispatch "again"
         (session [Delivered (Send "hi" 1 1); ThreadError "timeout"; EraseTimeout]
            (new_window (flags_on [AB_TESTING])
               (<["ab_test_message_threshold" := VInt 0]> feature_settings_initial)
               [] 0 (always Chose_A)))) = Ok tt.
Proof.
  apply (live_dispatch_never_raises (flags_on [AB_TESTING])
           (<["ab_test_message_threshold" := VInt 0]> feature_settings_initial)
           [] 0 (always Chose_A)
           [Delivered (Send "hi" 1 1); ThreadError "timeout"; EraseTimeout]
           "again").
  vm_compute. reflexivity.
Defined.

(** ** The blueprint over a whole session *)

Lemma finish_in_standard_keeps_blueprint :
  keeps (same experiment_plan) finish_in_standard
  /\ keeps (same current_block_index) finish_in_standard.
Proof. split; unfold_commit; keeps_tac. Qed.

Lemma py_index_past_end {A} (l : list A) (i : Z) :
  (Z.of_nat (length l) <= i)%Z -> py_index l i = Raise IndexError.
Proof.
  intros H. unfold py_index.
  destruct (Z.ltb_spec i 0) as [? | _]; [lia |].
  destruct (Z.ltb_spec i 0) as [? | _]; [lia |].
  rewrite (proj2 (lookup_ge_None l (Z.to_nat i))) by lia. reflexivity.
Qed.

(** A commit once the blueprint is complete: the block under the index
    does not exist. *)
Lemma finish_response_past_end (w : World) (plan : list block) (reply : string) :
  experiment_plan w = Some plan ->
  plan <> [] ->
  (Z.of_nat (length plan) <= current_block_index w)%Z ->
  _finish_response reply w =
    (Raise IndexError,
     set_messages_in_current_block (fun n => n + 1)%Z (recorded reply w)).
Proof.
  intros Hp Hne Hi. rewrite finish_response_recorded.
  assert (Ha : plan_active w = true).
  { unfold plan_active. rewrite Hp. destruct plan; [contradiction | reflexivity]. }
  rewrite Ha. unfold finish_in_blueprint, recorded. unfold_M. cbn [id]. wproj.
  rewrite Hp. cbn [default from_option id]. wproj.
  rewrite py_index_past_end by exact Hi. reflexivity.
Qed.

Lemma blueprint_commit_index (w : World) (plan : list block) (reply : string) :
  experiment_plan w = Some plan ->
  (0 <= current_block_index w <= Z.of_nat (length plan))%Z ->
  let w' := exec (_finish_response reply) w in
  experiment_plan w' = Some plan
  /\ (current_block_index w <= current_block_index w' <= current_block_index w + 1)%Z
  /\ (current_block_index w' <= Z.of_nat (length plan))%Z.
Proof.
  intros Hp Hi w'. subst w'.
  destruct plan as [| b0 plan'] eqn:Eplan.
  { (* an empty blueprint: the commit is a standard one *)
    rewrite finish_response_recorded.
    assert (Ha : plan_active w = false) by (unfold plan_active; rewrite Hp; reflexivity).
    rewrite Ha. destruct finish_in_standard_keeps_blueprint as [K1 K2].
    rewrite K1, K2. unfold recorded. wproj. split; [exact Hp |]. lia. }
  rewrite <- Eplan in *.
  destruct (plan !! Z.to_nat (current_block_index w)) as [blk |] eqn:Hb.
  - destruct (blueprint_commit_step w plan blk reply Hp (proj1 Hi) Hb)
      as (Hp' & Hstay & Hnext & Hdone).
    cbv zeta in Hstay, Hnext, Hdone.
    apply lookup_lt_Some in Hb.
    split; [exact Hp' |].
    destruct (Z.lt_ge_cases (messages_in_current_block w + 1)
                (default 10%Z (b_duration_messages blk))) as [Hlt | Hge].
    + destruct (Hstay Hlt) as (_ & _ & E & _). rewrite E. lia.
    + destruct (plan !! Z.to_nat (current_block_index w + 1)) as [next |] eqn:Hn.
      * destruct (Hnext Hge next eq_refl) as (E & _). rewrite E.
        apply lookup_lt_Some in Hn. lia.
      * destruct (Hdone Hge eq_refl) as (_ & E & _). rewrite E. lia.
  - apply lookup_ge_None in Hb.
    rewrite (finish_response_past_end w plan reply Hp) by (subst plan; discriminate || lia).
    cbn [snd]. unfold recorded. wproj. split; [exact Hp |]. lia.
Qed.

(** X17: over any sequence of commits the blueprint stays the one that was
    loaded and the index of the current block never goes back, moves by at
    most one block per commit and never passes the number of blocks.  Once
    it has reached the number of blocks the blueprint is complete, and a
    further commit raises IndexError after recording the turn, without
    enabling the input. *)
Theorem blueprint_index_bounded (w : World) (plan : list block)
    (replies : list string) :
  experiment_plan w = Some plan ->
  (0 <= current_block_index w <= Z.of_nat (length plan))%Z ->
  let w' := commits replies w in
  experiment_plan w' = Some plan
  /\ (current_block_index w <= current_block_index w')%Z
  /\ (current_block_index w' <= current_block_index w + Z.of_nat (length replies))%Z
  /\ (current_block_index w' <= Z.of_nat (length plan))%Z
  /\ (plan <> [] ->
      current_block_index w' = Z.of_nat (length plan) ->
      forall reply,
        fst (_finish_response reply w') = Raise IndexError
        /\ history (exec (_finish_response reply) w')
           = history w' ++ [("assistant", reply)]
        /\ effects (exec (_finish_response reply) w') = effects w'
        /\ current_block_index (exec (_finish_response reply) w')
           = current_block_index w').
Proof.
  intros Hp Hi w'.
  assert (H : experiment_plan w' = Some plan
              /\ (current_block_index w <= current_block_index w')%Z
              /\ (current_block_index w'
                  <= current_block_index w + Z.of_nat (length replies))%Z
              /\ (current_block_index w' <= Z.of_nat (length plan))%Z).
  { subst w'. induction replies as [| reply replies IH] using rev_ind.
    - cbn. repeat split; try assumption; lia.
    - destruct IH as (IHp & IH1 & IH2 & IH3). rewrite commits_snoc.
      destruct (blueprint_commit_index (commits replies w) plan reply IHp)
        as (Hp' & Hstep & Hle); [lia |].
      rewrite length_app. cbn [length].
      split; [exact Hp' |]. repeat split; lia. }
  destruct H as (Hp' & H1 & H2 & H3).
  repeat (split; [assumption |]).
  intros Hne Hend reply.
  rewrite (finish_response_past_end w' plan reply Hp' Hne) by lia.
  cbn [fst snd]. unfold recorded. wproj. repeat split; reflexivity.
Qed.

Lemma blueprint_index_bounded_witness :
  (current_block_index (commits ["a"; "b"; "c"; "d"; "e"; "f"; "g"] w_two_blocks) <= 2)%Z.
Proof.
  assert (Hp : experiment_plan w_two_blocks = Some two_blocks)
    by (vm_compute; reflexivity).
  assert (Hi : (0 <= current_block_index w_two_blocks <= Z.of_nat (length two_blocks))%Z)
    by (vm_compute; split; discriminate).
  destruct (blueprint_index_bounded w_two_blocks two_blocks
              ["a"; "b"; "c"; "d"; "e"; "f"; "g"] Hp Hi) as (_ & _ & _ & Hle & _).
  exact Hle.
Defined.

(** ** The timing policy over time *)

Lemma float_ge_mono (x y : Q) (v : value) :
  (x <= y)%Q -> float_ge x v = Ok true -> float_ge y v = Ok true.
Proof.
  intros Hxy. unfold float_ge.
  destruct v as [b | z | s]; intros H; try discriminate;
    injection H as H; apply Qle_bool_iff in H; f_equal; apply Qle_bool_iff; lra.
Qed.

Lemma slowdown_permanent_active_mono (w : World) (t t' : Q) :
  (t <= t')%Q ->
  _slowdown_permanent_active w t = Ok true ->
  _slowdown_permanent_active w t' = Ok true.
Proof.
  intros Hle. unfold _slowdown_permanent_active.
  destruct (negb (is_enabled w SLOWDOWN)); [discriminate |].
  destruct (negb (py_truth _)); [discriminate |].
  cbv zeta. apply float_ge_mono. lra.
Qed.

(** X18: the permanent slow-down is permanent: once it is active at some
    time of a session it is active at every later time, as long as the
    flags and the settings stay as they are; and every turn sent from then
    on is a slow turn, with its reveal held until the send time plus the
    minimum delay. *)
Theorem slowdown_permanent_stays (w : World) (t t' : Q) :
  (t <= t')%Q ->
  _slowdown_permanent_active w t = Ok true ->
  _slowdown_permanent_active w t' = Ok true
  /\ (slowdown_settings_numeric w = true ->
      exists d,
        py_float (setting_or (feature_settings w) "slowdown_min_delay_s" (VInt 4)) = Ok d
        /\ fst (_prepare_turn_slowdown t' w) = Ok tt
        /\ _must_slow_turn (exec (_prepare_turn_slowdown t') w) = true
        /\ _earliest_display_ts (exec (_prepare_turn_slowdown t') w) = Some (t' + d)%Q).
Proof.
  intros Hle Hact.
  pose proof (slowdown_permanent_active_mono w t t' Hle Hact) as Hact'.
  split; [exact Hact' |].
  intros Hnum.
  destruct (slowdown_settings_numeric_split w Hnum) as (Hp & Hs & _ & Hm).
  destruct (in_slow_window_returns w t' Hp Hs) as [cyc Hcyc].
  destruct (numeric_py_float _ _ 4 Hm) as [d Hd].
  exists d. split; [exact Hd |].
  rewrite (prepare_turn_slowdown_eq w t' true cyc d Hact' Hcyc Hd).
  repeat split; reflexivity.
Qed.

Lemma slowdown_permanent_stays_witness :
  _slowdown_permanent_active w_permanent 4000 = Ok true
  /\ _must_slow_turn (exec (_prepare_turn_slowdown 4000) w_permanent) = true.
Proof.
  assert (Hle : (600 <= 4000)%Q) by (vm_compute; discriminate).
  assert (Hact : _slowdown_permanent_active w_permanent 600 = Ok true)
    by (vm_compute; reflexivity).
  assert (Hnum : slowdown_settings_numeric w_permanent = true)
    by (vm_compute; reflexivity).
  destruct (slowdown_permanent_stays w_permanent 600 4000 Hle Hact) as [H1 H2].
  destruct (H2 Hnum) as (d & _ & _ & Hm & _).
  split; [exact H1 | exact Hm].
Defined.

Lemma Qfloor_plus_Z (y : Q) (k : Z) :
  Qfloor (y + inject_Z k) = (Qfloor y + k)%Z.
Proof.
  destruct y as [a b]. unfold Qplus, inject_Z, Qfloor. cbn [Qnum Qden].
  rewrite Pos.mul_1_r, Z.mul_1_r. apply Z_div_plus. reflexivity.
Qed.

Lemma float_mod_shift (x : Q) (m k : Z) :
  (0 < m)%Z -> (float_mod (x + inject_Z (k * m)) m == float_mod x m)%Q.
Proof.
  intros Hm. unfold float_mod.
  assert (Hq : ~ (inject_Z m == 0)%Q).
  { intros H. assert (Hlt : (0 < inject_Z m)%Q)
      by (change 0%Q with (inject_Z 0); rewrite <- Zlt_Qlt; exact Hm).
    rewrite H in Hlt. apply (Qlt_irrefl 0 Hlt). }
  assert (E : ((x + inject_Z (k * m)) / inject_Z m == x / inject_Z m + inject_Z k)%Q).
  { rewrite inject_Z_mult. field. exact Hq. }
  rewrite (Qfloor_comp _ _ E), Qfloor_plus_Z.
  rewrite !inject_Z_mult, inject_Z_plus. ring.
Qed.

(** X19: the cyclic slow window is periodic: with a period and a window
    that are numbers, a send time and the same send time any whole number
    of cycles (period plus window) later or earlier get the same answer. *)
Theorem in_slow_window_periodic (w : World) (send_ts : Q) (cycle k : Z) :
  slow_cycle w = Some cycle ->
  (1 <= cycle)%Z
  /\ _in_slow_window w (send_ts + inject_Z (k * cycle)) = _in_slow_window w send_ts.
Proof.
  unfold slow_cycle, _in_slow_window.
  destruct (py_int (setting_or (feature_settings w) "slowdown_period_s" (VInt 100)))
    as [p | e]; [| discriminate].
  destruct (py_int (setting_or (feature_settings w) "slowdown_window_s" (VInt 20)))
    as [s | e]; [| discriminate].
  intros H. injection H as <-. split; [lia |].
  destruct (negb (is_enabled w SLOWDOWN)); [reflexivity |].
  cbv beta iota zeta delta [mbind result_bind].
  destruct (Z.max 0 s <=? 0)%Z; [reflexivity |].
  f_equal. apply Qle_bool_comp.
  etransitivity; [| apply (float_mod_shift _ _ k); lia].
  apply float_mod_comp. ring.
Qed.

Lemma in_slow_window_periodic_witness :
  _in_slow_window w_slow (110 + inject_Z (7 * 120)) = _in_slow_window w_slow 110.
Proof.
  apply (in_slow_window_periodic w_slow 110 120 7). reflexivity.
Defined.

(** ** How long the gate holds a reveal *)

Lemma Qfloor_bounds (x : Q) :
  (inject_Z (Qfloor x) <= x)%Q /\ (x < inject_Z (Qfloor x) + 1)%Q.
Proof.
  split; [apply Qfloor_le |].
  pose proof (Qlt_floor x) as H. rewrite inject_Z_plus in H. exact H.
Qed.

(** X20: for a slow turn the timing decision and the gate together hold
    the reveal until the send time plus the minimum delay, to the
    millisecond: a response that is there by then is revealed at once, and
    for an earlier one the gate schedules the reveal after a whole number
    of milliseconds that, counted from the arrival, ends within the last
    millisecond before that time and not after it. *)
Theorem slow_turn_reveal_time (w : World) (sent_ts now : Q) (fn : proceed_fn) :
  slowdown_settings_numeric w = true ->
  let w1 := exec (_prepare_turn_slowdown sent_ts) w in
  _must_slow_turn w1 = true ->
  exists d,
    py_float (setting_or (feature_settings w) "slowdown_min_delay_s" (VInt 4)) = Ok d
    /\ ((sent_ts + d <= now)%Q -> _maybe_delay_then fn now w1 = run_proceed fn w1)
    /\ ((now < sent_ts + d)%Q ->
        exists ms,
          _maybe_delay_then fn now w1 =
            (Ok tt, set_effects (fun l => l ++ [SingleShot ms (cb_proceed fn)]) w1)
          /\ (0 <= ms)%Z
          /\ (sent_ts + d - 1 / 1000 < now + inject_Z ms / 1000)%Q
          /\ (now + inject_Z ms / 1000 <= sent_ts + d)%Q).
Proof.
  intros Hnum w1 Hmust.
  destruct (slowdown_settings_numeric_split w Hnum) as (Hp & Hs & Ht & Hm).
  destruct (slowdown_permanent_active_returns w sent_ts Ht) as [perm Hperm].
  destruct (in_slow_window_returns w sent_ts Hp Hs) as [cyc Hcyc].
  destruct (numeric_py_float _ _ 4 Hm) as [d Hd].
  assert (Hsome : _earliest_display_ts w1 = Some (sent_ts + d)%Q).
  { subst w1. revert Hmust.
    rewrite (prepare_turn_slowdown_eq w sent_ts perm cyc d Hperm Hcyc Hd).
    cbn [snd]. wproj. destruct (perm || cyc); [reflexivity | discriminate]. }
  exists d. split; [exact Hd |]. split.
  - intros Hle. apply maybe_delay_then_immediate. right. right.
    exists (sent_ts + d)%Q. split; [exact Hsome | exact Hle].
  - intros Hlt. exists (Qfloor ((sent_ts + d - now) * 1000)).
    split; [apply (maybe_delay_then_scheduled w1 fn now _ Hmust Hsome Hlt) |].
    destruct (Qfloor_bounds ((sent_ts + d - now) * 1000)) as [Hlo Hhi].
    split.
    + change 0%Z with (Qfloor 0). apply Qfloor_resp_le. lra.
    + unfold Qdiv. change (/ 1000)%Q with (1 # 1000)%Q. split; lra.
Qed.

Lemma slow_turn_reveal_time_witness :
  _maybe_delay_then (proceed_response "yo") (111 + 1 / 3)
    (exec (_prepare_turn_slowdown 110) w_slow)
  = (Ok tt,
     set_effects
       (fun l => l ++ [SingleShot 2666 (cb_proceed (proceed_response "yo"))])
       (exec (_prepare_turn_slowdown 110) w_slow)).
Proof.
  assert (Hnum : slowdown_settings_numeric w_slow = true) by (vm_compute; reflexivity).
  assert (Hmust : _must_slow_turn (exec (_prepare_turn_slowdown 110) w_slow) = true)
    by (vm_compute; reflexivity).
  destruct (slow_turn_reveal_time w_slow 110 (111 + 1 / 3) (proceed_response "yo")
              Hnum Hmust) as (d & Hd & _ & Hlate).
  assert (E : d = 4%Q) by (vm_compute in Hd; congruence).
  subst d.
  destruct Hlate as (ms & Hgate & H0 & Hlo & Hhi); [vm_compute; reflexivity |].
  assert (Ems : ms = 2666%Z).
  { unfold Qdiv in Hlo, Hhi. change (/ 1000)%Q with (1 # 1000)%Q in Hlo, Hhi.
    change (/ 3)%Q with (1 # 3)%Q in Hlo, Hhi.
    assert (Hlo' : (2665 < inject_Z ms)%Q) by lra.
    assert (Hhi' : (inject_Z ms < 2667)%Q) by lra.
    change 2665%Q with (inject_Z 2665) in Hlo'.
    change 2667%Q with (inject_Z 2667) in Hhi'.
    rewrite <- Zlt_Qlt in Hlo', Hhi'. lia. }
  subst ms. exact Hgate.
Defined.

(** ** Scripted steps *)

Lemma play_step_normal (current_step : step) (now : Q) (w : World) :
  default "normal" (current_step !! "type") = "normal" ->
  play_step current_step now w =
    (Ok true,
     set_effects
       (fun l => l ++
          [SingleShot 1000
             (cb_on_response
                (default "SCRIPT ERROR: Missing 'response' key"
                   (current_step !! "response")))])
       (if is_enabled w THINKING
        then set_effects (fun l => l ++ [ThinkingShown])
               (set_current_thinking_bubble (fun _ => true) w)
        else w)).
Proof.
  intros Ht. unfold play_step. rewrite Ht. cbn [String.eqb Ascii.eqb Bool.eqb].
  unfold _start_thinking. unfold_M. cbn [id].
  destruct (is_enabled w THINKING); reflexivity.
Qed.

(** X21: in scripted mode a step of type normal, or without a type,
    answers the turn without the model: the cursor advances by one, the
    thinking bubble is shown when that feature is on, and the response of
    the step (or the script-error text when the step has none) is handed
    to the response slot by a timer of 1000 ms; no worker thread is
    started and nothing is committed yet. *)
Theorem scripted_normal_step (w : World) (txt : string) (sent_ts now : Q)
    (current_step : step) :
  is_enabled w SCRIPTED_RESPONSES = true ->
  slowdown_settings_numeric w = true ->
  current_script w !! script_index w = Some current_step ->
  default "normal" (current_step !! "type") = "normal" ->
  let reply :=
    default "SCRIPT ERROR: Missing 'response' key" (current_step !! "response") in
  let w' := exec (_send_after_delay txt sent_ts now) w in
  fst (_send_after_delay txt sent_ts now w) = Ok tt
  /\ script_index w' = script_index w + 1
  /\ effects w' =
       effects w
       ++ (if is_enabled w THINKING then [ThinkingShown] else [])
       ++ [SingleShot 1000 (cb_on_response reply)]
  /\ (forall t, ~ In (ThreadStarted t)
                    ((if is_enabled w THINKING then [ThinkingShown] else [])
                     ++ [SingleShot 1000 (cb_on_response reply)]))
  /\ history w' = history w
  /\ count w' = count w.
Proof.
  intros Hon Hnum Hstep Htype reply w'.
  destruct (prepare_turn_slowdown_returns w sent_ts Hnum) as (must & earliest & E1).
  set (w1 := set_earliest_display_ts (fun _ => earliest)
               (set_must_slow_turn (fun _ => must) w)) in *.
  assert (E2 : scripted_turn now w1 =
                 play_step current_step now
                   (set_script_index (fun i => i + 1) (cached w1))).
  { apply scripted_turn_step; [exact Hon | exact Hstep]. }
  rewrite play_step_normal in E2 by exact Htype.
  assert (E : _send_after_delay txt sent_ts now w = (Ok tt, snd (scripted_turn now w1))).
  { unfold _send_after_delay.
    rewrite (exec_bind _ _ w w1 tt) by exact E1.
    rewrite (exec_bind _ _ _ _ _ E2). rewrite E2. reflexivity. }
  subst w'. rewrite E, E2. cbn [fst snd]. fold reply.
  change (is_enabled (set_script_index (fun i => i + 1) (cached w1)) THINKING)
    with (is_enabled w THINKING).
  split; [reflexivity |].
  destruct (is_enabled w THINKING); unfold cached, w1; wproj;
    rewrite <- ?app_assoc;
    (repeat split; try reflexivity);
    intros t [H | [H | []]] || intros t [H | []]; discriminate H.
Qed.

Lemma scripted_normal_step_witness :
  effects (exec (_send_after_delay "one" 1 1) w_script)
    = [SingleShot 1000 (cb_on_response "Hello.")]
  /\ script_index (exec (_send_after_delay "one" 1 1) w_script) = 1.
Proof.
  assert (Hon : is_enabled w_script SCRIPTED_RESPONSES = true)
    by (vm_compute; reflexivity).
  assert (Hnum : slowdown_settings_numeric w_script = true)
    by (vm_compute; reflexivity).
  assert (Hstep : current_script w_script !! script_index w_script = Some step_hello)
    by (vm_compute; reflexivity).
  assert (Htype : default "normal" (step_hello !! "type") = "normal")
    by (vm_compute; reflexivity).
  destruct (scripted_normal_step w_script "one" 1 1 step_hello Hon Hnum Hstep Htype)
    as (_ & Hi & He & _).
  split; [rewrite He; vm_compute; reflexivity | exact Hi].
Defined.

(** ** Blocks of a blueprint, one after the other *)

(** X22: the flags of a block end with the block, its settings do not:
    after a first block and then a second are activated, a flag reads what
    the second block gives it, and false when the second block does not
    name it, whatever the first block set; but the settings table is the
    overrides of the second block over those of the first over the table
    before, so a setting the first block overrode and the second does not
    name keeps the value of the first block. *)
Theorem block_settings_persist (w : World) (first second : block) :
  let w1 := exec (_apply_block_config first) w in
  let w2 := exec (_apply_block_config second) w1 in
  (forall flag,
     is_enabled w2 flag
     = default false (feature_override (default [] (b_features second)) flag))
  /\ feature_settings w2
     = default ∅ (b_settings second)
       ∪ (default ∅ (b_settings first) ∪ feature_settings w)
  /\ (forall key v,
        default ∅ (b_settings first) !! key = Some v ->
        default ∅ (b_settings second) !! key = None ->
        feature_settings w2 !! key = Some v).
Proof.
  intros w1 w2.
  destruct (apply_block_config_state first w) as (_ & E1 & _). fold w1 in E1.
  destruct (apply_block_config_state second w1) as (_ & E2 & _). fold w2 in E2.
  split; [intros flag; apply is_enabled_after_block |].
  split; [rewrite E2, E1; reflexivity |].
  intros key v H1 H2. rewrite E2, E1.
  rewrite lookup_union_r by exact H2. apply lookup_union_Some_l. exact H1.
Qed.

(** ** Loading a blueprint *)

Lemma initialize_blueprint_eq (plan : list block) (w : World) :
  exec (_initialize_blueprint_mode (Some plan)) w
  = exec _start_next_block (set_experiment_plan (fun _ => Some plan) w).
Proof. reflexivity. Qed.

(** X23: loading a blueprint never raises (what goes wrong while the first
    block starts is logged and dropped).  With at least one block, in a
    window that has not started a block yet, the first block becomes the
    current one, with its counter at zero, its flags, and its settings
    merged over the table; with no block at all the index stays where it
    was and the session stays in standard mode; and with no blueprint file
    the plan stays unset and an error message is shown. *)
Theorem initialize_blueprint_first_block (w : World) (blk : block) (rest : list block) :
  current_block_index w = (-1)%Z ->
  let w' := exec (_initialize_blueprint_mode (Some (blk :: rest))) w in
  let w_empty := exec (_initialize_blueprint_mode (Some [])) w in
  let w_none := exec (_initialize_blueprint_mode None) w in
  (forall file, fst (_initialize_blueprint_mode (Some file) w) = Ok tt)
  /\ (experiment_plan w' = Some (blk :: rest)
      /\ plan_active w' = true
      /\ current_block_index w' = 0%Z
      /\ messages_in_current_block w' = 0%Z
      /\ (forall flag,
            is_enabled w' flag
            = default false (feature_override (default [] (b_features blk)) flag))
      /\ feature_settings w' = default ∅ (b_settings blk) ∪ feature_settings w)
  /\ (plan_active w_empty = false
      /\ current_block_index w_empty = (-1)%Z
      /\ effects w_empty = effects w)
  /\ (experiment_plan w_none = experiment_plan w
      /\ current_block_index w_none = (-1)%Z
      /\ exists name,
           effects w_none =
             effects w ++
             [SystemMessage ("ERROR: Blueprint file '" +:+ name +:+ "' not found.")]).
Proof.
  intros Hi w' w_empty w_none.
  split; [intros file; reflexivity |].
  split.
  { subst w'. rewrite initialize_blueprint_eq.
    set (w0 := set_experiment_plan (fun _ => Some (blk :: rest)) w).
    assert (Hp : experiment_plan w0 = Some (blk :: rest)) by reflexivity.
    assert (Hi0 : current_block_index w0 = (-1)%Z) by exact Hi.
    rewrite (start_next_block_activate w0 (blk :: rest) blk Hp)
      by (rewrite Hi0; reflexivity || lia).
    match goal with |- context [_apply_block_config blk ?x] => set (w1 := x) end.
    destruct (apply_block_config_state blk w1) as (_ & E2 & E3 & E4 & E5).
    cbv zeta in E2, E3, E4, E5.
    assert (Ha : plan_active (snd (_apply_block_config blk w1)) = true).
    { unfold plan_active. rewrite E3. reflexivity. }
    rewrite E2, E3, E4, E5, Ha. unfold w1, w0. wproj.
    repeat split; try reflexivity; [lia |].
    intros flag. apply is_enabled_after_block. }
  split.
  { subst w_empty. rewrite initialize_blueprint_eq.
    repeat split; try reflexivity. exact Hi. }
  subst w_none. unfold _initialize_blueprint_mode. unfold_M. cbn [id snd]. wproj.
  repeat split; try reflexivity; [exact Hi |]. eexists. reflexivity.
Qed.

Lemma initialize_blueprint_first_block_witness :
  current_block_index w_two_blocks = 0%Z
  /\ is_enabled w_two_blocks THINKING = true.
Proof.
  pose (w0 := new_window (flags_on [DYNAMIC_FEATURE_CHANGING])
                feature_settings_initial [] 0 (always Cancelled)).
  assert (Hi : current_block_index w0 = (-1)%Z) by reflexivity.
  destruct (initialize_blueprint_first_block w0 block_warm_up [block_main] Hi)
    as (_ & (_ & _ & Hidx & _ & Hflags & _) & _).
  split; [exact Hidx |].
  change w_two_blocks
    with (exec (_initialize_blueprint_mode (Some [block_warm_up; block_main])) w0).
  rewrite Hflags. reflexivity.
Defined.

(** ** The turn at which the session ends *)

Lemma check_auto_end_below (w : World) (m : Z) :
  is_enabled w AUTO_END_AFTER_N_MSGS = true ->
  setting_or (feature_settings w) "auto_end_messages" (VInt 10) = VInt m ->
  (assistant_message_count w < m)%Z ->
  _check_auto_end_conditions w = (Ok false, w).
Proof.
  intros Hon Hm Hlt. unfold _check_auto_end_conditions. unfold_M. cbn [id].
  rewrite Hon, Hm. unfold int_ge.
  rewrite (proj2 (Z.leb_gt m (assistant_message_count w)) Hlt). reflexivity.
Qed.

Lemma block_or_enable_input_off (w : World) :
  is_enabled w BLOCK_MSGS = false ->
  block_or_enable_input w = (Ok tt, set_effects (fun l => l ++ [InputEnabled]) w).
Proof.
  intros H. unfold block_or_enable_input. rewrite bind_gets. cbn [id].
  rewrite H. reflexivity.
Qed.

Lemma set_effects_nil (w : World) : set_effects (fun l => l ++ []) w = w.
Proof. destruct w. unfold set_effects. wproj. rewrite app_nil_r. reflexivity. Qed.

(** The standard commit below the maximum, with no survey and no cooldown. *)
Lemma finish_response_below_maximum (w : World) (reply : string) (m : Z) :
  plan_active w = false ->
  is_enabled w INTER_TRIAL_SURVEY = false ->
  is_enabled w BLOCK_MSGS = false ->
  is_enabled w AUTO_END_AFTER_N_MSGS = true ->
  setting_or (feature_settings w) "auto_end_messages" (VInt 10) = VInt m ->
  (assistant_message_count w + 1 < m)%Z ->
  _finish_response reply w =
    (Ok tt,
     set_effects (fun l => l ++ [InputEnabled])
       (set_earliest_display_ts (fun _ => None)
          (set_must_slow_turn (fun _ => false) (recorded reply w)))).
Proof.
  intros Hp Hs Hb Ha Hm Hlt. rewrite finish_response_recorded, Hp.
  set (w5 := recorded reply w).
  assert (E : survey_trigger w5 = (Ok tt, set_effects (fun l => l ++ []) w5)).
  { rewrite set_effects_nil. apply survey_trigger_off. exact Hs. }
  rewrite (finish_in_standard_eq w5 [] E), set_effects_nil.
  erewrite exec_bind; [| apply (check_auto_end_below _ m); [exact Ha | exact Hm | exact Hlt]].
  apply block_or_enable_input_off. exact Hb.
Qed.

(** X24: with the message-count auto-end on in standard mode, and neither
    the survey nor the cooldown on, the session is not ended early: as long
    as the count of assistant messages stays below the maximum, every
    commit just enables the input again, and it is the commit that brings
    the count to the maximum that announces the end and schedules the
    close. *)
Theorem auto_end_not_before_maximum (w : World) (replies : list string) (m : Z) :
  plan_active w = false ->
  is_enabled w INTER_TRIAL_SURVEY = false ->
  is_enabled w BLOCK_MSGS = false ->
  is_enabled w AUTO_END_AFTER_N_MSGS = true ->
  setting_or (feature_settings w) "auto_end_messages" (VInt 10) = VInt m ->
  (assistant_message_count w + Z.of_nat (length replies) < m)%Z ->
  let w' := commits replies w in
  effects w' = effects w ++ replicate (length replies) InputEnabled
  /\ assistant_message_count w'
     = (assistant_message_count w + Z.of_nat (length replies))%Z
  /\ (forall reply,
        (assistant_message_count w' + 1 = m)%Z ->
        effects (exec (_finish_response reply) w') =
          effects w' ++
          [SystemMessage "Chat ended automatically: message limit reached.";
           SingleShot 2000 cb_end_chat]).
Proof.
  intros Hp Hs Hb Ha Hm Hlt w'.
  assert (H : plan_active w' = false
              /\ enabled_features w' = enabled_features w
              /\ feature_settings w' = feature_settings w
              /\ effects w' = effects w ++ replicate (length replies) InputEnabled
              /\ assistant_message_count w'
                 = (assistant_message_count w + Z.of_nat (length replies))%Z).
  { subst w'. induction replies as [| reply replies IH] using rev_ind.
    - cbn. rewrite app_nil_r, Z.add_0_r. auto.
    - rewrite length_app in Hlt. cbn [length] in Hlt.
      destruct IH as (IHp & IHf & IHs & IHe & IHa); [lia |].
      rewrite commits_snoc.
      rewrite (finish_response_below_maximum (commits replies w) reply m);
        unfold is_enabled; rewrite ?IHf, ?IHs; try assumption; [| lia].
      unfold recorded, plan_active in *. wproj.
      rewrite IHe, IHa, length_app, replicate_add, <- app_assoc. cbn [length replicate].
      repeat split; try assumption. lia. }
  destruct H as (Hp' & Hf' & Hs' & He' & Ha').
  split; [exact He' |]. split; [exact Ha' |].
  intros reply Hmax.
  rewrite finish_response_recorded, Hp'.
  set (w5 := recorded reply w').
  assert (E : survey_trigger w5 = (Ok tt, set_effects (fun l => l ++ []) w5)).
  { rewrite set_effects_nil. apply survey_trigger_off.
    unfold is_enabled, w5, recorded. wproj. rewrite Hf'. exact Hs. }
  rewrite (finish_in_standard_eq w5 [] E), set_effects_nil.
  erewrite exec_bind.
  2: { apply check_auto_end_reached.
       - unfold is_enabled, w5, recorded. wproj. rewrite Hf'. exact Ha.
       - unfold w5, recorded. wproj. rewrite Hs', Hm. unfold int_ge.
         rewrite (proj2 (Z.leb_le m _)); [reflexivity | lia]. }
  reflexivity.
Qed.

Lemma auto_end_not_before_maximum_witness :
  effects (commits ["one"; "two"] w_auto_end_three) = [InputEnabled; InputEnabled]
  /\ effects (exec (_finish_response "three") (commits ["one"; "two"] w_auto_end_three)) =
       [InputEnabled; InputEnabled;
        SystemMessage "Chat ended automatically: message limit reached.";
        SingleShot 2000 cb_end_chat].
Proof.
  assert (Hp : plan_active w_auto_end_three = false) by (vm_compute; reflexivity).
  assert (Hs : is_enabled w_auto_end_three INTER_TRIAL_SURVEY = false)
    by (vm_compute; reflexivity).
  assert (Hb : is_enabled w_auto_end_three BLOCK_MSGS = false)
    by (vm_compute; reflexivity).
  assert (Ha : is_enabled w_auto_end_three AUTO_END_AFTER_N_MSGS = true)
    by (vm_compute; reflexivity).
  assert (Hm : setting_or (feature_settings w_auto_end_three) "auto_end_messages"
                 (VInt 10) = VInt 3) by (vm_compute; reflexivity).
  assert (Hlt : (assistant_message_count w_auto_end_three
                 + Z.of_nat (length ["one"; "two"]) < 3)%Z)
    by (vm_compute; reflexivity).
  destruct (auto_end_not_before_maximum w_auto_end_three ["one"; "two"] 3
              Hp Hs Hb Ha Hm Hlt) as (He & Hc & Hend).
  assert (E0 : effects w_auto_end_three = []) by (vm_compute; reflexivity).
  assert (A0 : assistant_message_count w_auto_end_three = 0%Z)
    by (vm_compute; reflexivity).
  rewrite E0 in He. rewrite A0 in Hc.
  split; [exact He |].
  rewrite Hend, He; [reflexivity |]. rewrite Hc. reflexivity.
Defined.

(** ** The thinking bubble at the reveal *)

Lemma reveal_tail_keeps_bubble :
  (forall reply b, keeps (same _current_thinking_bubble) (_display_response reply b))
  /\ (forall reply b, keeps (effects_grow not_thinking) (_display_response reply b)).
Proof.
  split; intros reply b; unfold _display_response; unfold_methods.
  - keeps_tac.
  - keeps_tac;
      first [ apply effects_grow_same; reflexivity
            | apply effects_grow_emit; split; discriminate ].
Qed.

(** X25: every reveal tears the thinking bubble down first: whichever
    response is revealed (a single one, a live pair or a scripted pair),
    in whatever mode, no thinking bubble is shown afterwards, the bubble is
    removed exactly when there was one, and the reveal shows no new one. *)
Theorem reveal_removes_thinking_bubble (w : World) (fn : proceed_fn) :
  let w' := exec (run_proceed fn) w in
  _current_thinking_bubble w' = false
  /\ exists rest,
       effects w' =
         effects w
         ++ (if _current_thinking_bubble w then [ThinkingRemoved] else [])
         ++ rest
       /\ Forall not_thinking rest.
Proof.
  intros w'.
  set (w1 := if _current_thinking_bubble w
             then set_current_thinking_bubble (fun _ => false)
                    (set_effects (fun l => l ++ [ThinkingRemoved]) w)
             else w).
  assert (E1 : stop_thinking w = (Ok tt, w1)).
  { unfold stop_thinking, w1. unfold_M. cbn [id].
    destruct (_current_thinking_bubble w); reflexivity. }
  assert (Hb1 : _current_thinking_bubble w1 = false).
  { unfold w1. destruct (_current_thinking_bubble w) eqn:Hb; [reflexivity | exact Hb]. }
  assert (He1 : effects w1 =
                effects w ++ (if _current_thinking_bubble w then [ThinkingRemoved] else [])).
  { unfold w1. destruct (_current_thinking_bubble w); [reflexivity |].
    rewrite app_nil_r. reflexivity. }
  assert (H : exists tail : M unit,
            run_proceed fn w = tail w1
            /\ keeps (same _current_thinking_bubble) tail
            /\ keeps (effects_grow not_thinking) tail).
  { destruct reveal_tail_keeps_bubble as [K1 K2].
    destruct fn as [reply | | reply_a reply_b]; unfold run_proceed;
      rewrite (exec_bind _ _ _ _ _ E1); eexists; (split; [reflexivity |]).
    - split; [apply K1 | apply K2].
    - split; unfold_methods; keeps_tac;
        first [ apply effects_grow_same; reflexivity
              | apply effects_grow_emit; split; discriminate ].
    - split; unfold_methods; keeps_tac;
        first [ apply effects_grow_same; reflexivity
              | apply effects_grow_emit; split; discriminate ]. }
  destruct H as (tail & E & K1 & K2).
  subst w'. rewrite E. split; [rewrite K1; exact Hb1 |].
  destruct (K2 w1) as (rest & Er & Hr).
  exists rest. split; [| exact Hr]. rewrite Er, He1, <- app_assoc. reflexivity.
Qed.

(** ** The survey between trials *)

Lemma survey_trigger_on (w : World) (n : Z) :
  is_enabled w INTER_TRIAL_SURVEY = true ->
  default (VInt 5) (feature_settings w !! "survey_trigger_count") = VInt n ->
  (0 < assistant_message_count w)%Z ->
  survey_trigger w =
    if (n =? 0)%Z then (Raise ZeroDivisionError, w)
    else (Ok tt,
          set_effects
            (fun l => l ++
               (if (assistant_message_count w mod n =? 0)%Z
                then [SingleShot 1000 cb_show_survey] else []))
            w).
Proof.
  intros Hon Hn Hpos. unfold survey_trigger. rewrite bind_gets. cbn [id].
  rewrite Hon, Hn, (proj2 (Z.ltb_lt 0 _) Hpos).
  unfold int_mod, py_mod. unfold_M.
  destruct (n =? 0)%Z; [reflexivity |].
  destruct (_ =? 0)%Z; [reflexivity |].
  rewrite set_effects_nil. reflexivity.
Qed.

Lemma standard_tail_no_survey :
  keeps (effects_grow not_survey)
    (ended ← _check_auto_end_conditions;
     if (ended : bool) then skip else block_or_enable_input).
Proof.
  unfold_methods. keeps_tac;
    first [ apply effects_grow_same; reflexivity
          | apply effects_grow_emit; unfold not_survey; discriminate ].
Qed.

(** X26: in standard mode with the survey on, the commit of a turn
    schedules the survey, 1000 ms later, exactly when the count of
    assistant messages, this one included, is a multiple of the trigger
    count, and it clears the timing decision in any case.  With a trigger
    count of zero the commit raises ZeroDivisionError once the turn is
    recorded: nothing is scheduled, the input is not enabled, and the
    timing decision of the turn is left as it was. *)
Theorem survey_on_multiples (w : World) (reply : string) (n : Z) :
  plan_active w = false ->
  is_enabled w INTER_TRIAL_SURVEY = true ->
  default (VInt 5) (feature_settings w !! "survey_trigger_count") = VInt n ->
  (0 <= assistant_message_count w)%Z ->
  let messages := (assistant_message_count w + 1)%Z in
  let w' := exec (_finish_response reply) w in
  (n <> 0%Z ->
   _must_slow_turn w' = false
   /\ exists rest,
        effects w' =
          effects w
          ++ (if (messages mod n =? 0)%Z then [SingleShot 1000 cb_show_survey] else [])
          ++ rest
        /\ Forall not_survey rest)
  /\ (n = 0%Z ->
      fst (_finish_response reply w) = Raise ZeroDivisionError
      /\ assistant_message_count w' = messages
      /\ effects w' = effects w
      /\ _must_slow_turn w' = _must_slow_turn w
      /\ _earliest_display_ts w' = _earliest_display_ts w).
Proof.
  intros Hp Hon Hn Hpos messages w'. subst w'.
  rewrite finish_response_recorded, Hp.
  set (w5 := recorded reply w).
  assert (E : survey_trigger w5 = _) by
    (apply (survey_trigger_on w5 n Hon Hn); unfold w5, recorded; wproj; lia).
  change (assistant_message_count w5) with messages in E.
  split.
  - intros Hn0. apply Z.eqb_neq in Hn0. rewrite Hn0 in E.
    rewrite (finish_in_standard_eq w5 _ E).
    match goal with |- context [_ (set_earliest_display_ts ?f ?x)] =>
      set (w6 := set_earliest_display_ts f x) end.
    destruct standard_tail_keeps_decision as [K1 _].
    destruct (standard_tail_no_survey w6) as (rest & Er & Hr).
    rewrite K1. split; [reflexivity |].
    exists rest. split; [| exact Hr]. rewrite Er. unfold w6, w5, recorded. wproj.
    rewrite <- app_assoc. reflexivity.
  - intros ->. cbn [Z.eqb] in E. unfold finish_in_standard.
    rewrite (exec_bind_raise _ _ _ _ _ E). cbn [fst snd].
    unfold w5, recorded. wproj. repeat split; reflexivity.
Qed.

Lemma survey_on_multiples_witness :
  exists rest,
    effects (exec (_finish_response "fourth") w_survey)
    = SingleShot 1000 cb_show_survey :: rest.
Proof.
  assert (Hp : plan_active w_survey = false) by (vm_compute; reflexivity).
  assert (Hon : is_enabled w_survey INTER_TRIAL_SURVEY = true)
    by (vm_compute; reflexivity).
  assert (Hn : default (VInt 5) (feature_settings w_survey !! "survey_trigger_count")
               = VInt 2) by (vm_compute; reflexivity).
  assert (Hpos : (0 <= assistant_message_count w_survey)%Z)
    by (vm_compute; discriminate).
  destruct (survey_on_multiples w_survey "fourth" 2 Hp Hon Hn Hpos) as [Hdue _].
  destruct (Hdue ltac:(discriminate)) as (_ & rest & He & _).
  assert (A : assistant_message_count w_survey = 3%Z) by (vm_compute; reflexivity).
  assert (E0 : effects w_survey = []) by (vm_compute; reflexivity).
  rewrite A, E0 in He. exists rest. exact He.
Defined.

(** ** The script file is read once *)

(** X27: the script is read from its file at most once: the first call of
    [get_scripted_convo] returns what the file holds and caches it, also
    when that is the empty script; from then on every call returns the
    cached script and changes nothing, whatever the file holds by then. *)
Theorem get_scripted_convo_reads_once (w : World) :
  let w1 := exec get_scripted_convo w in
  fst (get_scripted_convo w) = Ok (current_script w)
  /\ _SCRIPTED_CONVO_CACHE w1 = Some (current_script w)
  /\ get_scripted_convo w1 = (Ok (current_script w), w1)
  /\ (forall w2,
        _SCRIPTED_CONVO_CACHE w2 = _SCRIPTED_CONVO_CACHE w1 ->
        fst (get_scripted_convo w2) = Ok (current_script w)
        /\ _SCRIPTED_CONVO_CACHE (exec get_scripted_convo w2)
           = Some (current_script w))
  /\ (_SCRIPTED_CONVO_CACHE w = None -> current_script w = script_file w).
Proof.
  intros w1. subst w1. rewrite get_scripted_convo_eq. cbn [fst snd].
  assert (Hc : _SCRIPTED_CONVO_CACHE (cached w) = Some (current_script w)) by reflexivity.
  split; [reflexivity |]. split; [exact Hc |].
  split.
  { rewrite get_scripted_convo_eq. reflexivity. }
  split.
  { intros w2 H2. rewrite get_scripted_convo_eq. cbn [fst snd].
    unfold cached, current_script at 1 3. wproj. rewrite H2, Hc. split; reflexivity. }
  intros Hn. unfold current_script. rewrite Hn. reflexivity.
Qed.

(** ** Scripted A/B steps *)

Lemma prepare_turn_slowdown_off (w : World) (sent_ts : Q) :
  is_enabled w SLOWDOWN = false ->
  _prepare_turn_slowdown sent_ts w =
    (Ok tt,
     set_earliest_display_ts (fun _ => None) (set_must_slow_turn (fun _ => false) w)).
Proof.
  intros H. unfold _prepare_turn_slowdown. rewrite bind_gets. cbn [id].
  rewrite H. reflexivity.
Qed.

(** The second half of the dialog call starts no worker thread, keeps the
    script and the cursor, and shows no thinking bubble. *)
Lemma ab_dialog_closed_keeps (a b : string) (outcome : ab_outcome) :
  keeps script_same (ab_dialog_closed a b outcome)
  /\ keeps (same _current_thinking_bubble) (ab_dialog_closed a b outcome)
  /\ keeps (effects_grow no_thread) (ab_dialog_closed a b outcome).
Proof.
  split; [unfold ab_dialog_closed, _display_response; keeps_tac |].
  split; unfold_methods; keeps_tac;
    first [ apply effects_grow_same; reflexivity
          | apply effects_grow_emit; intros t; discriminate ].
Qed.

(** X28: in scripted mode with the slow-down off, a step of type ab_test
    answers the turn without the model: the cursor advances by one and the
    dialog is shown at once with the two scripted responses, each replaced
    by its script-error text when the step lacks it; the thinking bubble,
    when that feature is on, is shown and removed again within the same
    call; and the call goes on, before it returns, with what the
    participant answers in the dialog, so that with Option B the scripted
    response B is committed by the call.  No worker thread is started, and
    the cursor and the bubble are not touched again. *)
Theorem scripted_ab_step (w : World) (txt : string) (sent_ts now : Q)
    (current_step : step) :
  is_enabled w SCRIPTED_RESPONSES = true ->
  is_enabled w SLOWDOWN = false ->
  current_script w !! script_index w = Some current_step ->
  current_step !! "type" = Some "ab_test" ->
  let reply_a :=
    default "SCRIPT ERROR: Missing 'response_a'" (current_step !! "response_a") in
  let reply_b :=
    default "SCRIPT ERROR: Missing 'response_b'" (current_step !! "response_b") in
  let thinking :=
    if is_enabled w THINKING then [ThinkingShown; ThinkingRemoved]
    else if _current_thinking_bubble w then [ThinkingRemoved] else [] in
  let w' := exec (_send_after_delay txt sent_ts now) w in
  (exists opened,
     _send_after_delay txt sent_ts now w
     = ab_dialog_closed reply_a reply_b (participant w 0) opened
     /\ script_index opened = script_index w + 1
     /\ effects opened = effects w ++ thinking ++ [AbDialog reply_a reply_b]
     /\ _current_thinking_bubble opened = false
     /\ history opened = history w
     /\ count opened = count w)
  /\ script_index w' = script_index w + 1
  /\ _current_thinking_bubble w' = false
  /\ (exists rest,
        effects w' = effects w ++ thinking ++ [AbDialog reply_a reply_b] ++ rest
        /\ Forall no_thread rest)
  /\ (participant w 0 = Chose_B ->
        history w' = history w ++ [("assistant", reply_b)]
        /\ count w' = (count w + 1)%Z).
Proof.
  intros Hon Hoff Hstep Htype reply_a reply_b thinking w'.
  pose proof (prepare_turn_slowdown_off w sent_ts Hoff) as E1.
  set (w1 := set_earliest_display_ts (fun _ => None)
               (set_must_slow_turn (fun _ => false) w)) in *.
  set (w2 := set_script_index (fun i => i + 1) (cached w1)).
  assert (E2 : scripted_turn now w1 = play_step current_step now w2).
  { apply scripted_turn_step; [exact Hon | exact Hstep]. }
  set (w3 := if is_enabled w THINKING
             then set_effects (fun l => l ++ [ThinkingShown])
                    (set_current_thinking_bubble (fun _ => true) w2)
             else w2).
  assert (E3 : play_step current_step now w2 =
                 (_handle_scripted_ab_turn reply_a reply_b now;; mret true) w3).
  { unfold play_step. rewrite Htype. cbn [default from_option id String.eqb Ascii.eqb Bool.eqb].
    rewrite bind_gets. cbn [id].
    change (is_enabled w2 THINKING) with (is_enabled w THINKING).
    unfold w3, _start_thinking. unfold_M.
    destruct (is_enabled w THINKING); reflexivity. }
  assert (Hm3 : _must_slow_turn w3 = false).
  { unfold w3. destruct (is_enabled w THINKING); reflexivity. }
  assert (Hp3 : participant w3 = participant w).
  { unfold w3. destruct (is_enabled w THINKING); reflexivity. }
  set (opened := dialog_shown reply_a reply_b (bubble_removed w3)).
  destruct (bubble_removed_facts w3) as (Hb4 & He4 & Hp4 & _).
  assert (E4 : _handle_scripted_ab_turn reply_a reply_b now w3
               = ab_dialog_closed reply_a reply_b (participant w 0) opened).
  { unfold _handle_scripted_ab_turn.
    rewrite maybe_delay_then_immediate by (left; exact Hm3).
    unfold run_proceed. rewrite (exec_bind _ _ _ _ _ (stop_thinking_eq w3)).
    rewrite show_ab_dialog_eq, Hp4, Hp3. reflexivity. }
  assert (E : _send_after_delay txt sent_ts now w
              = ab_dialog_closed reply_a reply_b (participant w 0) opened).
  { unfold _send_after_delay.
    rewrite (exec_bind _ _ w w1 tt) by exact E1.
    unfold mbind, M_bind. rewrite E2, E3.
    unfold mbind, M_bind. rewrite E4.
    destruct (ab_dialog_closed reply_a reply_b (participant w 0) opened)
      as [[[] | e] wf]; reflexivity. }
  assert (Hopened :
    script_index opened = script_index w + 1
    /\ effects opened = effects w ++ thinking ++ [AbDialog reply_a reply_b]
    /\ _current_thinking_bubble opened = false
    /\ history opened = history w
    /\ count opened = count w).
  { unfold opened, dialog_shown. wproj. rewrite He4, Hb4.
    unfold bubble_removed, thinking, w3, w2, cached, w1.
    destruct (is_enabled w THINKING); wproj;
      [| destruct (_current_thinking_bubble w) eqn:Hb]; wproj;
      rewrite <- ?app_assoc, ?app_nil_r; repeat split; reflexivity. }
  destruct Hopened as (Hi & He & Hb & Hh & Hc).
  destruct (ab_dialog_closed_keeps reply_a reply_b (participant w 0))
    as (Ks & Kb & Kt).
  split; [exists opened; repeat split; assumption |].
  subst w'. rewrite E.
  split; [rewrite (proj1 (Ks opened)); exact Hi |].
  split; [rewrite Kb; exact Hb |].
  split.
  { destruct (Kt opened) as (rest & Er & Hr). exists rest.
    split; [| exact Hr]. rewrite Er, He, <- !app_assoc. reflexivity. }
  intros Hchoice. rewrite Hchoice. unfold ab_dialog_closed.
  rewrite bind_modify, bind_emit, bind_emit.
  match goal with |- context [_finish_response reply_b ?x] =>
    destruct (finish_response_records reply_b x) as (Rh & Rc & _) end.
  cbv zeta in Rh, Rc. rewrite Rh, Rc. wproj. rewrite Hh, Hc.
  split; reflexivity.
Qed.

Lemma scripted_ab_step_witness :
  effects (exec (_send_after_delay "which?" 1 1) w_script_ab) =
    [ThinkingShown; ThinkingRemoved;
     AbDialog "Left." "SCRIPT ERROR: Missing 'response_b'";
     SystemMessage "You selected Option B";
     AssistantMessage "SCRIPT ERROR: Missing 'response_b'";
     InputEnabled]
  /\ history (exec (_send_after_delay "which?" 1 1) w_script_ab) =
       [("assistant", "SCRIPT ERROR: Missing 'response_b'")].
Proof.
  assert (Hon : is_enabled w_script_ab SCRIPTED_RESPONSES = true)
    by (vm_compute; reflexivity).
  assert (Hoff : is_enabled w_script_ab SLOWDOWN = false) by (vm_compute; reflexivity).
  assert (Hstep : current_script w_script_ab !! script_index w_script_ab
                  = Some step_compare) by (vm_compute; reflexivity).
  assert (Htype : step_compare !! "type" = Some "ab_test") by (vm_compute; reflexivity).
  destruct (scripted_ab_step w_script_ab "which?" 1 1 step_compare Hon Hoff Hstep Htype)
    as (_ & _ & _ & _ & Hb).
  split; [vm_compute; reflexivity |].
  destruct (Hb eq_refl) as (Hh & _). rewrite Hh. vm_compute. reflexivity.
Defined.

(** ** The choice in the A/B dialog *)

#[global] Arguments ab_dialog_closed : simpl never.

